(** * FP8 codec, adder, multiplier and MAC unit of the FANE software model

    Shallow embedding of [sw/utils/Decoder.py], [sw/utils/Adder.py],
    [sw/utils/Multiplier.py] and the MAC units of [sw/Matmul.py].

    Conventions of the embedding.
    - Python [int] is [Z]; shifts and masks are [Z.shiftl], [Z.shiftr],
      [Z.land], [Z.lor].
    - Python [str] is [string]; bit patterns stay strings wherever the
      source keeps them as strings.
    - Python [float] is [pyfloat]: NaN, the two infinities, negative zero,
      and a finite value kept as an exact rational.  Every finite value the
      modelled code computes from 8-bit patterns is a dyadic rational with
      at most a dozen significant bits and a small exponent, so the
      binary64 operations of the source are exact on them and [Q]
      arithmetic gives the same results.
    - A raised exception is the [Raise] result of the [res] monad.
      [warnings.warn] only emits a diagnostic and does not change what a
      function returns; it is left out. *)

From Stdlib Require Import ZArith QArith Qpower Qround Qabs String Ascii List Bool.
From Stdlib Require Import Lia Lqa.
Import ListNotations.

Local Open Scope string_scope.
Local Open Scope Z_scope.

(** ** Exceptions *)

Inductive exn : Type :=
| ValueError
| IndexError
| TypeError.

Inductive res (A : Type) : Type :=
| Ok (a : A)
| Raise (e : exn).

Arguments Ok {A} a.
Arguments Raise {A} e.

Definition bind {A B : Type} (m : res A) (k : A -> res B) : res B :=
  match m with
  | Ok a => k a
  | Raise e => Raise e
  end.

Notation "x <- m ;; k" := (bind m (fun x => k))
  (at level 61, m at next level, right associativity).
Notation "' p <- m ;; k" := (bind m (fun p => k))
  (at level 61, p pattern, m at next level, right associativity).

(** ** Python primitives used by the sources *)

Module Py.

(** [s * n] for a string [s] and an int [n]: empty when [n <= 0]. *)
Fixpoint repeat_nat (s : string) (n : nat) : string :=
  match n with
  | O => ""
  | S n' => s ++ repeat_nat s n'
  end.

Definition str_mul (s : string) (n : Z) : string := repeat_nat s (Z.to_nat n).

(** Binary digits of a positive number, most significant first. *)
Fixpoint bin_digits_pos (p : positive) : string :=
  match p with
  | xH => "1"
  | xO p' => bin_digits_pos p' ++ "0"
  | xI p' => bin_digits_pos p' ++ "1"
  end.

(** [format(n, 'b')], also written [f"{n:b}"]. *)
Definition bin_digits (n : Z) : string :=
  match n with
  | Z0 => "0"
  | Zpos p => bin_digits_pos p
  | Zneg p => "-" ++ bin_digits_pos p
  end.

(** [format(n, f'0{w}b')]: sign-aware zero fill up to width [w]. *)
Definition format_0b (w : Z) (n : Z) : string :=
  match n with
  | Zneg p =>
      let d := bin_digits_pos p in
      "-" ++ str_mul "0" (w - 1 - Z.of_nat (String.length d)) ++ d
  | _ =>
      let d := bin_digits n in
      str_mul "0" (w - Z.of_nat (String.length d)) ++ d
  end.

(** ["{0:0>w}".format(s)]: right-align [s], fill with ['0']. *)
Definition rjust0 (w : Z) (s : string) : string :=
  str_mul "0" (w - Z.of_nat (String.length s)) ++ s.

(** [s[i:j]] for non-negative [i], [j]; out-of-range bounds are clamped. *)
Definition slice (i j : Z) (s : string) : string :=
  String.substring (Z.to_nat i) (Z.to_nat (j - i)) s.

(** [s[i:]] for non-negative [i]. *)
Definition slice_from (i : Z) (s : string) : string :=
  String.substring (Z.to_nat i) (String.length s) s.

(** [s[i]] for non-negative [i]; a one-character string, or IndexError. *)
Definition index (s : string) (i : Z) : res string :=
  match String.get (Z.to_nat i) s with
  | Some c => Ok (String c "")
  | None => Raise IndexError
  end.

(** [s[::-1]]. *)
Fixpoint rev_acc (s acc : string) : string :=
  match s with
  | EmptyString => acc
  | String c s' => rev_acc s' (String c acc)
  end.

Definition reverse (s : string) : string := rev_acc s "".

Definition len (s : string) : Z := Z.of_nat (String.length s).

Definition digit_value (c : ascii) : option Z :=
  let n := Z.of_nat (nat_of_ascii c) in
  if (48 <=? n) && (n <=? 57) then Some (n - 48) else None.

Fixpoint int_digits (base : Z) (s : string) (acc : Z) : res Z :=
  match s with
  | EmptyString => Ok acc
  | String c s' =>
      match digit_value c with
      | Some d => if d <? base then int_digits base s' (base * acc + d)
                  else Raise ValueError
      | None => Raise ValueError
      end
  end.

(** [int(s, base)] on a string of digits: the value, or ValueError for the
    empty string and for any character that is not a digit of the base.
    (Python also accepts a sign, surrounding blanks, a base prefix and
    underscores between digits; no string the modelled code builds or
    receives in the statements below has them.) *)
Definition int_of (base : Z) (s : string) : res Z :=
  match s with
  | EmptyString => Raise ValueError
  | _ => int_digits base s 0
  end.

(** [str(n)] for [n] in [0..9], the only use in the sources. *)
Definition str_digit (n : Z) : string :=
  String (ascii_of_nat (Z.to_nat (48 + n))) "".

(** [math.floor(math.log2(x))] for a positive finite [x]: the exponent
    [k] with [2^k <= x < 2^(k+1)]. *)
Definition floor_log2 (x : Q) : Z :=
  let k := Z.log2 (Qnum x) - Z.log2 (Zpos (Qden x)) in
  if Qle_bool (Qpower 2 k) x then k else k - 1.

(** [round(x)]: nearest integer, ties to the even one. *)
Definition round (x : Q) : Z :=
  let f := Qfloor x in
  let r := (x - inject_Z f)%Q in
  match Qcompare r (1 # 2) with
  | Lt => f
  | Gt => f + 1
  | Eq => if Z.even f then f else f + 1
  end.

End Py.

(** ** Floating-point values *)

Inductive pyfloat : Type :=
| PNaN
| PInf (neg : bool)
| PNegZero
| PFin (q : Q).

Definition isnan (x : pyfloat) : bool :=
  match x with PNaN => true | _ => false end.

Definition isinf (x : pyfloat) : bool :=
  match x with PInf _ => true | _ => false end.

(** [x == 0] *)
Definition is_zero (x : pyfloat) : bool :=
  match x with
  | PNegZero => true
  | PFin q => Qeq_bool q 0
  | _ => false
  end.

(** [x < 0] *)
Definition is_neg (x : pyfloat) : bool :=
  match x with
  | PInf n => n
  | PFin q => negb (Qle_bool 0 q)
  | _ => false
  end.

(** [-x] *)
Definition fneg (x : pyfloat) : pyfloat :=
  match x with
  | PNaN => PNaN
  | PInf n => PInf (negb n)
  | PNegZero => PFin 0
  | PFin q => if Qeq_bool q 0 then PNegZero else PFin (- q)
  end.

(** The real number a finite float stands for. *)
Definition real_of (x : pyfloat) : option Q :=
  match x with
  | PFin q => Some q
  | PNegZero => Some 0%Q
  | _ => None
  end.

(** [abs(x)] of a finite value, as a rational. *)
Definition fabs_fin (q : Q) : Q := Qabs q.

(** ** [sw/utils/Decoder.py]: class [FP8_Codec] *)

Module FP8_Codec.

(** The dict [FORMATS]: format name -> (exponent_bits, mantissa_bits). *)
Definition FORMATS : list (string * (Z * Z)) :=
  [ ("e2m5", (2, 5));
    ("e3m4", (3, 4));
    ("e4m3", (4, 3));
    ("e5m2", (5, 2)) ].

Fixpoint dict_get {V : Type} (d : list (string * V)) (k : string) : option V :=
  match d with
  | [] => None
  | (k', v) :: d' => if String.eqb k k' then Some v else dict_get d' k
  end.

Definition _get_format_params (fp_format : string) : res (Z * Z * Z) :=
  match dict_get FORMATS fp_format with
  | None => Raise ValueError
  | Some (e_bits, m_bits) =>
      let bias := 2 ^ (e_bits - 1) - 1 in
      Ok (e_bits, m_bits, bias)
  end.

(** The tuple returned by [decode]. *)
Record decoded : Type := mk_decoded {
  value : pyfloat;
  unbiased_exponent : Z;
  fraction : Q;
  significand : pyfloat;
  flag : string
}.

Definition signed (sign : Z) (val : Q) : pyfloat :=
  if sign =? 1 then fneg (PFin val) else PFin val.

Definition decode (input_data : Z) (fp_format : string)
    (custom_bias : option Z) : res decoded :=
  if negb ((0 <=? input_data) && (input_data <=? 255)) then Raise ValueError
  else
    '(e_bits, m_bits, default_bias) <- _get_format_params fp_format ;;
    let bias := match custom_bias with
                | None => default_bias
                | Some c => c
                end in
    let mant_scale := Z.shiftl 1 m_bits in
    let exp_all_ones := Z.shiftl 1 e_bits - 1 in
    let b := Z.land input_data 255 in
    let sign := Z.land (Z.shiftr b (e_bits + m_bits)) 1 in
    let exp_raw := Z.land (Z.shiftr b m_bits) (Z.shiftl 1 e_bits - 1) in
    let mant := Z.land b (Z.shiftl 1 m_bits - 1) in
    let frac := (inject_Z mant / inject_Z mant_scale)%Q in
    if exp_raw =? 0 then
      if mant =? 0 then
        Ok (mk_decoded (if sign =? 1 then PNegZero else PFin 0)
                       (1 - bias) frac (PFin 0) "zero")
      else
        let E := 1 - bias in
        let M := frac in
        let val := (M * Qpower 2 E)%Q in
        Ok (mk_decoded (signed sign val) E frac (PFin M) "denormalized")
    else if exp_raw =? exp_all_ones then
      if mant =? 0 then
        Ok (mk_decoded (PInf (sign =? 1)) 0 frac (PFin 0) "infinity")
      else
        Ok (mk_decoded PNaN 0 frac PNaN "NaN")
    else
      let E := exp_raw - bias in
      let M := (1 + frac)%Q in
      let val := (M * Qpower 2 E)%Q in
      Ok (mk_decoded (signed sign val) E frac (PFin M) "normalized").

(** The tail of [encode] for a finite non-zero argument [q]
    (from "Extract sign" on). *)
Definition encode_finite (q : Q) (e_bits m_bits bias : Z) : string :=
  let max_exp := Z.shiftl 1 e_bits - 1 in
  let sign_bit := if is_neg (PFin q) then "1" else "0" in
  let x := fabs_fin q in
  let pack (exp_raw mant : Z) : string :=
    sign_bit ++ Py.format_0b e_bits exp_raw ++ Py.format_0b m_bits mant in
  let inf_bits := sign_bit ++ Py.str_mul "1" e_bits ++ Py.str_mul "0" m_bits in
  let zero_bits := sign_bit ++ Py.str_mul "0" e_bits ++ Py.str_mul "0" m_bits in
  if Qeq_bool x 0 then pack 0 0
  else
    let exp_unbiased := Py.floor_log2 x in
    let exp_raw := exp_unbiased + bias in
    if exp_raw >=? max_exp then inf_bits
    else if exp_raw <=? 0 then
      if exp_raw <? - (m_bits - 1) then zero_bits
      else
        let frac := (x / Qpower 2 (1 - bias))%Q in
        let mant := Py.round (frac * inject_Z (Z.shiftl 1 m_bits))%Q in
        if mant >=? Z.shiftl 1 m_bits then pack 1 0
        else if mant =? 0 then zero_bits
        else pack 0 mant
    else
      let frac := (x / Qpower 2 exp_unbiased - 1)%Q in
      let mant := Py.round (frac * inject_Z (Z.shiftl 1 m_bits))%Q in
      if mant =? Z.shiftl 1 m_bits then
        if exp_raw + 1 >=? max_exp then inf_bits
        else pack (exp_raw + 1) 0
      else pack exp_raw mant.

Definition encode (decimal_number : pyfloat) (fp_format : string) : res string :=
  '(e_bits, m_bits, bias) <- _get_format_params fp_format ;;
  let total_bits := 1 + e_bits + m_bits in
  match decimal_number with
  | PNaN =>
      Ok ("0" ++ Py.str_mul "1" e_bits ++ "1" ++ Py.str_mul "0" (m_bits - 1))
  | PInf neg =>
      let sign_bit := if neg then "1" else "0" in
      Ok (sign_bit ++ Py.str_mul "1" e_bits ++ Py.str_mul "0" m_bits)
  | PNegZero => Ok (Py.str_mul "0" total_bits)
  | PFin q =>
      if Qeq_bool q 0 then Ok (Py.str_mul "0" total_bits)
      else Ok (encode_finite q e_bits m_bits bias)
  end.

Definition encode_to_int (decimal_number : pyfloat) (fp_format : string) : res Z :=
  binary_str <- encode decimal_number fp_format ;;
  Py.int_of 2 binary_str.

End FP8_Codec.

(** ** [sw/utils/Adder.py]: class [Adder] *)

Module Adder.

Record t : Type := mk {
  format : string;
  e_bits : Z;
  m_bits : Z
}.

Definition __init__ (format : string) : res t :=
  '(e_bits, m_bits, _) <- FP8_Codec._get_format_params format ;;
  Ok (mk format e_bits m_bits).

(** The [for index, bit in enumerate(a)] loop of [int_bin_adder]; [a] and
    [b] are the reversed strings. *)
Fixpoint adder_loop (a : string) (index : Z) (b : string)
    (carry : Z) (result : string) : res (Z * string) :=
  match a with
  | EmptyString => Ok (carry, result)
  | String bit a' =>
      b_bit <- (if index >? Py.len b - 1 then Ok 0
                else (c <- Py.index b index ;; Py.int_of 10 c)) ;;
      a_bit <- Py.int_of 10 (String bit "") ;;
      let total := a_bit + b_bit + carry in
      adder_loop a' (index + 1) b
        (if total >? 1 then 1 else 0)
        (result ++ Py.str_digit (total mod 2))
  end.

Definition int_bin_adder (self : t) (a b : string) : res string :=
  let '(a, b) := if Py.len a <? Py.len b then (b, a) else (a, b) in
  let a := Py.reverse a in
  let b := Py.reverse b in
  '(carry, result) <- adder_loop a 0 b 0 "" ;;
  let result := if carry =? 1 then result ++ "1" else result in
  Ok (Py.reverse result).

(** The inner function [decode_fields] of [fp_bin_adder]. *)
Definition decode_fields (EXP_BITS : Z) (bin_str : string) : res (Z * Z * Z) :=
  c <- Py.index bin_str 0 ;;
  let sign := if String.eqb c "1" then 1 else 0 in
  exp <- Py.int_of 2 (Py.slice 1 (1 + EXP_BITS) bin_str) ;;
  mant <- Py.int_of 2 (Py.slice_from (1 + EXP_BITS) bin_str) ;;
  Ok (sign, exp, mant).

Definition is_nan (EXP_ALL_ONES e m : Z) : bool :=
  (e =? EXP_ALL_ONES) && negb (m =? 0).

Definition is_inf (EXP_ALL_ONES e m : Z) : bool :=
  (e =? EXP_ALL_ONES) && (m =? 0).

(** The NaN string built by [fp_bin_adder]. *)
Definition nan_bits (EXP_BITS MANT_BITS : Z) : string :=
  "0" ++ Py.str_mul "1" EXP_BITS
      ++ (if MANT_BITS >? 0 then Py.str_mul "0" (MANT_BITS - 1) ++ "1" else "").

Definition inf_bits (EXP_BITS MANT_BITS : Z) (s : Z) : string :=
  Py.bin_digits s ++ Py.str_mul "1" EXP_BITS ++ Py.str_mul "0" MANT_BITS.

(** [n.bit_length()] *)
Definition bit_length (n : Z) : Z :=
  if n =? 0 then 0 else Z.log2 (Z.abs n) + 1.

(** [while mant_res >= lim: mant_res >>= 1], for a positive [mant_res];
    [lim] is [1 << MANT_BITS], which is positive, so the loop has stopped
    when the value reaches 0. *)
Fixpoint clamp_loop (p : positive) (lim : Z) : Z :=
  if Zpos p >=? lim then
    match p with
    | xH => 0
    | xO p' | xI p' => clamp_loop p' lim
    end
  else Zpos p.

Definition clamp (mant_res lim : Z) : Z :=
  match mant_res with
  | Zpos p => clamp_loop p lim
  | _ => mant_res
  end.

(** [fp_bin_adder] from "Add hidden bit for normals" on: the operands are
    neither NaN, nor infinite, nor zero. *)
Definition add_fields (EXP_BITS MANT_BITS : Z)
    (sa ea ma sb eb mb : Z) : string :=
  let EXP_ALL_ONES := Z.shiftl 1 EXP_BITS - 1 in
  let ma := if negb (ea =? 0) then Z.lor ma (Z.shiftl 1 MANT_BITS) else ma in
  let mb := if negb (eb =? 0) then Z.lor mb (Z.shiftl 1 MANT_BITS) else mb in
  let '(ma, mb, exp_res) :=
    if ea >? eb then (ma, Z.shiftr mb (ea - eb), ea)
    else if eb >? ea then (Z.shiftr ma (eb - ea), mb, eb)
    else (ma, mb, ea) in
  let ma := if negb (sa =? 0) then - ma else ma in
  let mb := if negb (sb =? 0) then - mb else mb in
  let mant_res := ma + mb in
  if mant_res =? 0 then
    "0" ++ Py.str_mul "0" EXP_BITS ++ Py.str_mul "0" MANT_BITS
  else
    let sign_res := if mant_res <? 0 then 1 else 0 in
    let mant_res := if mant_res <? 0 then - mant_res else mant_res in
    let msb_pos := bit_length mant_res - 1 in
    let '(mant_res, exp_res) :=
      if msb_pos >? MANT_BITS then
        let shift := msb_pos - MANT_BITS in
        (Z.shiftr mant_res shift, exp_res + shift)
      else if (msb_pos <? MANT_BITS) && (exp_res >? 0) then
        let shift := MANT_BITS - msb_pos in
        (Z.shiftl mant_res shift, exp_res - shift)
      else (mant_res, exp_res) in
    if exp_res >=? EXP_ALL_ONES then
      Py.bin_digits sign_res ++ Py.str_mul "1" EXP_BITS
                             ++ Py.str_mul "0" MANT_BITS
    else if exp_res >? 0 then
      let mant_out := Z.land mant_res (Z.shiftl 1 MANT_BITS - 1) in
      Py.bin_digits sign_res ++ Py.format_0b EXP_BITS exp_res
                             ++ Py.format_0b MANT_BITS mant_out
    else
      let mant_res := clamp mant_res (Z.shiftl 1 MANT_BITS) in
      Py.bin_digits sign_res ++ Py.str_mul "0" EXP_BITS
                             ++ Py.format_0b MANT_BITS mant_res.

Definition fp_bin_adder (self : t) (a_bin b_bin : string) : res string :=
  let EXP_BITS := e_bits self in
  let MANT_BITS := m_bits self in
  let EXP_ALL_ONES := Z.shiftl 1 EXP_BITS - 1 in
  '(sa, ea, ma) <- decode_fields EXP_BITS a_bin ;;
  '(sb, eb, mb) <- decode_fields EXP_BITS b_bin ;;
  if is_nan EXP_ALL_ONES ea ma || is_nan EXP_ALL_ONES eb mb then
    Ok (nan_bits EXP_BITS MANT_BITS)
  else if is_inf EXP_ALL_ONES ea ma && is_inf EXP_ALL_ONES eb mb then
    if negb (sa =? sb) then Ok (nan_bits EXP_BITS MANT_BITS)
    else Ok (inf_bits EXP_BITS MANT_BITS sa)
  else if is_inf EXP_ALL_ONES ea ma then Ok (inf_bits EXP_BITS MANT_BITS sa)
  else if is_inf EXP_ALL_ONES eb mb then Ok (inf_bits EXP_BITS MANT_BITS sb)
  else if (ea =? 0) && (ma =? 0) then Ok b_bin
  else if (eb =? 0) && (mb =? 0) then Ok a_bin
  else Ok (add_fields EXP_BITS MANT_BITS sa ea ma sb eb mb).

End Adder.

(** ** [sw/utils/Multiplier.py]: class [Multiplier] *)

(** A multiplication returns a float, or a bit string when [bin_output]
    is set. *)
Inductive pyval : Type :=
| VFloat (x : pyfloat)
| VStr (s : string).

Module Multiplier.

Record t : Type := mk {
  fmt : string;
  exp_bits : Z;
  mant_bits : Z;
  bias : Z;
  adder : Adder.t;
  bin_output : bool
}.

Definition __init__ (format : string) (bin_output : bool) : res t :=
  '(e_bits, m_bits, bias) <- FP8_Codec._get_format_params format ;;
  adder <- Adder.__init__ format ;;
  Ok (mk format e_bits m_bits bias adder bin_output).

Definition _unpakcing (self : t) (value : string)
    : res (string * string * string) :=
  sign <- Py.index value 0 ;;
  let exponent := Py.slice 1 (1 + exp_bits self) value in
  let mantissa := Py.slice_from (1 + exp_bits self) value in
  Ok (sign, exponent, mantissa).

(** [for i in range(0, mant_bits): m += int(man[i], 2) / (2**(i+1))],
    with [n] iterations left. *)
Fixpoint em_loop (n : nat) (i : Z) (man : string) (m : Q) : res Q :=
  match n with
  | O => Ok m
  | S n' =>
      c <- Py.index man i ;;
      d <- Py.int_of 2 c ;;
      em_loop n' (i + 1) man (m + inject_Z d / inject_Z (2 ^ (i + 1)))%Q
  end.

Definition _em_cul (self : t) (exp man : string) : res (Z * Q) :=
  '(e, m) <- (if String.eqb exp (Py.format_0b (exp_bits self) 0)
              then Ok (1 - bias self, (-1)%Q)
              else (v <- Py.int_of 2 exp ;; Ok (v - bias self, 0%Q))) ;;
  m <- em_loop (Z.to_nat (mant_bits self)) 0 man m ;;
  Ok (e, m).

(** [if sign == 1: v = -v], then the float or its encoding. *)
Definition finish (self : t) (sign : Z) (v : Q) : res pyval :=
  let r := if sign =? 1 then fneg (PFin v) else PFin v in
  if bin_output self then
    s <- FP8_Codec.encode r (fmt self) ;; Ok (VStr s)
  else Ok (VFloat r).

Definition decimal (self : t) (value_a value_b : string) : res (Q * Q) :=
  '(sign1, exp1, man1) <- _unpakcing self value_a ;;
  '(sign2, exp2, man2) <- _unpakcing self value_b ;;
  '(x0, x1) <- _em_cul self exp1 man1 ;;
  '(y0, y1) <- _em_cul self exp2 man2 ;;
  let d1 := if String.eqb sign1 "0" then ((1 + x1) * Qpower 2 x0)%Q
            else (inject_Z (-1) * (1 + x1) * Qpower 2 x0)%Q in
  let d2 := if String.eqb sign2 "0" then ((1 + y1) * Qpower 2 y0)%Q
            else (inject_Z (-1) * (1 + y1) * Qpower 2 y0)%Q in
  Ok (d1, d2).

Definition multiply (self : t) (value_a value_b : string) : res pyval :=
  '(sign1, exp1, man1) <- _unpakcing self value_a ;;
  '(sign2, exp2, man2) <- _unpakcing self value_b ;;
  s1 <- Py.int_of 10 sign1 ;;
  s2 <- Py.int_of 10 sign2 ;;
  let sign := Z.lxor s1 s2 in
  '(x0, x1) <- _em_cul self exp1 man1 ;;
  '(y0, y1) <- _em_cul self exp2 man2 ;;
  let mul_xy := ((1 + x1 + y1 + x1 * y1) * Qpower 2 (x0 + y0))%Q in
  finish self sign mul_xy.

Definition L_Mul (self : t) (value_a value_b : string) : res pyval :=
  '(sign1, exp1, man1) <- _unpakcing self value_a ;;
  '(sign2, exp2, man2) <- _unpakcing self value_b ;;
  s1 <- Py.int_of 10 sign1 ;;
  s2 <- Py.int_of 10 sign2 ;;
  let sign := Z.lxor s1 s2 in
  '(x0, x1) <- _em_cul self exp1 man1 ;;
  '(y0, y1) <- _em_cul self exp2 man2 ;;
  let lm := if mant_bits self <=? 3 then mant_bits self
            else if mant_bits self =? 4 then 3
            else 4 in
  let L_mul_xy := ((1 + x1 + y1 + Qpower 2 (- lm)) * Qpower 2 (x0 + y0))%Q in
  finish self sign L_mul_xy.

Definition FASA (self : t) (value_a value_b : string) : res pyval :=
  '(sign1, exp1, man1) <- _unpakcing self value_a ;;
  '(sign2, exp2, man2) <- _unpakcing self value_b ;;
  s1 <- Py.int_of 10 sign1 ;;
  s2 <- Py.int_of 10 sign2 ;;
  let sign := Z.lxor s1 s2 in
  let mul1 := exp1 ++ man1 in
  let mul2 := exp2 ++ man2 in
  sum <- Adder.int_bin_adder (adder self) mul1 mul2 ;;
  let sum_binary := Py.rjust0 8 sum in
  let exp := Py.slice 0 (exp_bits self + 1) sum_binary in
  let man := Py.slice (exp_bits self + 1) 8 sum_binary in
  '(xy0, xy1) <- _em_cul self exp man ;;
  let L_mul_xy := ((1 + xy1) * Qpower 2 (xy0 - bias self))%Q in
  finish self sign L_mul_xy.

End Multiplier.

(** ** [sw/Matmul.py]: class [FP8MatrixMultiplier] *)

Module FP8MatrixMultiplier.

Record t : Type := mk {
  format : string;
  exp_bit : Z;
  mant_bit : Z;
  adder : Adder.t;
  multiplier : Multiplier.t
}.

Definition __init__ (format : string) : res t :=
  '(exp_bit, mant_bit, _) <- FP8_Codec._get_format_params format ;;
  adder <- Adder.__init__ format ;;
  multiplier <- Multiplier.__init__ format true ;;
  Ok (mk format exp_bit mant_bit adder multiplier).

Definition get_flag (self : t) (val_bin : string) : res string :=
  n <- Py.int_of 2 val_bin ;;
  d <- FP8_Codec.decode n (format self) None ;;
  Ok (FP8_Codec.flag d).

(** [flag in ("infinity", "NaN")] *)
Definition inf_or_nan (flag : string) : bool :=
  String.eqb flag "infinity" || String.eqb flag "NaN".

(** [any(v == 'pass' for v in [value_a, value_b, prod_t_1])] *)
Definition any_pass (value_a value_b prod_t_1 : string) : bool :=
  existsb (fun v => String.eqb v "pass") [value_a; value_b; prod_t_1].

(** The multiplier of this class is built with [bin_output=True], so a
    product is a string; [get_flag] applies [int(_, 2)] to it. *)
Definition product_bits (p : pyval) : res string :=
  match p with
  | VStr s => Ok s
  | VFloat _ => Raise TypeError
  end.

Definition fasa_mac_unit (self : t) (value_a value_b prod_t_1 : string)
    : res string :=
  if any_pass value_a value_b prod_t_1 then Ok "pass"
  else
    flag_a <- get_flag self value_a ;;
    flag_b <- get_flag self value_b ;;
    if inf_or_nan flag_a || inf_or_nan flag_b then Ok "pass"
    else
      p <- Multiplier.FASA (multiplier self) value_a value_b ;;
      prod_t <- product_bits p ;;
      flag_prod <- get_flag self prod_t ;;
      if inf_or_nan flag_prod then Ok "pass"
      else
        result <- Adder.fp_bin_adder (adder self) prod_t_1 prod_t ;;
        flag_result <- get_flag self result ;;
        if inf_or_nan flag_result then Ok "pass"
        else Ok result.

Definition mac_unit (self : t) (value_a value_b prod_t_1 : string)
    : res string :=
  if any_pass value_a value_b prod_t_1 then Ok "pass"
  else
    flag_a <- get_flag self value_a ;;
    flag_b <- get_flag self value_b ;;
    if inf_or_nan flag_a || inf_or_nan flag_b then Ok "pass"
    else
      p <- Multiplier.multiply (multiplier self) value_a value_b ;;
      prod_t <- product_bits p ;;
      flag_prod <- get_flag self prod_t ;;
      if inf_or_nan flag_prod then Ok "pass"
      else
        result <- Adder.fp_bin_adder (adder self) prod_t_1 prod_t ;;
        flag_result <- get_flag self result ;;
        if inf_or_nan flag_result then Ok "pass"
        else Ok result.

Definition lmul_mac_unit (self : t) (value_a value_b prod_t_1 : string)
    : res string :=
  if any_pass value_a value_b prod_t_1 then Ok "pass"
  else
    flag_a <- get_flag self value_a ;;
    flag_b <- get_flag self value_b ;;
    if inf_or_nan flag_a || inf_or_nan flag_b then Ok "input pass"
    else
      p <- Multiplier.L_Mul (multiplier self) value_a value_b ;;
      prod_t <- product_bits p ;;
      flag_prod <- get_flag self prod_t ;;
      if inf_or_nan flag_prod then Ok "product pass"
      else
        result <- Adder.fp_bin_adder (adder self) prod_t_1 prod_t ;;
        flag_result <- get_flag self result ;;
        if inf_or_nan flag_result then Ok "accumulation pass"
        else Ok result.

(** The reduction loop of one output cell, on operands already encoded:
    [for k in range(cols_a): dot_product = unit(a_k, b_k, dot_product)]. *)
Fixpoint mac_chain (unit : string -> string -> string -> res string)
    (ops : list (string * string)) (dot_product : string) : res string :=
  match ops with
  | [] => Ok dot_product
  | (value_a, value_b) :: ops' =>
      dot_product <- unit value_a value_b dot_product ;;
      mac_chain unit ops' dot_product
  end.

(** A cell of the result matrix: the sentinel or a decoded value. *)
Inductive cell : Type :=
| CPass
| CVal (x : pyfloat).

(** The body of the [for j] loop of the three [*_matrix_multiply] methods
    for one cell, given the row of [A] and the column of [B]. *)
Definition dot_cell (self : t)
    (unit : string -> string -> string -> res string)
    (row col : list pyfloat) : res cell :=
  '(exp_bit, mant_bit, _) <- FP8_Codec._get_format_params (format self) ;;
  let fix loop (ab : list (pyfloat * pyfloat)) (dot_product : string) :=
    match ab with
    | [] => Ok dot_product
    | (a, b) :: ab' =>
        value_a_str <- FP8_Codec.encode a (format self) ;;
        value_b_str <- FP8_Codec.encode b (format self) ;;
        dot_product <- unit value_a_str value_b_str dot_product ;;
        loop ab' dot_product
    end in
  dot_product <- loop (combine row col)
                      (Py.str_mul "0" (1 + exp_bit + mant_bit)) ;;
  if String.eqb dot_product "pass" then Ok CPass
  else
    n <- Py.int_of 2 dot_product ;;
    d <- FP8_Codec.decode n (format self) None ;;
    Ok (CVal (FP8_Codec.value d)).

End FP8MatrixMultiplier.

(** ** Vocabulary of the statements *)

(** The four format identifiers. *)
Definition format_names : list string := ["e2m5"; "e3m4"; "e4m3"; "e5m2"].

(** The 8-character bit string of a pattern, [format(p, '08b')]. *)
Definition bits (p : Z) : string := Py.format_0b 8 p.

(** All 8-bit patterns, [range(256)]. *)
Definition patterns : list Z := map Z.of_nat (seq 0 256).

(** The classification of a bit string, as [get_flag] computes it:
    [decode(int(s, 2), fmt)[4]]. *)
Definition flag_of_bits (fmt s : string) : res string :=
  n <- Py.int_of 2 s ;;
  d <- FP8_Codec.decode n fmt None ;;
  Ok (FP8_Codec.flag d).

(** The decoded value of a bit string, [decode(int(s, 2), fmt)[0]]. *)
Definition value_of_bits (fmt s : string) : res pyfloat :=
  n <- Py.int_of 2 s ;;
  d <- FP8_Codec.decode n fmt None ;;
  Ok (FP8_Codec.value d).

(** A float that is finite and stands for the real number [q]. *)
Definition value_is (v : pyfloat) (q : Q) : Prop :=
  match real_of v with
  | Some r => (r == q)%Q
  | None => False
  end.

(** The three fields of a pattern, by shift and mask. *)
Definition sign_field (e m p : Z) : Z := Z.land (Z.shiftr p (e + m)) 1.
Definition exp_field (e m p : Z) : Z := Z.land (Z.shiftr p m) (Z.shiftl 1 e - 1).
Definition mant_field (m p : Z) : Z := Z.land p (Z.shiftl 1 m - 1).

(** The public operations of the adder and the multiplier on a format
    name: build the object, call the method. *)
Definition fp_add (fmt a b : string) : res string :=
  adder <- Adder.__init__ fmt ;;
  Adder.fp_bin_adder adder a b.

Definition add_unsigned (a b : string) : res string :=
  adder <- Adder.__init__ "e3m4" ;;
  Adder.int_bin_adder adder a b.

Definition multiply_exact (fmt : string) (bin_output : bool) (a b : string)
    : res pyval :=
  mul <- Multiplier.__init__ fmt bin_output ;;
  Multiplier.multiply mul a b.

Definition multiply_lmul (fmt : string) (bin_output : bool) (a b : string)
    : res pyval :=
  mul <- Multiplier.__init__ fmt bin_output ;;
  Multiplier.L_Mul mul a b.

Definition multiply_fasa (fmt : string) (bin_output : bool) (a b : string)
    : res pyval :=
  mul <- Multiplier.__init__ fmt bin_output ;;
  Multiplier.FASA mul a b.

(** The classification that [decode] derives from the fields. *)
Definition class_of_fields (e : Z) (exp_raw mant : Z) : string :=
  if exp_raw =? 0 then
    if mant =? 0 then "zero" else "denormalized"
  else if exp_raw =? Z.shiftl 1 e - 1 then
    if mant =? 0 then "infinity" else "NaN"
  else "normalized".

(** The NaN pattern of [fp_bin_adder]: sign 0, exponent all ones, only
    the lowest mantissa bit set. *)
Definition adder_nan_pattern (e m : Z) : Z :=
  Z.lor (Z.shiftl (Z.shiftl 1 e - 1) m) 1.

(** The NaN pattern of [encode]: sign 0, exponent all ones, only the top
    mantissa bit set. *)
Definition codec_nan_pattern (e m : Z) : Z :=
  Z.lor (Z.shiftl (Z.shiftl 1 e - 1) m) (Z.shiftl 1 (m - 1)).

(** Checks run over every format and pattern. *)
Definition fields_check (fmt : string) (p : Z) : bool :=
  match FP8_Codec._get_format_params fmt with
  | Ok (e, m, _) =>
      match Adder.decode_fields e (bits p), Py.int_of 2 (bits p) with
      | Ok (s, ex, mn), Ok n =>
          (s =? sign_field e m p) && (ex =? exp_field e m p)
          && (mn =? mant_field m p) && (n =? p)
      | _, _ => false
      end
  | Raise _ => false
  end.

(** [decode] followed by [encode] of the decoded value. *)
Definition roundtrip (fmt : string) (p : Z) : res string :=
  d <- FP8_Codec.decode p fmt None ;;
  FP8_Codec.encode (FP8_Codec.value d) fmt.

(** What the round trip gives: the NaN pattern of [encode] for a NaN
    pattern, all zeros for the negative zero 10000000, and the pattern
    itself otherwise. *)
Definition roundtrip_pattern (e m : Z) (flag : string) (p : Z) : Z :=
  if String.eqb flag "NaN" then codec_nan_pattern e m
  else if p =? 128 then 0
  else p.

Definition roundtrip_check (fmt : string) (p : Z) : bool :=
  match FP8_Codec._get_format_params fmt, FP8_Codec.decode p fmt None with
  | Ok (e, m, _), Ok d =>
      match FP8_Codec.encode (FP8_Codec.value d) fmt with
      | Ok s => String.eqb s (bits (roundtrip_pattern e m (FP8_Codec.flag d) p))
      | Raise _ => false
      end
  | _, _ => false
  end.

(** The unpacked operand in terms of its integer fields: an all-zero
    exponent field gives exponent [1 - bias] and a fraction accumulated
    from -1 (no implicit leading 1); any other field gives
    [field - bias] and a fraction accumulated from 0. *)
Definition unpacked_exponent (e m bias p : Z) : Z :=
  if exp_field e m p =? 0 then 1 - bias else exp_field e m p - bias.

Definition unpacked_fraction (e m p : Z) : Q :=
  ((if exp_field e m p =? 0 then inject_Z (-1) else 0)
   + inject_Z (mant_field m p) / inject_Z (2 ^ m))%Q.

(** The policy table of L-Mul. *)
Definition lm_of (m : Z) : Z :=
  if m <=? 3 then m else if m =? 4 then 3 else 4.

Definition sign_xor (e m a b : Z) : Z :=
  Z.lxor (sign_field e m a) (sign_field e m b).

(** [(-1)^(sa xor sb) * (1 + fa + fb + 2^(-lm)) * 2^(ea + eb)] *)
Definition lmul_formula (e m bias a b : Z) : Q :=
  (Qpower (inject_Z (-1)) (sign_xor e m a b)
   * (1 + unpacked_fraction e m a + unpacked_fraction e m b
        + Qpower 2 (- lm_of m))
   * Qpower 2 (unpacked_exponent e m bias a + unpacked_exponent e m bias b))%Q.

Definition unpack_check (fmt : string) (p : Z) : bool :=
  match FP8_Codec._get_format_params fmt with
  | Ok (e, m, bias) =>
      let self := Multiplier.mk fmt e m bias (Adder.mk fmt e m) false in
      match Multiplier._unpakcing self (bits p) with
      | Ok (s, ex, mn) =>
          match Py.int_of 10 s, Multiplier._em_cul self ex mn with
          | Ok sv, Ok (ue, uf) =>
              (sv =? sign_field e m p)
              && (ue =? unpacked_exponent e m bias p)
              && Qeq_bool uf (unpacked_fraction e m p)
          | _, _ => false
          end
      | Raise _ => false
      end
  | Raise _ => false
  end.

(** FASA as the specification words it: the exponent and mantissa
    fields of each operand concatenated and read as an unsigned integer,
    the two integers added, the 8-bit sum split into a field of
    [e + 1] bits and a field of [m] bits, the pair unpacked by the rule
    of the operands (an all-zero exponent field is a denormal: exponent
    [1 - bias], fraction accumulated from -1), the bias subtracted once,
    and the xor sign applied. *)
Definition fasa_formula (e m bias a b : Z) : Q :=
  let ca := Z.land a (Z.shiftl 1 (e + m) - 1) in
  let cb := Z.land b (Z.shiftl 1 (e + m) - 1) in
  let sum := ca + cb in
  let new_exp := Z.shiftr sum m in
  let new_man := Z.land sum (Z.shiftl 1 m - 1) in
  let frac := (inject_Z new_man / inject_Z (2 ^ m))%Q in
  let '(ev, fr) := if new_exp =? 0 then (1 - bias, (inject_Z (-1) + frac)%Q)
                   else (new_exp - bias, frac) in
  (Qpower (inject_Z (-1)) (sign_xor e m a b)
   * (1 + fr) * Qpower 2 (ev - bias))%Q.

(** The real value of a pattern, when it is finite. *)
Definition finite_value (fmt : string) (p : Z) : option Q :=
  match value_of_bits fmt (bits p) with
  | Ok v => real_of v
  | Raise _ => None
  end.

(** The decoded value of the binary-output result of [multiply_exact]. *)
Definition product_value (fmt : string) (a b : Z) : res pyfloat :=
  p <- multiply_exact fmt true (bits a) (bits b) ;;
  s <- FP8MatrixMultiplier.product_bits p ;;
  value_of_bits fmt s.

(** One unit in the last place of the format at the magnitude of [x]:
    [2^(E - m)], where [E] is the exponent of the binade of [x], and the
    exponent [1 - bias] of the denormals below the smallest normal. *)
Definition ulp (m bias : Z) (x : Q) : Q :=
  let E := if Qeq_bool x 0 then 1 - bias
           else Z.max (Py.floor_log2 (Qabs x)) (1 - bias) in
  Qpower 2 (E - m).

(** The magnitude from which [encode] returns an infinity: half a unit
    above the largest finite value, [(2 - 2^(-m-1)) * 2^(2^e - 2 - bias)]. *)
Definition overflow_threshold (e m bias : Z) : Q :=
  ((2 - Qpower 2 (- (m + 1))) * Qpower 2 (Z.shiftl 1 e - 2 - bias))%Q.

(** A float is finite and within one unit in the last place of [x]. *)
Definition within_one_ulp (m bias : Z) (v : pyfloat) (x : Q) : Prop :=
  exists r, real_of v = Some r /\ (Qabs (r - x) <= ulp m bias x)%Q.

(** The sign character and the sign factor of a packed value, and the
    real value of an exponent field [E] and a mantissa field [M]:
    [M / 2^m * 2^(1 - bias)] for [E = 0], [(1 + M / 2^m) * 2^(E - bias)]
    otherwise. *)
Definition sign_bit_of (neg : bool) : string := if neg then "1" else "0".
Definition sign_factor (neg : bool) : Q := if neg then inject_Z (-1) else 1%Q.
Definition field_value (m bias E M : Z) : Q :=
  if E =? 0 then (inject_Z M / inject_Z (2 ^ m) * Qpower 2 (1 - bias))%Q
  else ((1 + inject_Z M / inject_Z (2 ^ m)) * Qpower 2 (E - bias))%Q.

(** The values an exponent or mantissa field can take in the four formats
    are below 32. *)
Definition field_range : list Z := map Z.of_nat (seq 0 32).

(** A result is a finite float that stands for [q]. *)
Definition real_is (x : res pyfloat) (q : Q) : bool :=
  match x with
  | Ok v => match real_of v with
            | Some r => Qeq_bool r q
            | None => false
            end
  | Raise _ => false
  end.

(** Checks run over every format, sign and pair of fields, and over every
    format and pattern. *)
Definition pack_check (fmt : string) (neg : bool) (E M : Z) : bool :=
  match FP8_Codec._get_format_params fmt with
  | Ok (e, m, bias) =>
      if (E <? Z.shiftl 1 e - 1) && (M <? 2 ^ m) then
        real_is (value_of_bits fmt
                   (sign_bit_of neg ++ Py.format_0b e E ++ Py.format_0b m M))
                (sign_factor neg * field_value m bias E M)
      else true
  | Raise _ => false
  end.

Definition special_check (fmt : string) (neg : bool) : bool :=
  match FP8_Codec._get_format_params fmt with
  | Ok (e, m, bias) =>
      match value_of_bits fmt
              (sign_bit_of neg ++ Py.str_mul "1" e ++ Py.str_mul "0" m) with
      | Ok (PInf n) => Bool.eqb n neg
      | _ => false
      end
      && real_is (value_of_bits fmt
                    (sign_bit_of neg ++ Py.str_mul "0" e ++ Py.str_mul "0" m)) 0
      && real_is (value_of_bits fmt (Py.str_mul "0" (1 + e + m))) 0
  | Raise _ => false
  end.

Definition operand_check (fmt : string) (p : Z) : bool :=
  match FP8_Codec._get_format_params fmt, finite_value fmt p with
  | Ok (e, m, bias), Some q =>
      Qeq_bool q
        (Qpower (inject_Z (-1)) (sign_field e m p)
         * ((1 + unpacked_fraction e m p)
            * Qpower 2 (unpacked_exponent e m bias p)))
  | Ok _, None => true
  | Raise _, _ => false
  end.


(** ** [sw/utils/Decoder.py]: [FP8_Codec.range_info] *)

(** The dict returned by [compute_range]; its four floats are finite and
    kept as rationals. *)
Record range_dict : Type := mk_range {
  normalized_min : Q;
  normalized_max : Q;
  denorm_min : Q;
  denorm_max : Q
}.

(** The inner function [compute_range] of [range_info]. *)
Definition compute_range (fmt : string) : res range_dict :=
  '(e_bits, m_bits, bias) <- FP8_Codec._get_format_params fmt ;;
  let mant_scale := Z.shiftl 1 m_bits in
  let exp_all_ones := Z.shiftl 1 e_bits - 1 in
  let exp_min_norm := 1 - bias in
  let exp_max_norm := exp_all_ones - 2 - bias in
  let norm_min := (1 * Qpower 2 exp_min_norm)%Q in
  let norm_max := ((2 - Qpower 2 (- m_bits)) * Qpower 2 exp_max_norm)%Q in
  let denorm_min := (Qpower 2 (1 - bias) * (1 / inject_Z mant_scale))%Q in
  let denorm_max :=
    (Qpower 2 (1 - bias) * (inject_Z (mant_scale - 1) / inject_Z mant_scale))%Q in
  Ok (mk_range norm_min norm_max denorm_min denorm_max).

(** [range_info(fp_format)]; the printing is left out.  With [None] the
    function prints every format and returns [None]. *)
Definition range_info (fp_format : option string) : res (option range_dict) :=
  match fp_format with
  | Some fmt =>
      match FP8_Codec.dict_get FP8_Codec.FORMATS fmt with
      | None => Raise ValueError
      | Some _ => result <- compute_range fmt ;; Ok (Some result)
      end
  | None =>
      let fix each (fmts : list string) : res unit :=
        match fmts with
        | [] => Ok tt
        | fmt :: rest => _ <- compute_range fmt ;; each rest
        end in
      _ <- each ["e2m5"; "e3m4"; "e4m3"; "e5m2"] ;;
      Ok None
  end.

(** ** [sw/utils/test_data_gen.py]: class [Data_Gen] *)

(** [x < y] on floats. *)
Definition flt (x y : pyfloat) : bool :=
  match x, y with
  | PNaN, _ | _, PNaN => false
  | PInf true, PInf true => false
  | PInf true, _ => true
  | _, PInf true => false
  | PInf false, _ => false
  | _, PInf false => true
  | PNegZero, PNegZero => false
  | PNegZero, PFin q => negb (Qle_bool q 0)
  | PFin q, PNegZero => negb (Qle_bool 0 q)
  | PFin p, PFin q => negb (Qle_bool q p)
  end.

Module Data_Gen.

Record t : Type := mk {
  row : Z;
  col : Z;
  vmin : pyfloat;
  vmax : pyfloat;
  format : string;
  adder : Adder.t;
  multiplier : Multiplier.t
}.

(** [row] and [col] are ints and [value_range] is a list or tuple of
    numbers by their types here; the remaining checks are those of the
    source, in its order. *)
Definition __init__ (row col : Z) (format : string)
    (value_range : list pyfloat) : res t :=
  if (row <=? 0) || (col <=? 0) then Raise ValueError
  else
    match value_range with
    | [vmin; vmax] =>
        if negb (flt vmin vmax) then Raise ValueError
        else
          adder <- Adder.__init__ format ;;
          multiplier <- Multiplier.__init__ format true ;;
          Ok (mk row col vmin vmax format adder multiplier)
    | _ => Raise ValueError
    end.

(** The unguarded MAC step of the reference data. *)
Definition mac_unit (self : t) (value_a value_b prod_t_1 : string)
    : res string :=
  p <- Multiplier.multiply (multiplier self) value_a value_b ;;
  match p with
  | VStr prod_t => Adder.fp_bin_adder (adder self) prod_t_1 prod_t
  | VFloat _ =>
      (* [decode_fields] reads [prod_t_1] first, then fails on the float *)
      _ <- Adder.decode_fields (Adder.e_bits (adder self)) prod_t_1 ;;
      Raise TypeError
  end.

End Data_Gen.

(** ** [sw/Matmul.py]: the three matrix products *)

(** A two-dimensional [numpy.ndarray] of floats: its shape and its rows.
    An array built by numpy has [shape0] rows of [shape1] entries each. *)
Record ndarray : Type := mk_ndarray {
  shape0 : Z;
  shape1 : Z;
  rows : list (list pyfloat)
}.

Definition well_shaped (A : ndarray) : Prop :=
  0 <= shape0 A /\ 0 <= shape1 A /\
  Z.of_nat (List.length (rows A)) = shape0 A /\
  Forall (fun r => Z.of_nat (List.length r) = shape1 A) (rows A).

(** [A[i][k]] for non-negative indices. *)
Definition getitem2 (A : ndarray) (i k : nat) : res pyfloat :=
  match nth_error (rows A) i with
  | Some r =>
      match nth_error r k with
      | Some x => Ok x
      | None => Raise IndexError
      end
  | None => Raise IndexError
  end.

(** [for x in range(n)] collecting the values of the body. *)
Fixpoint for_each {A B : Type} (body : A -> res B) (l : list A) : res (list B) :=
  match l with
  | [] => Ok []
  | x :: l' => y <- body x ;; ys <- for_each body l' ;; Ok (y :: ys)
  end.

Definition range (n : Z) : list nat := seq 0 (Z.to_nat n).

Module Matmul.

Import FP8MatrixMultiplier.

(** The [for k in range(cols_a)] loop of one cell. *)
Fixpoint inner_loop (self : t)
    (unit : string -> string -> string -> res string)
    (A B : ndarray) (i j : nat) (ks : list nat) (dot_product : string)
    : res string :=
  match ks with
  | [] => Ok dot_product
  | k :: ks' =>
      a <- getitem2 A i k ;;
      value_a_str <- FP8_Codec.encode a (format self) ;;
      b <- getitem2 B k j ;;
      value_b_str <- FP8_Codec.encode b (format self) ;;
      dot_product <- unit value_a_str value_b_str dot_product ;;
      inner_loop self unit A B i j ks' dot_product
  end.

(** The body of the [for j] loop: one cell of the result. *)
Definition cell_loop (self : t)
    (unit : string -> string -> string -> res string)
    (A B : ndarray) (exp_bit mant_bit : Z) (i j : nat) : res cell :=
  dot_product <- inner_loop self unit A B i j (range (shape1 A))
                   (Py.str_mul "0" (1 + exp_bit + mant_bit)) ;;
  if String.eqb dot_product "pass" then Ok CPass
  else
    n <- Py.int_of 2 dot_product ;;
    d <- FP8_Codec.decode n (format self) None ;;
    Ok (CVal (FP8_Codec.value d)).

(** The body shared by [matrix_multiply], [fasa_matrix_multiply] and
    [l_mul_matrix_multiply], which differ in the MAC unit they call. *)
Definition matrix_loop (self : t)
    (unit : string -> string -> string -> res string)
    (A B : ndarray) : res (list (list cell)) :=
  let rows_a := shape0 A in
  let cols_b := shape1 B in
  '(exp_bit, mant_bit, _) <- FP8_Codec._get_format_params (format self) ;;
  for_each (fun i =>
    for_each (cell_loop self unit A B exp_bit mant_bit i) (range cols_b))
    (range rows_a).

Definition matrix_multiply (self : t) (A B : ndarray) :=
  matrix_loop self (mac_unit self) A B.

Definition fasa_matrix_multiply (self : t) (A B : ndarray) :=
  matrix_loop self (fasa_mac_unit self) A B.

Definition l_mul_matrix_multiply (self : t) (A B : ndarray) :=
  matrix_loop self (lmul_mac_unit self) A B.

End Matmul.

(** ** Vocabulary of the further properties *)

(** The pattern with sign bit [neg], exponent field [E] and mantissa
    field [M]. *)
Definition pattern_of (m : Z) (neg : bool) (E M : Z) : Z :=
  (if neg then 128 else 0) + E * 2 ^ m + M.

Definition pack_bits_check (fmt : string) (neg : bool) (E M : Z) : bool :=
  match FP8_Codec._get_format_params fmt with
  | Ok (e, m, bias) =>
      if (E <? 2 ^ e) && (M <? 2 ^ m) then
        let p := pattern_of m neg E M in
        String.eqb (sign_bit_of neg ++ Py.format_0b e E ++ Py.format_0b m M)
                   (bits p)
        && (0 <=? p) && (p <=? 255)
        && (sign_field e m p =? (if neg then 1 else 0))
        && (exp_field e m p =? E) && (mant_field m p =? M)
      else true
  | Raise _ => false
  end.

Definition special_bits_check (fmt : string) (neg : bool) : bool :=
  match FP8_Codec._get_format_params fmt with
  | Ok (e, m, bias) =>
      String.eqb (sign_bit_of neg ++ Py.str_mul "1" e ++ Py.str_mul "0" m)
                 (bits (pattern_of m neg (Z.shiftl 1 e - 1) 0))
      && String.eqb (sign_bit_of neg ++ Py.str_mul "0" e ++ Py.str_mul "0" m)
                    (bits (pattern_of m neg 0 0))
      && String.eqb (Py.str_mul "0" (1 + e + m)) (bits 0)
      && String.eqb ("0" ++ Py.str_mul "1" e ++ "1" ++ Py.str_mul "0" (m - 1))
                    (bits (codec_nan_pattern e m))
  | Raise _ => false
  end.

(** A pattern decodes to a finite float that stands for [q]. *)
Definition decodes_to (fmt : string) (p : Z) (q : Q) : Prop :=
  exists v, value_of_bits fmt (bits p) = Ok v /\ value_is v q.

(** Tools for the ripple adder: the string without its first [n]
    characters, the strings of binary digits, the integer of a string read
    least significant digit first, and the digit-by-digit sum of two such
    strings (the loop of [int_bin_adder] without the index). *)
Fixpoint str_drop (n : nat) (s : string) : string :=
  match n, s with
  | O, _ => s
  | S n', String _ s' => str_drop n' s'
  | S _, EmptyString => EmptyString
  end.

Definition is_bit (c : ascii) : bool :=
  Ascii.eqb c "0"%char || Ascii.eqb c "1"%char.

Fixpoint is_binary (s : string) : bool :=
  match s with
  | EmptyString => true
  | String c s' => is_bit c && is_binary s'
  end.

Definition bit_value (c : ascii) : Z :=
  if Ascii.eqb c "1"%char then 1 else 0.

Fixpoint lsb_value (s : string) : Z :=
  match s with
  | EmptyString => 0
  | String c s' => bit_value c + 2 * lsb_value s'
  end.

Definition str_tail (s : string) : string :=
  match s with
  | EmptyString => EmptyString
  | String _ s' => s'
  end.

Fixpoint add_digits (a b : string) (carry : Z) : res (Z * string) :=
  match a with
  | EmptyString => Ok (carry, "")
  | String bit a' =>
      b_bit <- match b with
               | EmptyString => Ok 0
               | String c _ => Py.int_of 10 (String c "")
               end ;;
      a_bit <- Py.int_of 10 (String bit "") ;;
      let total := a_bit + b_bit + carry in
      '(c, out) <- add_digits a' (str_tail b) (if total >? 1 then 1 else 0) ;;
      Ok (c, Py.str_digit (total mod 2) ++ out)
  end.

Definition adder_strings_check (fmt : string) (neg : bool) : bool :=
  match FP8_Codec._get_format_params fmt with
  | Ok (e, m, bias) =>
      String.eqb (Py.str_mul "0" e) (Py.format_0b e 0)
      && String.eqb (Py.str_mul "0" m) (Py.format_0b m 0)
      && String.eqb (Py.str_mul "1" e) (Py.format_0b e (Z.shiftl 1 e - 1))
      && String.eqb (Py.bin_digits (if neg then 1 else 0)) (sign_bit_of neg)
      && String.eqb (Adder.nan_bits e m) (bits (adder_nan_pattern e m))
      && (0 <=? adder_nan_pattern e m) && (adder_nan_pattern e m <=? 255)
  | Raise _ => false
  end.

(** A pattern is rebuilt from its three fields. *)
Definition rebuild_check (fmt : string) (p : Z) : bool :=
  match FP8_Codec._get_format_params fmt with
  | Ok (e, m, bias) =>
      (pattern_of m (sign_field e m p =? 1) (exp_field e m p) (mant_field m p)
       =? p)
      && (exp_field e m p <? 2 ^ e) && (0 <=? exp_field e m p)
      && (mant_field m p <? 2 ^ m) && (0 <=? mant_field m p)
      && ((sign_field e m p =? 0) || (sign_field e m p =? 1))
  | Raise _ => false
  end.

(** What every result of the adder looks like: the string of a pattern,
    and no NaN other than the adder's own. *)
Definition adder_result (e m : Z) (r : string) : Prop :=
  exists p, 0 <= p <= 255 /\ r = bits p /\
    (class_of_fields e (exp_field e m p) (mant_field m p) = "NaN" ->
     p = adder_nan_pattern e m).

(** The sum of a pattern with itself, read off the fields: the next
    exponent for a normalized operand (the infinity of its sign from the
    top binade), the doubled mantissa for a denormal whose top mantissa
    bit is clear, and the operand itself for a denormal whose top mantissa
    bit is set. *)
Definition doubled_pattern (e m p : Z) : Z :=
  let E := exp_field e m p in
  let M := mant_field m p in
  if E =? 0 then (if M <? 2 ^ (m - 1) then p + M else p)
  else if E =? Z.shiftl 1 e - 2 then p - M + 2 ^ m
  else p + 2 ^ m.

Definition double_check (fmt : string) (p : Z) : bool :=
  match FP8_Codec._get_format_params fmt with
  | Ok (e, m, _) =>
      if exp_field e m p =? Z.shiftl 1 e - 1 then true
      else
        match fp_add fmt (bits p) (bits p) with
        | Ok r => String.eqb r (bits (doubled_pattern e m p))
        | Raise _ => false
        end
  | Raise _ => false
  end.

(** The sign character that [_unpakcing] slices off a pattern. *)
Definition sign_char_check (fmt : string) (p : Z) : bool :=
  match FP8_Codec._get_format_params fmt with
  | Ok (e, m, bias) =>
      let self := Multiplier.mk fmt e m bias (Adder.mk fmt e m) false in
      match Multiplier._unpakcing self (bits p) with
      | Ok (s, _, _) => Bool.eqb (String.eqb s "0") (sign_field e m p =? 0)
      | Raise _ => false
      end
  | Raise _ => false
  end.

(** The number that the multiplier reads in a pattern: the fields taken
    as they are, with an all-ones exponent field like any other. *)
Definition unpacked_value (e m bias p : Z) : Q :=
  (Qpower (inject_Z (-1)) (sign_field e m p)
   * ((1 + unpacked_fraction e m p) * Qpower 2 (unpacked_exponent e m bias p)))%Q.

(** What FASA computes, read off the code: the low seven bits of the two
    patterns added as integers, the sum split at the mantissa width, the
    upper part taken as a biased exponent and the lower part as a
    fraction above an implicit one, the bias subtracted twice.  No field
    of the sum is ever treated as a denormal. *)
Definition fasa_value (e m bias a b : Z) : Q :=
  let sum := Z.land a 127 + Z.land b 127 in
  (Qpower (inject_Z (-1)) (sign_xor e m a b)
   * (1 + inject_Z (Z.land sum (Z.shiftl 1 m - 1)) / inject_Z (2 ^ m))
   * Qpower 2 (Z.shiftr sum m - bias - bias))%Q.

Definition fasa_operand_check (fmt : string) (p : Z) : bool :=
  match FP8_Codec._get_format_params fmt with
  | Ok (e, m, bias) =>
      let self := Multiplier.mk fmt e m bias (Adder.mk fmt e m) false in
      match Multiplier._unpakcing self (bits p) with
      | Ok (s, ex, mn) =>
          match Py.int_of 2 (ex ++ mn) with
          | Ok v => (v =? Z.land p 127)
                    && Nat.eqb (String.length (ex ++ mn)) 7
          | Raise _ => false
          end
      | Raise _ => false
      end
  | Raise _ => false
  end.

Definition fasa_tail_check (fmt : string) (t : Z) : bool :=
  match FP8_Codec._get_format_params fmt with
  | Ok (e, m, bias) =>
      let self := Multiplier.mk fmt e m bias (Adder.mk fmt e m) false in
      match Multiplier._em_cul self (Py.slice 0 (e + 1) (bits t))
                                    (Py.slice (e + 1) 8 (bits t)) with
      | Ok (x0, x1) =>
          (x0 =? Z.shiftr t m - bias)
          && Qeq_bool x1 (inject_Z (Z.land t (Z.shiftl 1 m - 1))
                          / inject_Z (2 ^ m))
      | Raise _ => false
      end
  | Raise _ => false
  end.

(** The exact and the FASA step share their body and differ in the
    product they call. *)
Definition guarded_step (self : FP8MatrixMultiplier.t)
    (mul : string -> string -> res pyval)
    (value_a value_b prod_t_1 : string) : res string :=
  if FP8MatrixMultiplier.any_pass value_a value_b prod_t_1 then Ok "pass"
  else
    flag_a <- FP8MatrixMultiplier.get_flag self value_a ;;
    flag_b <- FP8MatrixMultiplier.get_flag self value_b ;;
    if FP8MatrixMultiplier.inf_or_nan flag_a
       || FP8MatrixMultiplier.inf_or_nan flag_b then Ok "pass"
    else
      p <- mul value_a value_b ;;
      prod_t <- FP8MatrixMultiplier.product_bits p ;;
      flag_prod <- FP8MatrixMultiplier.get_flag self prod_t ;;
      if FP8MatrixMultiplier.inf_or_nan flag_prod then Ok "pass"
      else
        result <- Adder.fp_bin_adder (FP8MatrixMultiplier.adder self)
                    prod_t_1 prod_t ;;
        flag_result <- FP8MatrixMultiplier.get_flag self result ;;
        if FP8MatrixMultiplier.inf_or_nan flag_result then Ok "pass"
        else Ok result.

(** The values an accumulator takes along a chain of exact or FASA
    steps: the sentinel, or the string of a pattern; and what a step
    returns: the sentinel, or the string of a pattern that is neither an
    infinity nor a NaN. *)
Definition mac_state (r : string) : Prop :=
  r = "pass" \/ exists p, 0 <= p <= 255 /\ r = bits p.

Definition mac_result (e m : Z) (r : string) : Prop :=
  r = "pass" \/
  exists p, 0 <= p <= 255 /\ r = bits p /\
            exp_field e m p <> Z.shiftl 1 e - 1.

(** The object that [FP8MatrixMultiplier(format)] builds. *)
Definition matmul_object (fmt : string) (e m bias : Z) : FP8MatrixMultiplier.t :=
  FP8MatrixMultiplier.mk fmt e m (Adder.mk fmt e m)
    (Multiplier.mk fmt e m bias (Adder.mk fmt e m) true).

(** A list of operand pairs given as patterns, the strings handed to the
    chain, and the test for an operand with an all-ones exponent field. *)
Definition pattern_pairs (ops : list (Z * Z)) : Prop :=
  Forall (fun ab => 0 <= fst ab <= 255 /\ 0 <= snd ab <= 255) ops.

Definition pair_bits (ops : list (Z * Z)) : list (string * string) :=
  map (fun ab => (bits (fst ab), bits (snd ab))) ops.

Definition special_pair (e m : Z) (ab : Z * Z) : Prop :=
  exp_field e m (fst ab) = Z.shiftl 1 e - 1 \/
  exp_field e m (snd ab) = Z.shiftl 1 e - 1.

(** The shape of a result: [n] rows of [p] cells. *)
Definition has_shape {X : Type} (C : list (list X)) (n p : Z) : Prop :=
  Z.of_nat (List.length C) = n /\
  Forall (fun r => Z.of_nat (List.length r) = p) C.

(** The closing steps shared by the cases of [encode_pattern]. *)
Ltac fields_tail :=
  split; [reflexivity |]; split; [lia |]; split; [lia |];
  split; [intros; lia |]; intros ? H; discriminate H.

(** * Properties *)

(** ** Unknown format identifiers *)

Lemma dict_get_FORMATS_none (fmt : string) :
  ~ In fmt format_names -> FP8_Codec.dict_get FP8_Codec.FORMATS fmt = None.
Proof.
  intros H. unfold format_names in H. simpl in H. simpl.
  repeat match goal with
  | |- context [String.eqb fmt ?k] =>
      destruct (String.eqb_spec fmt k) as [-> | _];
      [ exfalso; apply H; tauto | ]
  end.
  reflexivity.
Qed.

Lemma get_format_params_unknown (fmt : string) :
  ~ In fmt format_names -> FP8_Codec._get_format_params fmt = Raise ValueError.
Proof.
  intros H. unfold FP8_Codec._get_format_params.
  now rewrite dict_get_FORMATS_none.
Qed.

(** C10. For a format identifier outside e2m5, e3m4, e4m3, e5m2, each
    public operation that takes a format raises ValueError: [encode] on
    every value, [decode] on every input and custom bias, and the
    constructors of [Adder], [Multiplier] and [FP8MatrixMultiplier]; none
    of them returns a result built from some other format. *)
Theorem C10_unknown_format_raises (fmt : string) :
  ~ In fmt format_names ->
  (forall x, FP8_Codec.encode x fmt = Raise ValueError) /\
  (forall p cb, FP8_Codec.decode p fmt cb = Raise ValueError) /\
  (forall x, FP8_Codec.encode_to_int x fmt = Raise ValueError) /\
  Adder.__init__ fmt = Raise ValueError /\
  (forall bo, Multiplier.__init__ fmt bo = Raise ValueError) /\
  FP8MatrixMultiplier.__init__ fmt = Raise ValueError.
Proof.
  intros H. pose proof (get_format_params_unknown fmt H) as E.
  repeat split; intros.
  - unfold FP8_Codec.encode. now rewrite E.
  - unfold FP8_Codec.decode. rewrite E.
    now destruct (negb ((0 <=? p) && (p <=? 255))).
  - unfold FP8_Codec.encode_to_int, FP8_Codec.encode. now rewrite E.
  - unfold Adder.__init__. now rewrite E.
  - unfold Multiplier.__init__. now rewrite E.
  - unfold FP8MatrixMultiplier.__init__. now rewrite E.
Qed.

Lemma C10_unknown_format_raises_witness :
  ~ In "e1m6" format_names /\
  FP8_Codec.encode (PFin 1) "e1m6" = Raise ValueError /\
  FP8_Codec.decode 0 "e1m6" None = Raise ValueError /\
  Adder.__init__ "e1m6" = Raise ValueError.
Proof.
  assert (N : ~ In "e1m6" format_names).
  { simpl. intros [H | [H | [H | [H | []]]]]; discriminate H. }
  destruct (C10_unknown_format_raises "e1m6" N) as (He & Hd & _ & Ha & _).
  exact (conj N (conj (He _) (conj (Hd _ _) Ha))).
Defined.

(** ** The MAC step and its sentinel *)

Section MacUnits.

Import FP8MatrixMultiplier.

Variable self : FP8MatrixMultiplier.t.

Lemma any_pass_acc (a b : string) : any_pass a b "pass" = true.
Proof.
  unfold any_pass. simpl. now rewrite !orb_true_r.
Qed.

(** A sentinel accumulator is returned as it is, whatever the operands. *)
Lemma mac_unit_pass (a b : string) : mac_unit self a b "pass" = Ok "pass".
Proof. unfold mac_unit. now rewrite any_pass_acc. Qed.

Lemma fasa_mac_unit_pass (a b : string) :
  fasa_mac_unit self a b "pass" = Ok "pass".
Proof. unfold fasa_mac_unit. now rewrite any_pass_acc. Qed.

Lemma lmul_mac_unit_pass (a b : string) :
  lmul_mac_unit self a b "pass" = Ok "pass".
Proof. unfold lmul_mac_unit. now rewrite any_pass_acc. Qed.

(** Sticky propagation along a chain, for any unit that returns the
    sentinel on a sentinel accumulator. *)
Lemma mac_chain_pass (unit : string -> string -> string -> res string) :
  (forall a b, unit a b "pass" = Ok "pass") ->
  forall ops, mac_chain unit ops "pass" = Ok "pass".
Proof.
  intros Hunit ops. induction ops as [| [a b] ops IH]; simpl.
  - reflexivity.
  - rewrite Hunit. simpl. exact IH.
Qed.

(** Splitting a chain at step [k]: if the first part ends in the sentinel,
    so does the whole chain. *)
Lemma mac_chain_app (unit : string -> string -> string -> res string)
    (ops1 ops2 : list (string * string)) (acc : string) :
  mac_chain unit (ops1 ++ ops2) acc =
  (acc' <- mac_chain unit ops1 acc ;; mac_chain unit ops2 acc').
Proof.
  revert acc. induction ops1 as [| [a b] ops1 IH]; intros acc; simpl.
  - reflexivity.
  - destruct (unit a b acc) as [acc' | e]; simpl; [apply IH | reflexivity].
Qed.

Lemma mac_chain_sticky (unit : string -> string -> string -> res string)
    (ops1 ops2 : list (string * string)) (acc : string) :
  (forall a b, unit a b "pass" = Ok "pass") ->
  mac_chain unit ops1 acc = Ok "pass" ->
  mac_chain unit (ops1 ++ ops2) acc = Ok "pass".
Proof.
  intros Hunit H1. rewrite mac_chain_app, H1. simpl.
  now apply mac_chain_pass.
Qed.

(** Every way the exact and the FASA step can end: the sentinel, or a
    sum that classifies as neither infinity nor NaN. *)
Lemma mac_unit_result (a b acc r : string) :
  mac_unit self a b acc = Ok r ->
  r = "pass" \/ exists f, get_flag self r = Ok f /\ inf_or_nan f = false.
Proof.
  unfold mac_unit.
  destruct (any_pass a b acc); [intros [= <-]; now left |].
  destruct (get_flag self a) as [fa |]; simpl; [| discriminate].
  destruct (get_flag self b) as [fb |]; simpl; [| discriminate].
  destruct (inf_or_nan fa || inf_or_nan fb); [intros [= <-]; now left |].
  destruct (Multiplier.multiply _ a b) as [p |]; simpl; [| discriminate].
  destruct (product_bits p) as [pt |]; simpl; [| discriminate].
  destruct (get_flag self pt) as [fp |]; simpl; [| discriminate].
  destruct (inf_or_nan fp); [intros [= <-]; now left |].
  destruct (Adder.fp_bin_adder _ acc pt) as [s |]; simpl; [| discriminate].
  destruct (get_flag self s) as [fs |] eqn:Es; simpl; [| discriminate].
  destruct (inf_or_nan fs) eqn:Ef; intros [= <-]; [now left |].
  right. exists fs. now split.
Qed.

Lemma fasa_mac_unit_result (a b acc r : string) :
  fasa_mac_unit self a b acc = Ok r ->
  r = "pass" \/ exists f, get_flag self r = Ok f /\ inf_or_nan f = false.
Proof.
  unfold fasa_mac_unit.
  destruct (any_pass a b acc); [intros [= <-]; now left |].
  destruct (get_flag self a) as [fa |]; simpl; [| discriminate].
  destruct (get_flag self b) as [fb |]; simpl; [| discriminate].
  destruct (inf_or_nan fa || inf_or_nan fb); [intros [= <-]; now left |].
  destruct (Multiplier.FASA _ a b) as [p |]; simpl; [| discriminate].
  destruct (product_bits p) as [pt |]; simpl; [| discriminate].
  destruct (get_flag self pt) as [fp |]; simpl; [| discriminate].
  destruct (inf_or_nan fp); [intros [= <-]; now left |].
  destruct (Adder.fp_bin_adder _ acc pt) as [s |]; simpl; [| discriminate].
  destruct (get_flag self s) as [fs |] eqn:Es; simpl; [| discriminate].
  destruct (inf_or_nan fs) eqn:Ef; intros [= <-]; [now left |].
  right. exists fs. now split.
Qed.

(** An operand that classifies as infinity or NaN: the exact and the FASA
    step return ["pass"], the L-Mul step returns ["input pass"]. *)
Lemma mac_units_special_operand (a b acc fa fb : string) :
  acc <> "pass" ->
  get_flag self a = Ok fa -> get_flag self b = Ok fb ->
  inf_or_nan fa || inf_or_nan fb = true ->
  mac_unit self a b acc = Ok "pass" /\
  fasa_mac_unit self a b acc = Ok "pass" /\
  lmul_mac_unit self a b acc = Ok "input pass".
Proof.
  intros Hacc Ha Hb Hs.
  assert (Na : String.eqb a "pass" = false).
  { destruct (String.eqb_spec a "pass") as [-> |]; [| reflexivity].
    unfold get_flag in Ha. simpl in Ha. discriminate Ha. }
  assert (Nb : String.eqb b "pass" = false).
  { destruct (String.eqb_spec b "pass") as [-> |]; [| reflexivity].
    unfold get_flag in Hb. simpl in Hb. discriminate Hb. }
  assert (Nc : String.eqb acc "pass" = false).
  { now apply String.eqb_neq. }
  unfold mac_unit, fasa_mac_unit, lmul_mac_unit, any_pass. simpl existsb.
  rewrite Na, Nb, Nc, Ha, Hb. simpl. rewrite Hs. repeat split; reflexivity.
Qed.

End MacUnits.

(** C3. The L-Mul step does not return the sentinel of the other two
    steps.  In e3m4, with [a] the pattern of +infinity, [b] the pattern of
    1.0 and a zero accumulator, [mac_unit] and [fasa_mac_unit] return
    ["pass"], and [lmul_mac_unit] returns ["input pass"].  That value is
    not recognised by the next step, which raises ValueError on finite
    operands, and the cell loop of [l_mul_matrix_multiply] raises
    ValueError on the 1x1 product of 100.0 (which encodes to +infinity)
    and 1.0, where the loop of [matrix_multiply] stores the sentinel. *)
Theorem C3_lmul_step_returns_other_sentinel :
  (self <- FP8MatrixMultiplier.__init__ "e3m4" ;;
   FP8MatrixMultiplier.mac_unit self "01110000" "00110000" "00000000")
    = Ok "pass" /\
  (self <- FP8MatrixMultiplier.__init__ "e3m4" ;;
   FP8MatrixMultiplier.fasa_mac_unit self "01110000" "00110000" "00000000")
    = Ok "pass" /\
  (self <- FP8MatrixMultiplier.__init__ "e3m4" ;;
   FP8MatrixMultiplier.lmul_mac_unit self "01110000" "00110000" "00000000")
    = Ok "input pass" /\
  (self <- FP8MatrixMultiplier.__init__ "e3m4" ;;
   FP8MatrixMultiplier.lmul_mac_unit self "00110000" "00110000" "input pass")
    = Raise ValueError /\
  (self <- FP8MatrixMultiplier.__init__ "e3m4" ;;
   FP8MatrixMultiplier.dot_cell self (FP8MatrixMultiplier.lmul_mac_unit self)
     [PFin 100] [PFin 1])
    = Raise ValueError /\
  (self <- FP8MatrixMultiplier.__init__ "e3m4" ;;
   FP8MatrixMultiplier.dot_cell self (FP8MatrixMultiplier.mac_unit self)
     [PFin 100] [PFin 1])
    = Ok FP8MatrixMultiplier.CPass.
Proof.
  repeat split; vm_compute; reflexivity.
Qed.

(** ** Enumeration of formats and patterns *)

Lemma patterns_complete (p : Z) : 0 <= p <= 255 -> In p patterns.
Proof.
  intros H. unfold patterns.
  rewrite <- (Z2Nat.id p) by lia.
  apply in_map, in_seq. lia.
Qed.

Lemma forall_formats_patterns (P : string -> Z -> bool) :
  forallb (fun fmt => forallb (P fmt) patterns) format_names = true ->
  forall fmt p, In fmt format_names -> 0 <= p <= 255 -> P fmt p = true.
Proof.
  intros H fmt p Hf Hp.
  rewrite forallb_forall in H. specialize (H fmt Hf).
  rewrite forallb_forall in H. apply H, patterns_complete, Hp.
Qed.

Lemma format_params (fmt : string) :
  In fmt format_names ->
  exists e m bias,
    FP8_Codec._get_format_params fmt = Ok (e, m, bias) /\
    In (e, m, bias) [(2, 5, 1); (3, 4, 3); (4, 3, 7); (5, 2, 15)].
Proof.
  intros [<- | [<- | [<- | [<- | []]]]];
    do 3 eexists; (split; [reflexivity |]); simpl; tauto.
Qed.

(** The string fields read by [decode_fields] and the integer read by
    [int(_, 2)] are the shift-and-mask fields of the pattern. *)
Lemma bits_fields (fmt : string) (p e m bias : Z) :
  In fmt format_names -> 0 <= p <= 255 ->
  FP8_Codec._get_format_params fmt = Ok (e, m, bias) ->
  Adder.decode_fields e (bits p)
    = Ok (sign_field e m p, exp_field e m p, mant_field m p) /\
  Py.int_of 2 (bits p) = Ok p.
Proof.
  intros Hf Hp Hpar.
  assert (C : fields_check fmt p = true).
  { apply forall_formats_patterns; [vm_compute; reflexivity | exact Hf | exact Hp]. }
  unfold fields_check in C. rewrite Hpar in C.
  destruct (Adder.decode_fields e (bits p)) as [[[s ex] mn] |]; [| discriminate].
  destruct (Py.int_of 2 (bits p)) as [n |]; [| discriminate].
  rewrite !andb_true_iff in C. destruct C as [[[C1 C2] C3] C4].
  apply Z.eqb_eq in C1, C2, C3, C4. now subst.
Qed.

Lemma land_255 (p : Z) : 0 <= p <= 255 -> Z.land p 255 = p.
Proof.
  intros H. change 255 with (Z.ones 8).
  rewrite Z.land_ones by lia. apply Z.mod_small. lia.
Qed.

(** [decode] succeeds on every pattern of a known format, and its flag
    is the classification of the fields. *)
Lemma decode_flag (fmt : string) (p e m bias : Z) :
  0 <= p <= 255 ->
  FP8_Codec._get_format_params fmt = Ok (e, m, bias) ->
  exists d, FP8_Codec.decode p fmt None = Ok d /\
            FP8_Codec.flag d = class_of_fields e (exp_field e m p) (mant_field m p).
Proof.
  intros Hp Hpar. unfold FP8_Codec.decode.
  replace (negb ((0 <=? p) && (p <=? 255))) with false
    by (symmetry; apply negb_false_iff, andb_true_iff; split; apply Z.leb_le; lia).
  rewrite Hpar. simpl bind. cbv zeta. rewrite (land_255 p Hp).
  unfold class_of_fields, exp_field, mant_field.
  destruct (Z.land (Z.shiftr p m) (Z.shiftl 1 e - 1) =? 0);
    [destruct (Z.land p (Z.shiftl 1 m - 1) =? 0); eexists; split; reflexivity |].
  destruct (Z.land (Z.shiftr p m) (Z.shiftl 1 e - 1) =? Z.shiftl 1 e - 1);
    [destruct (Z.land p (Z.shiftl 1 m - 1) =? 0); eexists; split; reflexivity |].
  eexists; split; reflexivity.
Qed.

Lemma flag_of_bits_fields (fmt : string) (p e m bias : Z) :
  In fmt format_names -> 0 <= p <= 255 ->
  FP8_Codec._get_format_params fmt = Ok (e, m, bias) ->
  flag_of_bits fmt (bits p)
    = Ok (class_of_fields e (exp_field e m p) (mant_field m p)).
Proof.
  intros Hf Hp Hpar. unfold flag_of_bits.
  destruct (bits_fields fmt p e m bias Hf Hp Hpar) as [_ ->]. simpl bind.
  destruct (decode_flag fmt p e m bias Hp Hpar) as (d & -> & <-).
  reflexivity.
Qed.

Lemma fp_add_unfold (fmt : string) (e m bias : Z) (a b : string) :
  FP8_Codec._get_format_params fmt = Ok (e, m, bias) ->
  fp_add fmt a b = Adder.fp_bin_adder (Adder.mk fmt e m) a b.
Proof.
  intros H. unfold fp_add, Adder.__init__. now rewrite H.
Qed.

(** ** Special values in [fp_bin_adder] *)

Section AdderCases.

Variable self : Adder.t.
Variables a_bin b_bin : string.
Variables sa ea ma sb eb mb : Z.

Let AO := Z.shiftl 1 (Adder.e_bits self) - 1.

Hypothesis Ha : Adder.decode_fields (Adder.e_bits self) a_bin = Ok (sa, ea, ma).
Hypothesis Hb : Adder.decode_fields (Adder.e_bits self) b_bin = Ok (sb, eb, mb).

Lemma fp_bin_adder_nan :
  Adder.is_nan AO ea ma || Adder.is_nan AO eb mb = true ->
  Adder.fp_bin_adder self a_bin b_bin
    = Ok (Adder.nan_bits (Adder.e_bits self) (Adder.m_bits self)).
Proof.
  intros H. unfold Adder.fp_bin_adder. rewrite Ha, Hb. simpl bind.
  fold AO. now rewrite H.
Qed.

Lemma fp_bin_adder_inf_opposite :
  Adder.is_inf AO ea ma = true -> Adder.is_inf AO eb mb = true ->
  sa <> sb ->
  Adder.fp_bin_adder self a_bin b_bin
    = Ok (Adder.nan_bits (Adder.e_bits self) (Adder.m_bits self)).
Proof.
  intros Hia Hib Hs. unfold Adder.fp_bin_adder. rewrite Ha, Hb. simpl bind.
  fold AO. rewrite Hia, Hib.
  destruct (Adder.is_nan AO ea ma || Adder.is_nan AO eb mb); [reflexivity |].
  simpl. now rewrite (proj2 (Z.eqb_neq sa sb) Hs).
Qed.

Lemma fp_bin_adder_zero_right :
  Adder.is_nan AO ea ma = false -> Adder.is_inf AO ea ma = false ->
  AO <> 0 -> eb = 0 -> mb = 0 ->
  (ea =? 0) && (ma =? 0) = false ->
  Adder.fp_bin_adder self a_bin b_bin = Ok a_bin.
Proof.
  intros Hna Hia Hao -> -> Hz.
  unfold Adder.fp_bin_adder. rewrite Ha, Hb. simpl bind. fold AO.
  rewrite Hna, Hia, Hz.
  assert (E : (0 =? AO) = false) by (apply Z.eqb_neq; congruence).
  unfold Adder.is_nan, Adder.is_inf. rewrite E. reflexivity.
Qed.

Lemma fp_bin_adder_zero_left :
  AO <> 0 -> ea = 0 -> ma = 0 ->
  Adder.is_nan AO eb mb = false -> Adder.is_inf AO eb mb = false ->
  Adder.fp_bin_adder self a_bin b_bin = Ok b_bin.
Proof.
  intros Hao -> -> Hnb Hib.
  unfold Adder.fp_bin_adder. rewrite Ha, Hb. simpl bind. fold AO.
  rewrite Hnb, Hib.
  assert (E : (0 =? AO) = false) by (apply Z.eqb_neq; congruence).
  unfold Adder.is_nan, Adder.is_inf. rewrite E. reflexivity.
Qed.

End AdderCases.

(** What a flag says about the fields. *)
Lemma class_nan (e ex mn : Z) :
  class_of_fields e ex mn = "NaN" ->
  Adder.is_nan (Z.shiftl 1 e - 1) ex mn = true.
Proof.
  unfold class_of_fields, Adder.is_nan.
  destruct (ex =? 0); [destruct (mn =? 0); discriminate |].
  destruct (ex =? Z.shiftl 1 e - 1); [| discriminate].
  destruct (mn =? 0); [discriminate | reflexivity].
Qed.

Lemma class_infinity (e ex mn : Z) :
  class_of_fields e ex mn = "infinity" ->
  Adder.is_inf (Z.shiftl 1 e - 1) ex mn = true.
Proof.
  unfold class_of_fields, Adder.is_inf.
  destruct (ex =? 0); [destruct (mn =? 0); discriminate |].
  destruct (ex =? Z.shiftl 1 e - 1); [| discriminate].
  destruct (mn =? 0); [reflexivity | discriminate].
Qed.

Lemma class_zero (e ex mn : Z) :
  class_of_fields e ex mn = "zero" -> ex = 0 /\ mn = 0.
Proof.
  unfold class_of_fields.
  destruct (Z.eqb_spec ex 0) as [-> |].
  - destruct (Z.eqb_spec mn 0) as [-> |]; [auto | discriminate].
  - destruct (ex =? Z.shiftl 1 e - 1); [destruct (mn =? 0) |]; discriminate.
Qed.

Lemma class_number (e ex mn : Z) :
  Z.shiftl 1 e - 1 <> 0 ->
  class_of_fields e ex mn = "normalized" \/
  class_of_fields e ex mn = "denormalized" ->
  Adder.is_nan (Z.shiftl 1 e - 1) ex mn = false /\
  Adder.is_inf (Z.shiftl 1 e - 1) ex mn = false /\
  (ex =? 0) && (mn =? 0) = false.
Proof.
  intros Hao. unfold class_of_fields, Adder.is_nan, Adder.is_inf.
  destruct (Z.eqb_spec ex 0) as [-> | Hex].
  - destruct (mn =? 0); [intros [H | H]; discriminate H |].
    intros _. rewrite andb_false_r.
    destruct (Z.eqb_spec 0 (Z.shiftl 1 e - 1)) as [E |]; [| auto].
    exfalso. apply Hao. now rewrite <- E.
  - destruct (ex =? Z.shiftl 1 e - 1).
    + destruct (mn =? 0); intros [H | H]; discriminate H.
    + intros _. auto.
Qed.

(** The adder's NaN string in each format. *)
Lemma nan_bits_pattern (e m bias : Z) :
  In (e, m, bias) [(2, 5, 1); (3, 4, 3); (4, 3, 7); (5, 2, 15)] ->
  Adder.nan_bits e m = bits (adder_nan_pattern e m) /\
  Z.shiftl 1 e - 1 <> 0 /\
  e + m = 7.
Proof.
  intros [[= <- <- <-] | [[= <- <- <-] | [[= <- <- <-] | [[= <- <- <-] | []]]]];
    (split; [vm_compute; reflexivity | split; [vm_compute; discriminate | reflexivity]]).
Qed.

Lemma adder_nan_pattern_range (e m bias : Z) :
  In (e, m, bias) [(2, 5, 1); (3, 4, 3); (4, 3, 7); (5, 2, 15)] ->
  0 <= adder_nan_pattern e m <= 255 /\
  class_of_fields e (exp_field e m (adder_nan_pattern e m))
                    (mant_field m (adder_nan_pattern e m)) = "NaN" /\
  sign_field e m (adder_nan_pattern e m) = 0 /\
  exp_field e m (adder_nan_pattern e m) = Z.shiftl 1 e - 1 /\
  mant_field m (adder_nan_pattern e m) = 1.
Proof.
  intros [[= <- <- <-] | [[= <- <- <-] | [[= <- <- <-] | [[= <- <- <-] | []]]]];
    vm_compute; intuition discriminate.
Qed.

(** C4. In each format: [fp_add] with at least one operand classified NaN
    returns a string classified NaN; [fp_add] of +infinity and -infinity
    returns a string classified NaN; [fp_add] of +infinity and +infinity
    returns the string of +infinity. *)
Theorem C4_fp_add_nan_and_infinities (fmt : string) :
  In fmt format_names ->
  (forall a b, 0 <= a <= 255 -> 0 <= b <= 255 ->
     flag_of_bits fmt (bits a) = Ok "NaN" \/
     flag_of_bits fmt (bits b) = Ok "NaN" ->
     exists s, fp_add fmt (bits a) (bits b) = Ok s /\
               flag_of_bits fmt s = Ok "NaN") /\
  (exists pinf ninf s,
     FP8_Codec.encode (PInf false) fmt = Ok pinf /\
     FP8_Codec.encode (PInf true) fmt = Ok ninf /\
     value_of_bits fmt pinf = Ok (PInf false) /\
     value_of_bits fmt ninf = Ok (PInf true) /\
     fp_add fmt pinf ninf = Ok s /\
     flag_of_bits fmt s = Ok "NaN" /\
     fp_add fmt pinf pinf = Ok pinf).
Proof.
  intros Hf. split.
  - intros a b Ha Hb Hnan.
    destruct (format_params fmt Hf) as (e & m & bias & Hpar & Hin).
    destruct (bits_fields fmt a e m bias Hf Ha Hpar) as [Fa _].
    destruct (bits_fields fmt b e m bias Hf Hb Hpar) as [Fb _].
    destruct (nan_bits_pattern e m bias Hin) as (Enan & _ & _).
    destruct (adder_nan_pattern_range e m bias Hin) as (Rn & Cn & _).
    exists (bits (adder_nan_pattern e m)). split.
    + rewrite (fp_add_unfold fmt e m bias) by exact Hpar.
      rewrite <- Enan.
      apply (fp_bin_adder_nan (Adder.mk fmt e m) _ _ _ _ _ _ _ _ Fa Fb).
      simpl Adder.e_bits.
      rewrite (flag_of_bits_fields fmt a e m bias Hf Ha Hpar) in Hnan.
      rewrite (flag_of_bits_fields fmt b e m bias Hf Hb Hpar) in Hnan.
      apply orb_true_iff.
      destruct Hnan as [[= H] | [= H]]; [left | right]; now apply class_nan.
    + rewrite (flag_of_bits_fields fmt _ e m bias Hf Rn Hpar). now rewrite Cn.
  - destruct Hf as [<- | [<- | [<- | [<- | []]]]];
      do 3 eexists; repeat split; vm_compute; reflexivity.
Qed.

Lemma C4_fp_add_nan_and_infinities_witness :
  In "e3m4" format_names /\
  (0 <= 121 <= 255 /\ 0 <= 40 <= 255 /\
   (flag_of_bits "e3m4" (bits 121) = Ok "NaN" \/
    flag_of_bits "e3m4" (bits 40) = Ok "NaN")) /\
  exists s, fp_add "e3m4" (bits 121) (bits 40) = Ok s /\
            flag_of_bits "e3m4" s = Ok "NaN".
Proof.
  assert (Hf : In "e3m4" format_names) by (simpl; tauto).
  assert (Ha : 0 <= 121 <= 255) by lia.
  assert (Hb : 0 <= 40 <= 255) by lia.
  assert (Hn : flag_of_bits "e3m4" (bits 121) = Ok "NaN" \/
               flag_of_bits "e3m4" (bits 40) = Ok "NaN")
    by (left; reflexivity).
  split; [exact Hf |]. split; [exact (conj Ha (conj Hb Hn)) |].
  exact (proj1 (C4_fp_add_nan_and_infinities "e3m4" Hf) 121 40 Ha Hb Hn).
Defined.

Lemma signed_not_inf (sign : Z) (val : Q) (s : bool) :
  FP8_Codec.signed sign val <> PInf s.
Proof.
  unfold FP8_Codec.signed, fneg.
  destruct (sign =? 1); [destruct (Qeq_bool val 0) |]; discriminate.
Qed.

(** A pattern that decodes to an infinity has the fields of one, and its
    sign bit is the sign of the value. *)
Lemma decode_infinite (fmt : string) (p e m bias : Z) (s : bool) :
  In fmt format_names -> 0 <= p <= 255 ->
  FP8_Codec._get_format_params fmt = Ok (e, m, bias) ->
  value_of_bits fmt (bits p) = Ok (PInf s) ->
  Adder.is_inf (Z.shiftl 1 e - 1) (exp_field e m p) (mant_field m p) = true /\
  (sign_field e m p =? 1) = s.
Proof.
  intros Hf Hp Hpar. unfold value_of_bits.
  destruct (bits_fields fmt p e m bias Hf Hp Hpar) as [_ ->]. simpl bind.
  unfold FP8_Codec.decode.
  replace (negb ((0 <=? p) && (p <=? 255))) with false
    by (symmetry; apply negb_false_iff, andb_true_iff; split; apply Z.leb_le; lia).
  rewrite Hpar. simpl bind. cbv zeta. rewrite (land_255 p Hp).
  unfold Adder.is_inf, exp_field, mant_field, sign_field.
  destruct (Z.land (Z.shiftr p m) (Z.shiftl 1 e - 1) =? 0).
  { destruct (Z.land p (Z.shiftl 1 m - 1) =? 0); simpl.
    - destruct (Z.land (Z.shiftr p (e + m)) 1 =? 1); discriminate.
    - intros [= H]. now apply signed_not_inf in H. }
  destruct (Z.land (Z.shiftr p m) (Z.shiftl 1 e - 1) =? Z.shiftl 1 e - 1).
  { destruct (Z.land p (Z.shiftl 1 m - 1) =? 0); simpl.
    - intros [= H]. now split.
    - discriminate. }
  simpl. intros [= H]. now apply signed_not_inf in H.
Qed.

(** C5 (as the code has it). In each format, when [fp_add] is given at
    least one operand classified NaN, or two infinite operands of opposite
    sign, it returns the pattern with sign 0, exponent field all ones, and
    a mantissa field in which only the lowest bit is set. *)
Theorem C5_fp_add_nan_has_lowest_bit (fmt : string) (a b : Z) :
  In fmt format_names -> 0 <= a <= 255 -> 0 <= b <= 255 ->
  (flag_of_bits fmt (bits a) = Ok "NaN" \/
   flag_of_bits fmt (bits b) = Ok "NaN" \/
   exists s, value_of_bits fmt (bits a) = Ok (PInf s) /\
             value_of_bits fmt (bits b) = Ok (PInf (negb s))) ->
  exists e m bias,
    FP8_Codec._get_format_params fmt = Ok (e, m, bias) /\
    fp_add fmt (bits a) (bits b) = Ok (bits (adder_nan_pattern e m)) /\
    sign_field e m (adder_nan_pattern e m) = 0 /\
    exp_field e m (adder_nan_pattern e m) = Z.shiftl 1 e - 1 /\
    mant_field m (adder_nan_pattern e m) = 1.
Proof.
  intros Hf Ha Hb Hcase.
  destruct (format_params fmt Hf) as (e & m & bias & Hpar & Hin).
  destruct (bits_fields fmt a e m bias Hf Ha Hpar) as [Fa _].
  destruct (bits_fields fmt b e m bias Hf Hb Hpar) as [Fb _].
  destruct (nan_bits_pattern e m bias Hin) as (Enan & _ & _).
  destruct (adder_nan_pattern_range e m bias Hin) as (_ & _ & S0 & E1 & M1).
  exists e, m, bias. repeat split; try assumption.
  rewrite (fp_add_unfold fmt e m bias) by exact Hpar. rewrite <- Enan.
  assert (Hnan : forall p, 0 <= p <= 255 ->
            flag_of_bits fmt (bits p) = Ok "NaN" ->
            Adder.is_nan (Z.shiftl 1 e - 1) (exp_field e m p) (mant_field m p) = true).
  { intros p Hp H.
    rewrite (flag_of_bits_fields fmt p e m bias Hf Hp Hpar) in H.
    injection H as H. now apply class_nan. }
  destruct Hcase as [H | [H | (s & Hva & Hvb)]].
  - apply (fp_bin_adder_nan (Adder.mk fmt e m) _ _ _ _ _ _ _ _ Fa Fb).
    simpl Adder.e_bits. now rewrite (Hnan a Ha H).
  - apply (fp_bin_adder_nan (Adder.mk fmt e m) _ _ _ _ _ _ _ _ Fa Fb).
    simpl Adder.e_bits. rewrite (Hnan b Hb H). apply orb_true_r.
  - destruct (decode_infinite fmt a e m bias s Hf Ha Hpar Hva) as [Ia Sa].
    destruct (decode_infinite fmt b e m bias _ Hf Hb Hpar Hvb) as [Ib Sb].
    apply (fp_bin_adder_inf_opposite (Adder.mk fmt e m) _ _ _ _ _ _ _ _ Fa Fb Ia Ib).
    intros E. rewrite E, Sb in Sa. now destruct s.
Qed.

Lemma C5_fp_add_nan_has_lowest_bit_witness :
  In "e3m4" format_names /\ 0 <= 120 <= 255 /\ 0 <= 0 <= 255 /\
  flag_of_bits "e3m4" (bits 120) = Ok "NaN" /\
  exists e m bias,
    FP8_Codec._get_format_params "e3m4" = Ok (e, m, bias) /\
    fp_add "e3m4" (bits 120) (bits 0) = Ok (bits (adder_nan_pattern e m)) /\
    sign_field e m (adder_nan_pattern e m) = 0 /\
    exp_field e m (adder_nan_pattern e m) = Z.shiftl 1 e - 1 /\
    mant_field m (adder_nan_pattern e m) = 1.
Proof.
  assert (Hf : In "e3m4" format_names) by (simpl; tauto).
  assert (Ha : 0 <= 120 <= 255) by lia.
  assert (Hb : 0 <= 0 <= 255) by lia.
  assert (Hn : flag_of_bits "e3m4" (bits 120) = Ok "NaN") by reflexivity.
  repeat (split; [assumption |]).
  exact (C5_fp_add_nan_has_lowest_bit "e3m4" 120 0 Hf Ha Hb (or_introl Hn)).
Defined.

(** C5, as stated, fails: in e3m4 the operand 01111000 is classified NaN,
    and [fp_add] of it and 00000000 returns 01110001, not the pattern
    01111000 that has only the top mantissa bit set and that [encode]
    gives for NaN. *)
Lemma C5_top_bit_nan_counterexample :
  flag_of_bits "e3m4" "01111000" = Ok "NaN" /\
  bits (codec_nan_pattern 3 4) = "01111000" /\
  FP8_Codec.encode PNaN "e3m4" = Ok "01111000" /\
  fp_add "e3m4" "01111000" "00000000" = Ok "01110001" /\
  ~ (fp_add "e3m4" "01111000" "00000000" = Ok (bits (codec_nan_pattern 3 4))).
Proof.
  repeat split; try (vm_compute; reflexivity).
  vm_compute. discriminate.
Qed.

(** ** Adding a zero *)

(** C7 (as the code has it). In each format, for a zero pattern [z]
    (+0 or -0): [fp_add(a, z)] returns [a] unchanged when [a] classifies
    as normalized or denormalized, and returns [z] when [a] is itself a
    zero pattern. *)
Theorem C7_fp_add_zero_right (fmt : string) (a z : Z) :
  In fmt format_names -> 0 <= a <= 255 -> z = 0 \/ z = 128 ->
  flag_of_bits fmt (bits z) = Ok "zero" /\
  (flag_of_bits fmt (bits a) = Ok "normalized" \/
   flag_of_bits fmt (bits a) = Ok "denormalized" ->
   fp_add fmt (bits a) (bits z) = Ok (bits a)) /\
  (flag_of_bits fmt (bits a) = Ok "zero" ->
   fp_add fmt (bits a) (bits z) = Ok (bits z)).
Proof.
  intros Hf Ha Hz.
  assert (Hzr : 0 <= z <= 255) by lia.
  destruct (format_params fmt Hf) as (e & m & bias & Hpar & Hin).
  destruct (bits_fields fmt a e m bias Hf Ha Hpar) as [Fa _].
  destruct (bits_fields fmt z e m bias Hf Hzr Hpar) as [Fz _].
  destruct (nan_bits_pattern e m bias Hin) as (_ & Hao & _).
  assert (Zf : exp_field e m z = 0 /\ mant_field m z = 0).
  { destruct Hin as [[= <- <- <-] | [[= <- <- <-] | [[= <- <- <-] | [[= <- <- <-] | []]]]];
      destruct Hz as [-> | ->]; split; reflexivity. }
  destruct Zf as [Ez Mz].
  assert (Cz : class_of_fields e (exp_field e m z) (mant_field m z) = "zero")
    by (rewrite Ez, Mz; reflexivity).
  rewrite !(fp_add_unfold fmt e m bias) by exact Hpar.
  rewrite (flag_of_bits_fields fmt z e m bias Hf Hzr Hpar).
  rewrite (flag_of_bits_fields fmt a e m bias Hf Ha Hpar).
  split; [now rewrite Cz | split].
  - intros H.
    assert (H' : class_of_fields e (exp_field e m a) (mant_field m a) = "normalized" \/
                 class_of_fields e (exp_field e m a) (mant_field m a) = "denormalized")
      by (destruct H as [[= H] | [= H]]; [left | right]; exact H).
    destruct (class_number e _ _ Hao H') as (Na & Ia & Nz).
    now apply (fp_bin_adder_zero_right (Adder.mk fmt e m) _ _ _ _ _ _ _ _ Fa Fz).
  - intros [= H]. destruct (class_zero e _ _ H) as [Ea Ma].
    apply (fp_bin_adder_zero_left (Adder.mk fmt e m) _ _ _ _ _ _ _ _ Fa Fz);
      try assumption.
    + simpl Adder.e_bits. unfold Adder.is_nan. rewrite Ez.
      destruct (Z.eqb_spec 0 (Z.shiftl 1 e - 1)) as [E |]; [| reflexivity].
      exfalso. apply Hao. now rewrite <- E.
    + simpl Adder.e_bits. unfold Adder.is_inf. rewrite Ez.
      destruct (Z.eqb_spec 0 (Z.shiftl 1 e - 1)) as [E |]; [| reflexivity].
      exfalso. apply Hao. now rewrite <- E.
Qed.

Lemma C7_fp_add_zero_right_witness :
  In "e4m3" format_names /\ 0 <= 57 <= 255 /\ (128 = 0 \/ 128 = 128) /\
  flag_of_bits "e4m3" (bits 57) = Ok "normalized" /\
  fp_add "e4m3" (bits 57) (bits 128) = Ok (bits 57).
Proof.
  assert (Hf : In "e4m3" format_names) by (simpl; tauto).
  assert (Ha : 0 <= 57 <= 255) by lia.
  assert (Hz : 128 = 0 \/ 128 = 128) by (right; reflexivity).
  assert (Hn : flag_of_bits "e4m3" (bits 57) = Ok "normalized") by reflexivity.
  repeat (split; [assumption |]).
  exact (proj1 (proj2 (C7_fp_add_zero_right "e4m3" 57 128 Hf Ha Hz)) (or_introl Hn)).
Defined.

(** C7, as stated, fails when [a] is a zero of the other sign: in e3m4,
    10000000 classifies as zero (so it is not infinity or NaN), 00000000
    is a zero pattern, and [fp_add] of them returns 00000000. *)
Lemma C7_negative_zero_counterexample :
  flag_of_bits "e3m4" (bits 128) = Ok "zero" /\
  flag_of_bits "e3m4" (bits 0) = Ok "zero" /\
  bits 128 = "10000000" /\ bits 0 = "00000000" /\
  fp_add "e3m4" (bits 128) (bits 0) = Ok "00000000" /\
  ~ (fp_add "e3m4" (bits 128) (bits 0) = Ok (bits 128)).
Proof.
  repeat split; try (vm_compute; reflexivity).
  vm_compute. discriminate.
Qed.

(** ** The e3m4 scenario *)

(** C6 (as the code has it). In e3m4 (3 exponent bits, 4 mantissa bits,
    bias 3): [encode(0.25)] is 00010000 and [encode(-1.0)] is 10110000;
    00011000 is the pattern of 0.375, and [fp_add] of it with itself
    decodes to 0.75; [fp_add] of the pattern of 0.25 with itself decodes
    to 0.5. *)
Theorem C6_e3m4_scenario :
  FP8_Codec._get_format_params "e3m4" = Ok (3, 4, 3) /\
  FP8_Codec.encode (PFin (1 # 4)) "e3m4" = Ok "00010000" /\
  FP8_Codec.encode (PFin (- (1))) "e3m4" = Ok "10110000" /\
  (exists v, value_of_bits "e3m4" "00011000" = Ok v /\ value_is v (3 # 8)) /\
  (exists s v, fp_add "e3m4" "00011000" "00011000" = Ok s /\
               value_of_bits "e3m4" s = Ok v /\ value_is v (3 # 4)) /\
  (exists s v, fp_add "e3m4" "00010000" "00010000" = Ok s /\
               value_of_bits "e3m4" s = Ok v /\ value_is v (1 # 2)).
Proof.
  split; [reflexivity |].
  split; [vm_compute; reflexivity |].
  split; [vm_compute; reflexivity |].
  split; [| split].
  - eexists. split; [vm_compute; reflexivity | vm_compute; reflexivity].
  - do 2 eexists. split; [vm_compute; reflexivity |].
    split; vm_compute; reflexivity.
  - do 2 eexists. split; [vm_compute; reflexivity |].
    split; vm_compute; reflexivity.
Qed.

(** C6, as stated, fails on each of its three parts: [encode(0.25)] is
    not 00011000, [encode(-1.0)] is not 10101000, and the sum of 00011000
    with itself does not decode to 0.5. *)
Lemma C6_e3m4_scenario_counterexample :
  FP8_Codec.encode (PFin (1 # 4)) "e3m4" <> Ok "00011000" /\
  FP8_Codec.encode (PFin (- (1))) "e3m4" <> Ok "10101000" /\
  ~ (exists s v, fp_add "e3m4" "00011000" "00011000" = Ok s /\
                 value_of_bits "e3m4" s = Ok v /\ value_is v (1 # 2)).
Proof.
  split; [vm_compute; discriminate |].
  split; [vm_compute; discriminate |].
  intros (s & v & Hs & Hv & Hq).
  assert (E : fp_add "e3m4" "00011000" "00011000" = Ok "00101000")
    by (vm_compute; reflexivity).
  rewrite E in Hs. injection Hs as <-.
  vm_compute in Hv. injection Hv as <-.
  vm_compute in Hq. discriminate Hq.
Qed.

(** ** Decode, then encode *)

(** C1 (as the code has it). In each format and for every pattern [p] in
    0..255, [decode(p)] succeeds and [encode] of the decoded value is: the
    NaN pattern of [encode] (top mantissa bit only) when [p] is a NaN
    pattern; 00000000 when [p] is the negative zero 10000000; and [p]
    itself in every other case. *)
Theorem C1_decode_encode_roundtrip (fmt : string) (p : Z) :
  In fmt format_names -> 0 <= p <= 255 ->
  exists e m bias d,
    FP8_Codec._get_format_params fmt = Ok (e, m, bias) /\
    FP8_Codec.decode p fmt None = Ok d /\
    roundtrip fmt p = Ok (bits (roundtrip_pattern e m (FP8_Codec.flag d) p)).
Proof.
  intros Hf Hp.
  assert (C : roundtrip_check fmt p = true).
  { apply forall_formats_patterns; [vm_compute; reflexivity | exact Hf | exact Hp]. }
  unfold roundtrip_check in C. unfold roundtrip.
  destruct (FP8_Codec._get_format_params fmt) as [[[e m] bias] |]; [| discriminate].
  destruct (FP8_Codec.decode p fmt None) as [d |]; [| discriminate].
  simpl bind.
  destruct (FP8_Codec.encode (FP8_Codec.value d) fmt) as [s |]; [| discriminate].
  apply String.eqb_eq in C. subst s.
  exists e, m, bias, d. auto.
Qed.

Lemma C1_decode_encode_roundtrip_witness :
  In "e5m2" format_names /\ 0 <= 77 <= 255 /\
  exists e m bias d,
    FP8_Codec._get_format_params "e5m2" = Ok (e, m, bias) /\
    FP8_Codec.decode 77 "e5m2" None = Ok d /\
    roundtrip "e5m2" 77 = Ok (bits (roundtrip_pattern e m (FP8_Codec.flag d) 77)).
Proof.
  assert (Hf : In "e5m2" format_names) by (simpl; tauto).
  assert (Hp : 0 <= 77 <= 255) by lia.
  exact (conj Hf (conj Hp (C1_decode_encode_roundtrip "e5m2" 77 Hf Hp))).
Defined.

(** C1, as stated, fails on the negative zero: in e4m3 the pattern
    10000000 decodes to -0.0 with flag "zero" (not NaN), and [encode] of
    that value is 00000000. *)
Lemma C1_negative_zero_counterexample :
  (exists d, FP8_Codec.decode 128 "e4m3" None = Ok d /\
             FP8_Codec.value d = PNegZero /\ FP8_Codec.flag d = "zero") /\
  bits 128 = "10000000" /\
  roundtrip "e4m3" 128 = Ok "00000000" /\
  roundtrip "e4m3" 128 <> Ok (bits 128).
Proof.
  split; [eexists; repeat split; vm_compute; reflexivity |].
  split; [vm_compute; reflexivity |].
  split; [vm_compute; reflexivity |].
  vm_compute. discriminate.
Qed.

(** ** The multiplier's unpacking *)

(** [_unpakcing] and [_em_cul] on the string of a pattern give the sign
    bit, the unpacked exponent and the unpacked fraction of its fields. *)
Lemma unpack_fields (fmt : string) (bo : bool) (p e m bias : Z) :
  In fmt format_names -> 0 <= p <= 255 ->
  FP8_Codec._get_format_params fmt = Ok (e, m, bias) ->
  let self := Multiplier.mk fmt e m bias (Adder.mk fmt e m) bo in
  exists s ex mn uf,
    Multiplier._unpakcing self (bits p) = Ok (s, ex, mn) /\
    Py.int_of 10 s = Ok (sign_field e m p) /\
    Multiplier._em_cul self ex mn = Ok (unpacked_exponent e m bias p, uf) /\
    (uf == unpacked_fraction e m p)%Q.
Proof.
  intros Hf Hp Hpar self.
  assert (C : unpack_check fmt p = true).
  { apply forall_formats_patterns; [vm_compute; reflexivity | exact Hf | exact Hp]. }
  unfold unpack_check in C. rewrite Hpar in C. cbv zeta in C.
  change (Multiplier._unpakcing
            (Multiplier.mk fmt e m bias (Adder.mk fmt e m) false) (bits p))
    with (Multiplier._unpakcing self (bits p)) in C.
  destruct (Multiplier._unpakcing self (bits p)) as [[[s ex] mn] |];
    [| discriminate].
  change (Multiplier._em_cul
            (Multiplier.mk fmt e m bias (Adder.mk fmt e m) false) ex mn)
    with (Multiplier._em_cul self ex mn) in C.
  destruct (Py.int_of 10 s) as [sv |] eqn:Es; [| discriminate].
  destruct (Multiplier._em_cul self ex mn) as [[ue uf] |] eqn:Em;
    [| discriminate].
  rewrite !andb_true_iff in C. destruct C as [[C1 C2] C3].
  apply Z.eqb_eq in C1, C2. apply Qeq_bool_iff in C3. subst sv ue.
  exists s, ex, mn, uf. repeat split; [exact Es | exact Em | exact C3].
Qed.

Lemma sign_field_bit (e m p : Z) : sign_field e m p = 0 \/ sign_field e m p = 1.
Proof.
  unfold sign_field. change 1 with (Z.ones 1) at 1 2.
  rewrite Z.land_ones by lia.
  pose proof (Z.mod_pos_bound (Z.shiftr p (e + m)) (2 ^ 1)) as B.
  change (2 ^ 1) with 2 in *. lia.
Qed.

Lemma value_is_eq (v : pyfloat) (q q' : Q) :
  value_is v q -> (q == q')%Q -> value_is v q'.
Proof.
  unfold value_is. destruct (real_of v); [| tauto].
  intros H1 H2. now rewrite H1.
Qed.

(** The sign step of the three multiplications: [if sign == 1: v = -v]
    multiplies by [(-1)^sign] when [sign] is the xor of two bits. *)
Lemma value_is_signed (e m a b : Z) (v q : Q) :
  (v == q)%Q ->
  value_is (if sign_xor e m a b =? 1 then fneg (PFin v) else PFin v)
           (Qpower (inject_Z (-1)) (sign_xor e m a b) * q).
Proof.
  intros Hv. unfold sign_xor.
  destruct (sign_field_bit e m a) as [-> | ->];
    destruct (sign_field_bit e m b) as [-> | ->]; simpl Z.lxor; simpl Z.eqb; cbv iota.
  - unfold value_is. simpl. rewrite Hv. ring.
  - unfold value_is, fneg. destruct (Qeq_bool v 0) eqn:E; simpl.
    + apply Qeq_bool_iff in E. rewrite <- Hv, E. ring.
    + rewrite Hv. ring.
  - unfold value_is, fneg. destruct (Qeq_bool v 0) eqn:E; simpl.
    + apply Qeq_bool_iff in E. rewrite <- Hv, E. ring.
    + rewrite Hv. ring.
  - unfold value_is. simpl. rewrite Hv. ring.
Qed.

(** ** L-Mul *)

(** C8. In each format and for any two patterns [a], [b], the real-valued
    result of [multiply_lmul] is
    [(-1)^(sa xor sb) * (1 + fa + fb + 2^(-lm)) * 2^(ea + eb)], where
    [(ea, fa)] and [(eb, fb)] are the unpacked exponent and mantissa
    fraction of the operands (an all-zero exponent field gives exponent
    [1 - bias] and no implicit 1: its fraction is accumulated from -1),
    and [lm] is [mantissa_bits] for widths up to 3, 3 for width 4 and 4
    for widths from 5. *)
Theorem C8_lmul_formula (fmt : string) (a b : Z) :
  In fmt format_names -> 0 <= a <= 255 -> 0 <= b <= 255 ->
  exists e m bias v,
    FP8_Codec._get_format_params fmt = Ok (e, m, bias) /\
    multiply_lmul fmt false (bits a) (bits b) = Ok (VFloat v) /\
    value_is v (lmul_formula e m bias a b).
Proof.
  intros Hf Ha Hb.
  destruct (format_params fmt Hf) as (e & m & bias & Hpar & _).
  destruct (unpack_fields fmt false a e m bias Hf Ha Hpar)
    as (s1 & ex1 & mn1 & x1 & Ua & Sa & Ea & Fa).
  destruct (unpack_fields fmt false b e m bias Hf Hb Hpar)
    as (s2 & ex2 & mn2 & y1 & Ub & Sb & Eb & Fb).
  exists e, m, bias. eexists. split; [exact Hpar |].
  unfold multiply_lmul, Multiplier.__init__, Adder.__init__.
  rewrite Hpar. cbn [bind].
  unfold Multiplier.L_Mul. rewrite Ua, Ub. cbn [bind].
  rewrite Sa, Sb. cbn [bind]. rewrite Ea, Eb. cbn [bind].
  unfold Multiplier.finish. cbn [Multiplier.bin_output Multiplier.mant_bits].
  split; [reflexivity |].
  unfold lmul_formula.
  eapply value_is_eq; [| apply Qmult_assoc].
  apply value_is_signed. fold (lm_of m). now rewrite Fa, Fb.
Qed.

Lemma C8_lmul_formula_witness :
  In "e4m3" format_names /\ 0 <= 3 <= 255 /\ 0 <= 201 <= 255 /\
  exists e m bias v,
    FP8_Codec._get_format_params "e4m3" = Ok (e, m, bias) /\
    multiply_lmul "e4m3" false (bits 3) (bits 201) = Ok (VFloat v) /\
    value_is v (lmul_formula e m bias 3 201).
Proof.
  assert (Hf : In "e4m3" format_names) by (simpl; tauto).
  assert (Ha : 0 <= 3 <= 255) by lia.
  assert (Hb : 0 <= 201 <= 255) by lia.
  exact (conj Hf (conj Ha (conj Hb (C8_lmul_formula "e4m3" 3 201 Hf Ha Hb)))).
Defined.

(** ** FASA *)

(** [_em_cul] compares its exponent string with a string of [exp_bits]
    zeros; on a string of another length the comparison fails and the
    normalized branch is taken, whatever the digits. *)
Lemma em_cul_other_width (self : Multiplier.t) (exp man : string) :
  String.length exp
    <> String.length (Py.format_0b (Multiplier.exp_bits self) 0) ->
  Multiplier._em_cul self exp man =
  (v <- Py.int_of 2 exp ;;
   m <- Multiplier.em_loop (Z.to_nat (Multiplier.mant_bits self)) 0 man 0%Q ;;
   Ok (v - Multiplier.bias self, m)).
Proof.
  intros Hlen. unfold Multiplier._em_cul.
  destruct (String.eqb_spec exp (Py.format_0b (Multiplier.exp_bits self) 0))
    as [E | _].
  - exfalso. apply Hlen. now rewrite E.
  - destruct (Py.int_of 2 exp); reflexivity.
Qed.

(** C9. An all-zero exponent field of the sum is not unpacked as a
    denormal.  In e3m4, [multiply_fasa] of 00000000 and 00000000 adds
    0000000 and 0000000, splits the sum 00000000 into the fields 0000 and
    0000, and returns [(1 + 0) * 2^(0 - 3 - 3) = 1/64], encoded as
    00000001; unpacking the pair as a denormal gives
    [(1 - 1 + 0) * 2^(1 - 3 - 3) = 0].  The same on 00000001 and
    00000010: [(1 + 3/16) * 2^(-6)] instead of [(3/16) * 2^(-5)]. *)
Theorem C9_fasa_zero_exponent_field_not_denormal :
  (exists v, multiply_fasa "e3m4" false "00000000" "00000000" = Ok (VFloat v) /\
             value_is v (1 # 64)) /\
  multiply_fasa "e3m4" true "00000000" "00000000" = Ok (VStr "00000001") /\
  (fasa_formula 3 4 3 0 0 == 0)%Q /\
  (exists v, multiply_fasa "e3m4" false "00000001" "00000010" = Ok (VFloat v) /\
             value_is v (19 # 1024)) /\
  (fasa_formula 3 4 3 1 2 == 3 # 512)%Q /\
  (exists self f4 f3, Multiplier.__init__ "e3m4" false = Ok self /\
     Multiplier._em_cul self "0000" "0000" = Ok (0 - 3, f4) /\
     (f4 == 0)%Q /\
     Multiplier._em_cul self "000" "0000" = Ok (1 - 3, f3) /\
     (f3 == - (1))%Q).
Proof.
  split; [eexists; split; vm_compute; reflexivity |].
  split; [vm_compute; reflexivity |].
  split; [vm_compute; reflexivity |].
  split; [eexists; split; vm_compute; reflexivity |].
  split; [vm_compute; reflexivity |].
  do 3 eexists. split; [vm_compute; reflexivity |].
  split; [vm_compute; reflexivity |].
  split; [vm_compute; reflexivity |].
  split; vm_compute; reflexivity.
Qed.

(** ** Exact multiplication, re-encoded *)

(** *** Powers of two, [floor(log2 x)] and [round] *)

Lemma pow2_pos (k : Z) : (0 < Qpower 2 k)%Q.
Proof. apply Qpower_0_lt. reflexivity. Qed.

Lemma pow2_add (a b : Z) : (Qpower 2 (a + b) == Qpower 2 a * Qpower 2 b)%Q.
Proof. apply Qpower_plus. discriminate. Qed.

Lemma pow2_le (a b : Z) : a <= b -> (Qpower 2 a <= Qpower 2 b)%Q.
Proof. intros H. apply Qpower_le_compat_l; [exact H | discriminate]. Qed.

Lemma pow2_lt (a b : Z) : a < b -> (Qpower 2 a < Qpower 2 b)%Q.
Proof. intros H. apply Qpower_lt_compat_l; [exact H | reflexivity]. Qed.

Lemma pow2_succ (a : Z) : (Qpower 2 (a + 1) == 2 * Qpower 2 a)%Q.
Proof. rewrite pow2_add. change (Qpower 2 1) with 2%Q. ring. Qed.

Lemma pow2_inject (k : Z) : 0 <= k -> (inject_Z (2 ^ k) == Qpower 2 k)%Q.
Proof. intros H. now rewrite Zpower_Qpower. Qed.

Lemma Qmult_cancel_le (x p d : Q) : (0 < d -> p * d <= x * d -> p <= x)%Q.
Proof. intros Hd H. now apply Qmult_le_r in H. Qed.

Lemma Qmult_cancel_lt (x p d : Q) : (0 < d -> x * d < p * d -> x < p)%Q.
Proof. intros Hd H. now apply Qmult_lt_r in H. Qed.

Lemma floor_log2_spec (x : Q) :
  (0 < x)%Q ->
  (Qpower 2 (Py.floor_log2 x) <= x)%Q /\ (x < Qpower 2 (Py.floor_log2 x + 1))%Q.
Proof.
  intros Hx. destruct x as [n d].
  assert (Hn : 0 < n).
  { unfold Qlt in Hx. simpl in Hx. lia. }
  unfold Py.floor_log2. cbn [Qnum Qden].
  set (a := Z.log2 n). set (b := Z.log2 (Zpos d)).
  assert (Ha0 : 0 <= a) by apply Z.log2_nonneg.
  assert (Hb0 : 0 <= b) by apply Z.log2_nonneg.
  destruct (Z.log2_spec n Hn) as [La Ua]. fold a in La, Ua.
  destruct (Z.log2_spec (Zpos d) (Pos2Z.is_pos d)) as [Lb Ub]. fold b in Lb, Ub.
  set (D := inject_Z (Zpos d)).
  assert (HD : (0 < D)%Q) by (unfold D, Qlt; simpl; lia).
  assert (HxD : ((n # d) * D == inject_Z n)%Q).
  { unfold D. rewrite (Qmake_Qdiv n d). field. intros E.
    unfold Qeq in E. simpl in E. lia. }
  assert (QLa : (Qpower 2 a <= inject_Z n)%Q).
  { rewrite <- pow2_inject by exact Ha0. rewrite <- Zle_Qle. exact La. }
  assert (QUa : (inject_Z n < Qpower 2 (a + 1))%Q).
  { rewrite <- pow2_inject by lia. rewrite <- Zlt_Qlt.
    replace (a + 1) with (Z.succ a) by lia. exact Ua. }
  assert (QLb : (Qpower 2 b <= D)%Q).
  { unfold D. rewrite <- pow2_inject by exact Hb0. rewrite <- Zle_Qle. exact Lb. }
  assert (QUb : (D < Qpower 2 (b + 1))%Q).
  { unfold D. rewrite <- pow2_inject by lia. rewrite <- Zlt_Qlt.
    replace (b + 1) with (Z.succ b) by lia. exact Ub. }
  destruct (Qle_bool (Qpower 2 (a - b)) (n # d)) eqn:T.
  - apply Qle_bool_iff in T. split; [exact T |].
    apply (Qmult_cancel_lt _ _ D HD). rewrite HxD.
    apply Qlt_le_trans with (1 := QUa).
    replace (a + 1) with ((a - b + 1) + b) by lia. rewrite pow2_add.
    apply Qmult_le_l; [apply pow2_pos | exact QLb].
  - assert (T' : ((n # d) < Qpower 2 (a - b))%Q).
    { apply Qnot_le_lt. intros H. apply Qle_bool_iff in H. congruence. }
    split.
    + apply (Qmult_cancel_le _ _ D HD). rewrite HxD.
      apply Qle_trans with (2 := QLa).
      replace a with ((a - b - 1) + (b + 1)) at 2 by lia. rewrite pow2_add.
      apply Qmult_le_l; [apply pow2_pos | apply Qlt_le_weak, QUb].
    + now replace (a - b - 1 + 1) with (a - b) by lia.
Qed.

Lemma floor_log2_unique (x : Q) (k : Z) :
  (Qpower 2 k <= x)%Q -> (x < Qpower 2 (k + 1))%Q -> Py.floor_log2 x = k.
Proof.
  intros L U.
  assert (Hx : (0 < x)%Q) by (apply Qlt_le_trans with (2 := L), pow2_pos).
  destruct (floor_log2_spec x Hx) as [L' U'].
  set (j := Py.floor_log2 x) in *.
  assert (H1 : j < k + 1).
  { apply Qpower_lt_compat_l_inv with (q := 2%Q); [| reflexivity].
    apply Qle_lt_trans with (1 := L'), U. }
  assert (H2 : k < j + 1).
  { apply Qpower_lt_compat_l_inv with (q := 2%Q); [| reflexivity].
    apply Qle_lt_trans with (1 := L), U'. }
  lia.
Qed.

Lemma floor_log2_comp (x y : Q) :
  (0 < x)%Q -> (x == y)%Q -> Py.floor_log2 x = Py.floor_log2 y.
Proof.
  intros Hx E. symmetry. destruct (floor_log2_spec x Hx) as [L U].
  apply floor_log2_unique; now rewrite <- E.
Qed.

Lemma round_cases (y : Q) :
  let f := Qfloor y in
  let r := (y - inject_Z f)%Q in
  (0 <= r)%Q /\ (r < 1)%Q /\
  ((r < 1 # 2)%Q /\ Py.round y = f \/
   (1 # 2 < r)%Q /\ Py.round y = f + 1 \/
   (r == 1 # 2)%Q /\ Py.round y = (if Z.even f then f else f + 1)).
Proof.
  intros f r.
  pose proof (Qfloor_le y) as L. pose proof (Qlt_floor y) as U.
  fold f in L, U. rewrite inject_Z_plus in U.
  change (inject_Z 1) with 1%Q in U.
  split; [unfold r; lra |]. split; [unfold r; lra |].
  unfold Py.round. fold f. fold r.
  destruct (Qcompare r (1 # 2)) eqn:C.
  - right. right. apply Qeq_alt in C. now split.
  - left. apply Qlt_alt in C. now split.
  - right. left. apply Qgt_alt in C. now split.
Qed.

Lemma round_err (y : Q) : (Qabs (inject_Z (Py.round y) - y) <= 1 # 2)%Q.
Proof.
  destruct (round_cases y) as (R0 & R1 & C).
  set (f := Qfloor y) in *. set (r := (y - inject_Z f)%Q) in *.
  apply Qabs_Qle_condition.
  destruct C as [[H ->] | [[H ->] | [H ->]]].
  - unfold r in *. lra.
  - rewrite inject_Z_plus. change (inject_Z 1) with 1%Q. unfold r in *. lra.
  - destruct (Z.even f).
    + unfold r in *. lra.
    + rewrite inject_Z_plus. change (inject_Z 1) with 1%Q. unfold r in *. lra.
Qed.

Lemma inject_Z_lt_succ (a b : Z) : (inject_Z a < inject_Z b + 1)%Q -> a <= b.
Proof.
  intros H. change 1%Q with (inject_Z 1) in H.
  rewrite <- inject_Z_plus, <- Zlt_Qlt in H. lia.
Qed.

Lemma round_le (y : Q) (N : Z) :
  (y < inject_Z N + (1 # 2))%Q -> Py.round y <= N.
Proof.
  intros H. pose proof (round_err y) as E.
  apply Qabs_Qle_condition in E. apply inject_Z_lt_succ. lra.
Qed.

Lemma round_ge (y : Q) (N : Z) :
  (inject_Z N - (1 # 2) < y)%Q -> N <= Py.round y.
Proof.
  intros H. pose proof (round_err y) as E.
  apply Qabs_Qle_condition in E. apply inject_Z_lt_succ. lra.
Qed.

Lemma round_eq_bounds (y : Q) :
  (inject_Z (Py.round y) - (1 # 2) <= y)%Q /\
  (y <= inject_Z (Py.round y) + (1 # 2))%Q.
Proof.
  pose proof (round_err y) as E. apply Qabs_Qle_condition in E. split; lra.
Qed.

Lemma inject_Z_pred (n : Z) : (inject_Z (n - 1) == inject_Z n - 1)%Q.
Proof.
  unfold Z.sub. rewrite inject_Z_plus. reflexivity.
Qed.

(** A tie just below an even integer rounds up to it. *)
Lemma round_tie_up (y : Q) (N : Z) :
  Z.odd (N - 1) = true -> (inject_Z N - (1 # 2) <= y)%Q -> N <= Py.round y.
Proof.
  intros Hodd H.
  destruct (round_cases y) as (R0 & R1 & C).
  set (f := Qfloor y) in *. set (r := (y - inject_Z f)%Q) in *.
  assert (Hf : N - 1 <= f).
  { apply inject_Z_lt_succ. rewrite inject_Z_pred. unfold r in *. lra. }
  destruct (Z.eq_dec f (N - 1)) as [E | NE].
  - assert (Hr : (1 # 2 <= r)%Q).
    { unfold r. rewrite E, inject_Z_pred. lra. }
    destruct C as [[C _] | [[_ ->] | [_ ->]]]; [lra | lia |].
    rewrite E, <- Z.negb_odd, Hodd. simpl. lia.
  - destruct C as [[_ ->] | [[_ ->] | [_ ->]]]; [lia | lia |].
    destruct (Z.even f); lia.
Qed.

Lemma scaled_error (n y U d : Q) :
  (Qabs (n - y) <= 1 # 2)%Q -> (0 <= U)%Q -> (d == (n - y) * U)%Q ->
  (Qabs d <= U)%Q.
Proof.
  intros H HU ->. rewrite Qabs_Qmult, (Qabs_pos U HU).
  apply Qle_trans with ((1 # 2) * U)%Q.
  - apply Qmult_le_compat_r; assumption.
  - lra.
Qed.

Lemma odd_pow2_pred (m : Z) : 1 <= m -> Z.odd (2 ^ m - 1) = true.
Proof.
  intros H. change (2 ^ m - 1) with (Z.pred (2 ^ m)).
  rewrite Z.odd_pred, Z.even_pow by lia. reflexivity.
Qed.

Lemma sign_factor_abs (q : Q) :
  (q == sign_factor (negb (Qle_bool 0 q)) * Qabs q)%Q.
Proof.
  destruct (Qle_bool 0 q) eqn:E; simpl.
  - apply Qle_bool_iff in E. rewrite Qabs_pos by exact E. ring.
  - assert (H : (q <= 0)%Q).
    { apply Qlt_le_weak, Qnot_le_lt. intros H. apply Qle_bool_iff in H. congruence. }
    rewrite Qabs_neg by exact H. ring.
Qed.

Lemma value_is_error (v : pyfloat) (neg : bool) (R x U : Q) :
  value_is v (sign_factor neg * R) -> (Qabs (R - x) <= U)%Q ->
  exists r, real_of v = Some r /\ (Qabs (r - sign_factor neg * x) <= U)%Q.
Proof.
  unfold value_is. destruct (real_of v) as [r |]; [| tauto].
  intros Hr He. exists r. split; [reflexivity |].
  rewrite Hr. apply Qabs_Qle_condition in He. apply Qabs_Qle_condition.
  destruct neg; unfold sign_factor; [change (inject_Z (-1)) with (-1 # 1)%Q |]; lra.
Qed.

(** *** Accuracy of [encode] on a finite non-zero value *)

Section EncodeAccuracy.

Variable fmt : string.
Variables e m bias : Z.

Let max_exp := Z.shiftl 1 e - 1.
Let B := inject_Z (Z.shiftl 1 m).

Hypothesis Hm : 1 <= m.
Hypothesis Hmax : 2 <= max_exp.

Hypothesis pack_value :
  forall neg E M, 0 <= E < max_exp -> 0 <= M < 2 ^ m ->
  exists v,
    value_of_bits fmt (sign_bit_of neg ++ Py.format_0b e E ++ Py.format_0b m M)
      = Ok v /\
    value_is v (sign_factor neg * field_value m bias E M).

Hypothesis inf_value :
  forall neg,
    value_of_bits fmt (sign_bit_of neg ++ Py.str_mul "1" e ++ Py.str_mul "0" m)
      = Ok (PInf neg).

Hypothesis zero_value :
  forall neg, exists v,
    value_of_bits fmt (sign_bit_of neg ++ Py.str_mul "0" e ++ Py.str_mul "0" m)
      = Ok v /\
    value_is v 0.

Lemma B_pow : (B == Qpower 2 m)%Q.
Proof.
  unfold B. rewrite Z.shiftl_1_l. apply pow2_inject. lia.
Qed.

Lemma B_pos : (0 < B)%Q.
Proof. rewrite B_pow. apply pow2_pos. Qed.

Lemma shiftl_pow : Z.shiftl 1 m = 2 ^ m.
Proof. apply Z.shiftl_1_l. Qed.

(** [2^(-(m+1)) * B = 1/2] *)
Lemma eps_B : (Qpower 2 (- (m + 1)) * B == 1 # 2)%Q.
Proof.
  rewrite B_pow, <- pow2_add.
  replace (- (m + 1) + m) with (-1) by lia. reflexivity.
Qed.

Lemma threshold_bounds :
  let K := Z.shiftl 1 e - 2 - bias in
  (Qpower 2 K < overflow_threshold e m bias)%Q /\
  (overflow_threshold e m bias < Qpower 2 (K + 1))%Q.
Proof.
  intros K. unfold overflow_threshold. fold K.
  pose proof (pow2_pos K) as HK. pose proof (pow2_pos (- (m + 1))) as He.
  assert (He1 : (Qpower 2 (- (m + 1)) < 1)%Q).
  { change 1%Q with (Qpower 2 0). apply pow2_lt. lia. }
  rewrite pow2_succ. split.
  - setoid_replace (Qpower 2 K) with (1 * Qpower 2 K)%Q at 1 by ring.
    apply Qmult_lt_r; [exact HK | lra].
  - apply Qmult_lt_r; [exact HK | lra].
Qed.

Lemma B_inject : (inject_Z (2 ^ m) == B)%Q.
Proof. unfold B. now rewrite shiftl_pow. Qed.

Lemma scale_split (k : Z) : (Qpower 2 k == Qpower 2 (k - m) * B)%Q.
Proof.
  rewrite B_pow, <- pow2_add. now replace (k - m + m) with k by lia.
Qed.

(** The scaled fraction of the normal path and the value that is packed. *)
Lemma normal_facts (x : Q) (k : Z) :
  (Qpower 2 k <= x)%Q -> (x < Qpower 2 (k + 1))%Q ->
  let y := ((x / Qpower 2 k - 1) * B)%Q in
  (0 <= y)%Q /\ (y < B)%Q /\
  (forall N : Z,
     ((1 + inject_Z N / inject_Z (2 ^ m)) * Qpower 2 k - x
      == (inject_Z N - y) * Qpower 2 (k - m))%Q) /\
  ((inject_Z (2 ^ m) - (1 # 2) <= y)%Q <->
   ((2 - Qpower 2 (- (m + 1))) * Qpower 2 k <= x)%Q).
Proof.
  intros L U y.
  pose proof (pow2_pos k) as HA. pose proof B_pos as HB.
  rewrite pow2_succ in U.
  set (A := Qpower 2 k) in *.
  assert (HAn : ~ (A == 0)%Q) by lra.
  assert (HBn : ~ (B == 0)%Q) by lra.
  set (t := (x / A)%Q).
  assert (Ht : (x == t * A)%Q) by (unfold t; field; exact HAn).
  assert (Ht1 : (1 <= t)%Q).
  { apply (Qmult_cancel_le _ _ A HA). lra. }
  assert (Ht2 : (t < 2)%Q).
  { apply (Qmult_cancel_lt _ _ A HA). lra. }
  assert (Hy : (y == (t - 1) * B)%Q) by reflexivity.
  split; [| split; [| split]].
  - rewrite Hy. apply Qmult_le_0_compat; lra.
  - rewrite Hy. setoid_replace B with (1 * B)%Q at 2 by ring.
    apply Qmult_lt_r; [exact HB | lra].
  - intros N. rewrite B_inject, Hy, Ht.
    unfold A. rewrite (scale_split k). field. exact HBn.
  - rewrite B_inject, Hy, Ht. fold A.
    pose proof eps_B as E. set (eps := Qpower 2 (- (m + 1))) in *.
    split; intros H.
    + apply Qmult_le_compat_r; [| lra].
      apply (Qmult_cancel_le _ _ B HB).
      setoid_replace ((2 - eps) * B)%Q with (2 * B - eps * B)%Q by ring.
      rewrite E. lra.
    + apply (Qmult_cancel_le _ _ A HA) in H.
      setoid_replace (B - (1 # 2))%Q with ((1 - eps) * B)%Q
        by (setoid_replace ((1 - eps) * B)%Q with (B - eps * B)%Q by ring;
            rewrite E; reflexivity).
      apply Qmult_le_compat_r; lra.
Qed.

(** The scaled fraction of the denormal path and the value that is packed. *)
Lemma denormal_facts (x : Q) :
  (0 < x)%Q -> (x < Qpower 2 (1 - bias))%Q ->
  let y := (x / Qpower 2 (1 - bias) * B)%Q in
  (0 <= y)%Q /\ (y < B)%Q /\
  (forall N : Z,
     (inject_Z N / inject_Z (2 ^ m) * Qpower 2 (1 - bias) - x
      == (inject_Z N - y) * Qpower 2 (1 - bias - m))%Q).
Proof.
  intros L U y.
  pose proof (pow2_pos (1 - bias)) as HA. pose proof B_pos as HB.
  set (A := Qpower 2 (1 - bias)) in *.
  assert (HAn : ~ (A == 0)%Q) by lra.
  assert (HBn : ~ (B == 0)%Q) by lra.
  set (t := (x / A)%Q).
  assert (Ht : (x == t * A)%Q) by (unfold t; field; exact HAn).
  assert (Ht1 : (0 <= t)%Q).
  { apply (Qmult_cancel_le _ _ A HA). lra. }
  assert (Ht2 : (t < 1)%Q).
  { apply (Qmult_cancel_lt _ _ A HA). lra. }
  assert (Hy : (y == t * B)%Q) by reflexivity.
  split; [| split].
  - rewrite Hy. apply Qmult_le_0_compat; lra.
  - rewrite Hy. setoid_replace B with (1 * B)%Q at 2 by ring.
    apply Qmult_lt_r; [exact HB | lra].
  - intros N. rewrite B_inject, Hy, Ht.
    unfold A. rewrite (scale_split (1 - bias)). field. exact HBn.
Qed.

Lemma ulp_nonzero (q : Q) :
  ~ (q == 0)%Q ->
  ulp m bias q = Qpower 2 (Z.max (Py.floor_log2 (Qabs q)) (1 - bias) - m).
Proof.
  intros Hq. unfold ulp.
  destruct (Qeq_bool q 0) eqn:E; [| reflexivity].
  apply Qeq_bool_iff in E. contradiction.
Qed.

Lemma Qabs_pos_nonzero (q : Q) : ~ (q == 0)%Q -> (0 < Qabs q)%Q.
Proof.
  intros Hq. destruct (Qlt_le_dec 0 (Qabs q)) as [H | H]; [exact H |].
  exfalso. apply Hq.
  pose proof (Qabs_nonneg q) as H0.
  assert (E : (Qabs q == 0)%Q) by lra.
  apply Qabs_Qle_condition in H. lra.
Qed.

Lemma packed_result (q : Q) (neg : bool) (x R U : Q) (E M : Z) :
  (q == sign_factor neg * x)%Q ->
  0 <= E < max_exp -> 0 <= M < 2 ^ m ->
  (field_value m bias E M == R)%Q ->
  (Qabs (R - x) <= U)%Q ->
  exists v r,
    value_of_bits fmt (sign_bit_of neg ++ Py.format_0b e E ++ Py.format_0b m M)
      = Ok v /\
    real_of v = Some r /\ (Qabs (r - q) <= U)%Q.
Proof.
  intros Hq HE HM HR Herr.
  destruct (pack_value neg E M HE HM) as (v & Hv & Hval).
  assert (Hval' : value_is v (sign_factor neg * R)).
  { eapply value_is_eq; [exact Hval |]. now rewrite HR. }
  destruct (value_is_error v neg R x U Hval' Herr) as (r & Hr & Hb).
  exists v, r. repeat split; [exact Hv | exact Hr |]. now rewrite Hq.
Qed.

Lemma zero_result (q : Q) (neg : bool) (x U : Q) :
  (q == sign_factor neg * x)%Q ->
  (Qabs (0 - x) <= U)%Q ->
  exists v r,
    value_of_bits fmt (sign_bit_of neg ++ Py.str_mul "0" e ++ Py.str_mul "0" m)
      = Ok v /\
    real_of v = Some r /\ (Qabs (r - q) <= U)%Q.
Proof.
  intros Hq Herr.
  destruct (zero_value neg) as (v & Hv & Hval).
  assert (Hval' : value_is v (sign_factor neg * 0)).
  { eapply value_is_eq; [exact Hval |]. ring. }
  destruct (value_is_error v neg 0 x U Hval' Herr) as (r & Hr & Hb).
  exists v, r. repeat split; [exact Hv | exact Hr |]. now rewrite Hq.
Qed.

Theorem encode_finite_below (q : Q) :
  ~ (q == 0)%Q ->
  (Qabs q < overflow_threshold e m bias)%Q ->
  exists v r,
    value_of_bits fmt (FP8_Codec.encode_finite q e m bias) = Ok v /\
    real_of v = Some r /\ (Qabs (r - q) <= ulp m bias q)%Q.
Proof.
  intros Hq HT.
  pose proof (sign_factor_abs q) as Hsx.
  pose proof (Qabs_pos_nonzero q Hq) as Hx.
  rewrite (ulp_nonzero q Hq).
  unfold FP8_Codec.encode_finite. cbv zeta.
  change (is_neg (PFin q)) with (negb (Qle_bool 0 q)).
  change (if negb (Qle_bool 0 q) then "1" else "0")
    with (sign_bit_of (negb (Qle_bool 0 q))).
  unfold fabs_fin.
  set (neg := negb (Qle_bool 0 q)) in *. set (x := Qabs q) in *.
  clearbody neg x.
  replace (Qeq_bool x 0) with false
    by (symmetry; apply not_true_is_false; intros E; apply Qeq_bool_iff in E; lra).
  destruct (floor_log2_spec x Hx) as [L U].
  set (k := Py.floor_log2 x) in *. clearbody k.
  fold max_exp. rewrite shiftl_pow.
  destruct (threshold_bounds) as [_ TU].
  replace (Z.shiftl 1 e - 2 - bias + 1) with (max_exp - bias) in TU
    by (unfold max_exp; lia).
  rewrite Z.geb_leb. destruct (Z.leb_spec max_exp (k + bias)) as [Hov | Hov].
  { exfalso.
    assert (H : (Qpower 2 (max_exp - bias) <= Qpower 2 k)%Q) by (apply pow2_le; lia).
    lra. }
  destruct (Z.leb_spec (k + bias) 0) as [Hden | Hnorm].
  - (* denormal range *)
    assert (Hmaxk : Z.max k (1 - bias) = 1 - bias) by lia. rewrite Hmaxk.
    destruct (Z.ltb_spec (k + bias) (- (m - 1))) as [Hfl | Hfl].
    + (* below half the smallest denormal's binade *)
      apply (zero_result q neg x); [exact Hsx |].
      apply Qabs_Qle_condition.
      assert (H : (Qpower 2 (k + 1) <= Qpower 2 (1 - bias - m))%Q)
        by (apply pow2_le; lia).
      lra.
    + assert (Hx1 : (x < Qpower 2 (1 - bias))%Q).
      { apply Qlt_le_trans with (1 := U). apply pow2_le. lia. }
      destruct (denormal_facts x Hx Hx1) as (Y0 & Y1 & Yid).
      rewrite <- shiftl_pow. fold B.
      set (y := (x / Qpower 2 (1 - bias) * B)%Q) in *.
      pose proof (round_err y) as Rerr.
      assert (RU : Py.round y <= 2 ^ m).
      { apply round_le. rewrite B_inject. lra. }
      assert (RL : 0 <= Py.round y).
      { apply round_ge. change (inject_Z 0) with 0%Q. lra. }
      assert (Herr : (Qabs (inject_Z (Py.round y) / inject_Z (2 ^ m)
                            * Qpower 2 (1 - bias) - x)
                      <= Qpower 2 (1 - bias - m))%Q).
      { eapply scaled_error; [exact Rerr | apply Qlt_le_weak, pow2_pos | apply Yid]. }
      rewrite shiftl_pow.
      rewrite Z.geb_leb. destruct (Z.leb_spec (2 ^ m) (Py.round y)) as [Hc | Hc].
      * (* rounds up to the smallest normal *)
        assert (Er : Py.round y = 2 ^ m) by lia.
        apply (packed_result q neg x
                 (inject_Z (Py.round y) / inject_Z (2 ^ m) * Qpower 2 (1 - bias)));
          [exact Hsx | lia | lia | | exact Herr].
        unfold field_value. simpl (1 =? 0). cbv iota.
        rewrite Er. field.
        rewrite B_inject. pose proof B_pos. lra.
      * destruct (Z.eqb_spec (Py.round y) 0) as [Ez | Ez].
        -- apply (zero_result q neg x); [exact Hsx |].
           rewrite Ez in Herr.
           setoid_replace (0 - x)%Q
             with (inject_Z 0 / inject_Z (2 ^ m) * Qpower 2 (1 - bias) - x)%Q;
             [exact Herr |].
           field. rewrite B_inject. pose proof B_pos. lra.
        -- apply (packed_result q neg x
                 (inject_Z (Py.round y) / inject_Z (2 ^ m) * Qpower 2 (1 - bias)));
             [exact Hsx | lia | lia | | exact Herr].
           unfold field_value. simpl (0 =? 0). cbv iota. reflexivity.
  - (* normal range *)
    assert (Hmaxk : Z.max k (1 - bias) = k) by lia. rewrite Hmaxk.
    destruct (normal_facts x k L U) as (Y0 & Y1 & Yid & Ythr).
    rewrite <- shiftl_pow. fold B.
    set (y := ((x / Qpower 2 k - 1) * B)%Q) in *.
    pose proof (round_err y) as Rerr.
    assert (RU : Py.round y <= 2 ^ m).
    { apply round_le. rewrite B_inject. lra. }
    assert (RL : 0 <= Py.round y).
    { apply round_ge. change (inject_Z 0) with 0%Q. lra. }
    assert (Herr : (Qabs ((1 + inject_Z (Py.round y) / inject_Z (2 ^ m))
                          * Qpower 2 k - x)
                    <= Qpower 2 (k - m))%Q).
    { eapply scaled_error; [exact Rerr | apply Qlt_le_weak, pow2_pos | apply Yid]. }
    rewrite shiftl_pow.
    destruct (Z.eqb_spec (Py.round y) (2 ^ m)) as [Ec | Ec].
    + (* mantissa carry *)
      rewrite Z.geb_leb.
      destruct (Z.leb_spec max_exp (k + bias + 1)) as [Hov2 | Hov2].
      * exfalso.
        assert (Ek : k = Z.shiftl 1 e - 2 - bias) by (unfold max_exp in *; lia).
        assert (Hy : (inject_Z (2 ^ m) - (1 # 2) <= y)%Q).
        { destruct (round_eq_bounds y) as [Hb _]. rewrite Ec in Hb. exact Hb. }
        apply Ythr in Hy. unfold overflow_threshold in HT. rewrite <- Ek in HT. lra.
      * apply (packed_result q neg x
                 ((1 + inject_Z (Py.round y) / inject_Z (2 ^ m)) * Qpower 2 k));
          [exact Hsx | lia | lia | | exact Herr].
        unfold field_value.
        destruct (Z.eqb_spec (k + bias + 1) 0) as [E0 | _]; [lia |].
        replace (k + bias + 1 - bias) with (k + 1) by lia.
        rewrite pow2_succ, Ec. field.
        rewrite B_inject. pose proof B_pos. lra.
    + apply (packed_result q neg x
               ((1 + inject_Z (Py.round y) / inject_Z (2 ^ m)) * Qpower 2 k));
        [exact Hsx | lia | lia | | exact Herr].
      unfold field_value.
      destruct (Z.eqb_spec (k + bias) 0) as [E0 | _]; [lia |].
      replace (k + bias - bias) with k by lia. reflexivity.
Qed.

Theorem encode_finite_overflow (q : Q) :
  (overflow_threshold e m bias <= Qabs q)%Q ->
  value_of_bits fmt (FP8_Codec.encode_finite q e m bias)
    = Ok (PInf (negb (Qle_bool 0 q))).
Proof.
  intros HT.
  destruct (threshold_bounds) as [TL _].
  assert (Hx : (0 < Qabs q)%Q).
  { pose proof (pow2_pos (Z.shiftl 1 e - 2 - bias)). lra. }
  unfold FP8_Codec.encode_finite. cbv zeta.
  change (is_neg (PFin q)) with (negb (Qle_bool 0 q)).
  change (if negb (Qle_bool 0 q) then "1" else "0")
    with (sign_bit_of (negb (Qle_bool 0 q))).
  unfold fabs_fin.
  set (neg := negb (Qle_bool 0 q)) in *. set (x := Qabs q) in *.
  clearbody neg x.
  replace (Qeq_bool x 0) with false
    by (symmetry; apply not_true_is_false; intros E; apply Qeq_bool_iff in E; lra).
  destruct (floor_log2_spec x Hx) as [L U].
  set (k := Py.floor_log2 x) in *. clearbody k.
  fold max_exp. rewrite shiftl_pow.
  rewrite Z.geb_leb. destruct (Z.leb_spec max_exp (k + bias)) as [Hov | Hov];
    [apply inf_value |].
  assert (Hk : Z.shiftl 1 e - 2 - bias < k + 1).
  { apply Qpower_lt_compat_l_inv with (q := 2%Q); [lra | reflexivity]. }
  assert (Ek : k = Z.shiftl 1 e - 2 - bias) by (unfold max_exp in *; lia).
  destruct (Z.leb_spec (k + bias) 0) as [Hden | Hnorm];
    [unfold max_exp in *; lia |].
  destruct (normal_facts x k L U) as (Y0 & Y1 & _ & Ythr).
  rewrite <- shiftl_pow. fold B.
  set (y := ((x / Qpower 2 k - 1) * B)%Q) in *.
  assert (Hy : (inject_Z (2 ^ m) - (1 # 2) <= y)%Q).
  { apply Ythr. unfold overflow_threshold in HT. now rewrite Ek. }
  assert (RU : Py.round y <= 2 ^ m).
  { apply round_le. rewrite B_inject. lra. }
  assert (RL : 2 ^ m <= Py.round y).
  { apply round_tie_up; [apply odd_pow2_pred, Hm | exact Hy]. }
  rewrite shiftl_pow.
  destruct (Z.eqb_spec (Py.round y) (2 ^ m)) as [_ | Ne]; [| lia].
  rewrite Z.geb_leb.
  destruct (Z.leb_spec max_exp (k + bias + 1)) as [_ | H];
    [apply inf_value | unfold max_exp in *; lia].
Qed.

End EncodeAccuracy.

(** *** The strings of the codec, by enumeration *)

Lemma field_range_complete (n : Z) : 0 <= n < 32 -> In n field_range.
Proof.
  intros H. unfold field_range.
  rewrite <- (Z2Nat.id n) by lia.
  apply in_map, in_seq. lia.
Qed.

Lemma real_is_value (x : res pyfloat) (q : Q) :
  real_is x q = true -> exists v, x = Ok v /\ value_is v q.
Proof.
  unfold real_is, value_is. destruct x as [v |]; [| discriminate].
  intros H. exists v. split; [reflexivity |].
  destruct (real_of v); [now apply Qeq_bool_iff | discriminate].
Qed.

Lemma pack_check_all :
  forallb (fun fmt =>
    forallb (fun neg =>
      forallb (fun E => forallb (pack_check fmt neg E) field_range) field_range)
      [false; true]) format_names = true.
Proof. vm_cast_no_check (eq_refl true). Qed.

Lemma special_check_all :
  forallb (fun fmt => forallb (special_check fmt) [false; true]) format_names
  = true.
Proof. vm_cast_no_check (eq_refl true). Qed.

Lemma In_bool (neg : bool) : In neg [false; true].
Proof. destruct neg; simpl; tauto. Qed.

(** What the codec's strings decode to, in each format. *)
Lemma codec_values (fmt : string) (e m bias : Z) :
  In fmt format_names ->
  FP8_Codec._get_format_params fmt = Ok (e, m, bias) ->
  1 <= m /\ 2 <= Z.shiftl 1 e - 1 /\
  (forall neg E M, 0 <= E < Z.shiftl 1 e - 1 -> 0 <= M < 2 ^ m ->
     exists v,
       value_of_bits fmt (sign_bit_of neg ++ Py.format_0b e E ++ Py.format_0b m M)
         = Ok v /\
       value_is v (sign_factor neg * field_value m bias E M)) /\
  (forall neg,
     value_of_bits fmt (sign_bit_of neg ++ Py.str_mul "1" e ++ Py.str_mul "0" m)
       = Ok (PInf neg)) /\
  (forall neg, exists v,
     value_of_bits fmt (sign_bit_of neg ++ Py.str_mul "0" e ++ Py.str_mul "0" m)
       = Ok v /\ value_is v 0) /\
  (exists v, value_of_bits fmt (Py.str_mul "0" (1 + e + m)) = Ok v /\
             value_is v 0).
Proof.
  intros Hf Hpar.
  assert (Hsmall : 1 <= m /\ 2 <= Z.shiftl 1 e - 1 /\
                   Z.shiftl 1 e - 1 <= 32 /\ 2 ^ m <= 32).
  { destruct (format_params fmt Hf) as (e' & m' & bias' & Hpar' & Hin).
    rewrite Hpar in Hpar'. injection Hpar' as <- <- <-.
    destruct Hin as [[= <- <- <-] | [[= <- <- <-] | [[= <- <- <-] | [[= <- <- <-] | []]]]];
      vm_compute; intuition discriminate. }
  destruct Hsmall as (Hm & Hmax & Hemax & Hmmax).
  pose proof special_check_all as S.
  rewrite forallb_forall in S. specialize (S fmt Hf).
  rewrite forallb_forall in S.
  assert (S' : forall neg, special_check fmt neg = true)
    by (intros neg; apply S, In_bool).
  unfold special_check in S'. rewrite Hpar in S'.
  split; [exact Hm |]. split; [exact Hmax |]. split; [| split; [| split]].
  - intros neg E M HE HM.
    pose proof pack_check_all as C.
    rewrite forallb_forall in C. specialize (C fmt Hf).
    rewrite forallb_forall in C. specialize (C neg (In_bool neg)).
    rewrite forallb_forall in C.
    specialize (C E (field_range_complete E ltac:(lia))).
    rewrite forallb_forall in C.
    specialize (C M (field_range_complete M ltac:(lia))).
    unfold pack_check in C. rewrite Hpar in C.
    replace ((E <? Z.shiftl 1 e - 1) && (M <? 2 ^ m)) with true in C
      by (symmetry; apply andb_true_iff; split; apply Z.ltb_lt; lia).
    now apply real_is_value.
  - intros neg. specialize (S' neg).
    rewrite !andb_true_iff in S'. destruct S' as [[S1 _] _].
    destruct (value_of_bits fmt _) as [[| n | |] |]; try discriminate.
    apply Bool.eqb_prop in S1. now subst.
  - intros neg. specialize (S' neg).
    rewrite !andb_true_iff in S'. destruct S' as [[_ S2] _].
    now apply real_is_value.
  - specialize (S' false).
    rewrite !andb_true_iff in S'. destruct S' as [_ S3].
    now apply real_is_value.
Qed.

Lemma ulp_comp (m bias : Z) (q P : Q) :
  (q == P)%Q -> ulp m bias q = ulp m bias P.
Proof.
  intros E. unfold ulp.
  assert (Eb : Qeq_bool q 0 = Qeq_bool P 0) by now rewrite E.
  rewrite <- Eb. destruct (Qeq_bool q 0) eqn:Z0; [reflexivity |].
  assert (Hq : ~ (q == 0)%Q).
  { intros H. apply Qeq_bool_iff in H. congruence. }
  rewrite (floor_log2_comp (Qabs q) (Qabs P)); [reflexivity | |].
  - now apply Qabs_pos_nonzero.
  - now rewrite E.
Qed.

Lemma ulp_pos (m bias : Z) (x : Q) : (0 < ulp m bias x)%Q.
Proof. unfold ulp. apply pow2_pos. Qed.

(** [encode] of a finite float, decoded again: within one unit in the
    last place below the overflow threshold, the signed infinity from the
    threshold on. *)
Lemma encode_decode_real (fmt : string) (e m bias : Z) (x : pyfloat) (P : Q) :
  In fmt format_names ->
  FP8_Codec._get_format_params fmt = Ok (e, m, bias) ->
  value_is x P ->
  exists s v,
    FP8_Codec.encode x fmt = Ok s /\ value_of_bits fmt s = Ok v /\
    (((Qabs P < overflow_threshold e m bias)%Q /\ within_one_ulp m bias v P)
     \/
     ((overflow_threshold e m bias <= Qabs P)%Q /\
      v = PInf (negb (Qle_bool 0 P)))).
Proof.
  intros Hf Hpar Hx.
  destruct (codec_values fmt e m bias Hf Hpar)
    as (Hm & Hmax & Hpack & Hinf & Hzero & Hzall).
  pose proof (threshold_bounds e m bias Hm) as TL. cbv zeta in TL.
  destruct TL as [TL _].
  pose proof (pow2_pos (Z.shiftl 1 e - 2 - bias)) as TK.
  assert (Zero : (P == 0)%Q ->
            exists v, value_of_bits fmt (Py.str_mul "0" (1 + e + m)) = Ok v /\
              (((Qabs P < overflow_threshold e m bias)%Q /\ within_one_ulp m bias v P)
               \/
               ((overflow_threshold e m bias <= Qabs P)%Q /\
                v = PInf (negb (Qle_bool 0 P))))).
  { intros HP. destruct Hzall as (v & Hv & Hval). exists v. split; [exact Hv |].
    left. split.
    - rewrite HP. change (Qabs 0) with 0%Q. lra.
    - unfold within_one_ulp, value_is in *.
      destruct (real_of v) as [r |]; [| tauto].
      exists r. split; [reflexivity |].
      assert (E0 : (r - P == 0)%Q) by (rewrite Hval, HP; ring).
      rewrite E0. change (Qabs 0) with 0%Q.
      apply Qlt_le_weak, ulp_pos. }
  unfold FP8_Codec.encode. rewrite Hpar. cbn [bind].
  destruct x as [| n | | q]; try (now destruct Hx).
  - (* negative zero *)
    unfold value_is in Hx. simpl in Hx.
    destruct (Zero (Qeq_sym _ _ Hx)) as (v & Hv & H).
    now exists (Py.str_mul "0" (1 + e + m)), v.
  - unfold value_is in Hx. simpl in Hx.
    destruct (Qeq_bool q 0) eqn:Z0.
    + apply Qeq_bool_iff in Z0.
      destruct (Zero ltac:(now rewrite <- Hx)) as (v & Hv & H).
      now exists (Py.str_mul "0" (1 + e + m)), v.
    + assert (Hq : ~ (q == 0)%Q).
      { intros H. apply Qeq_bool_iff in H. congruence. }
      exists (FP8_Codec.encode_finite q e m bias).
      destruct (Qlt_le_dec (Qabs q) (overflow_threshold e m bias)) as [HT | HT].
      * destruct (encode_finite_below fmt e m bias Hm Hmax Hpack Hzero q Hq HT)
          as (v & r & Hv & Hr & Hb).
        exists v. split; [reflexivity |]. split; [exact Hv |].
        left. split; [now rewrite <- Hx |].
        exists r. split; [exact Hr |].
        rewrite <- (ulp_comp m bias q P Hx). now rewrite <- Hx.
      * exists (PInf (negb (Qle_bool 0 q))).
        split; [reflexivity |].
        split; [now apply (encode_finite_overflow fmt e m bias Hm Hmax Hinf) |].
        right. split; [now rewrite <- Hx |].
        now rewrite Hx.
Qed.

Lemma operand_value (fmt : string) (p e m bias : Z) (q : Q) :
  In fmt format_names -> 0 <= p <= 255 ->
  FP8_Codec._get_format_params fmt = Ok (e, m, bias) ->
  finite_value fmt p = Some q ->
  (q == Qpower (inject_Z (-1)) (sign_field e m p)
        * ((1 + unpacked_fraction e m p)
           * Qpower 2 (unpacked_exponent e m bias p)))%Q.
Proof.
  intros Hf Hp Hpar Hq.
  assert (C : operand_check fmt p = true).
  { apply forall_formats_patterns; [vm_cast_no_check (eq_refl true) | exact Hf | exact Hp]. }
  unfold operand_check in C. rewrite Hpar, Hq in C.
  now apply Qeq_bool_iff.
Qed.

Lemma sign_xor_factor (e m a b : Z) :
  (Qpower (inject_Z (-1)) (sign_xor e m a b)
   == Qpower (inject_Z (-1)) (sign_field e m a)
      * Qpower (inject_Z (-1)) (sign_field e m b))%Q.
Proof.
  unfold sign_xor.
  destruct (sign_field_bit e m a) as [-> | ->];
    destruct (sign_field_bit e m b) as [-> | ->]; reflexivity.
Qed.

(** [multiply] with binary output is [encode] of the signed product of the
    unpacked operands. *)
Lemma multiply_exact_encodes (fmt : string) (a b e m bias : Z) :
  In fmt format_names -> 0 <= a <= 255 -> 0 <= b <= 255 ->
  FP8_Codec._get_format_params fmt = Ok (e, m, bias) ->
  exists v,
    (v == (1 + unpacked_fraction e m a) * Qpower 2 (unpacked_exponent e m bias a)
          * ((1 + unpacked_fraction e m b) * Qpower 2 (unpacked_exponent e m bias b)))%Q /\
    multiply_exact fmt true (bits a) (bits b) =
    (s <- FP8_Codec.encode
            (if sign_xor e m a b =? 1 then fneg (PFin v) else PFin v) fmt ;;
     Ok (VStr s)).
Proof.
  intros Hf Ha Hb Hpar.
  destruct (unpack_fields fmt true a e m bias Hf Ha Hpar)
    as (s1 & ex1 & mn1 & x1 & Ua & Sa & Ea & Fa).
  destruct (unpack_fields fmt true b e m bias Hf Hb Hpar)
    as (s2 & ex2 & mn2 & y1 & Ub & Sb & Eb & Fb).
  eexists. split; [| 
    unfold multiply_exact, Multiplier.__init__, Adder.__init__;
    rewrite Hpar; cbn [bind];
    unfold Multiplier.multiply; rewrite Ua, Ub; cbn [bind];
    rewrite Sa, Sb; cbn [bind]; rewrite Ea, Eb; cbn [bind];
    unfold Multiplier.finish; cbn [Multiplier.bin_output Multiplier.fmt];
    reflexivity ].
  rewrite Fa, Fb, pow2_add. ring.
Qed.

(** C2 (as the code has it). In each format and for all patterns [a],
    [b] with finite decoded values, the binary-output result of
    [multiply_exact] decodes to a finite value within one unit in the last
    place of the real product [decode(a) * decode(b)] as long as the
    magnitude of the product is below the overflow threshold
    [(2 - 2^(-m-1)) * 2^(2^e - 2 - bias)]; from the threshold on, the
    result is the infinity with the sign of the product. *)
Theorem C2_multiply_exact_rounding (fmt : string) (a b : Z) (qa qb : Q) :
  In fmt format_names -> 0 <= a <= 255 -> 0 <= b <= 255 ->
  finite_value fmt a = Some qa -> finite_value fmt b = Some qb ->
  exists e m bias v,
    FP8_Codec._get_format_params fmt = Ok (e, m, bias) /\
    product_value fmt a b = Ok v /\
    (((Qabs (qa * qb) < overflow_threshold e m bias)%Q /\
      within_one_ulp m bias v (qa * qb))
     \/
     ((overflow_threshold e m bias <= Qabs (qa * qb))%Q /\
      v = PInf (negb (Qle_bool 0 (qa * qb))))).
Proof.
  intros Hf Ha Hb Hqa Hqb.
  destruct (format_params fmt Hf) as (e & m & bias & Hpar & _).
  pose proof (operand_value fmt a e m bias qa Hf Ha Hpar Hqa) as Va.
  pose proof (operand_value fmt b e m bias qb Hf Hb Hpar Hqb) as Vb.
  destruct (multiply_exact_encodes fmt a b e m bias Hf Ha Hb Hpar)
    as (v & Hv & Hmul).
  set (x := if sign_xor e m a b =? 1 then fneg (PFin v) else PFin v) in *.
  assert (Hx : value_is x (qa * qb)).
  { eapply value_is_eq; [apply (value_is_signed e m a b v v); reflexivity |].
    rewrite Va, Vb, Hv, sign_xor_factor. ring. }
  destruct (encode_decode_real fmt e m bias x (qa * qb) Hf Hpar Hx)
    as (s & r & Hs & Hr & Hres).
  exists e, m, bias, r. split; [exact Hpar |]. split; [| exact Hres].
  unfold product_value. rewrite Hmul, Hs. cbn [bind].
  unfold FP8MatrixMultiplier.product_bits. cbn [bind]. exact Hr.
Qed.

Lemma C2_multiply_exact_rounding_witness :
  In "e3m4" format_names /\ 0 <= 40 <= 255 /\ 0 <= 16 <= 255 /\
  finite_value "e3m4" 40 = Some (24 # 32) /\
  finite_value "e3m4" 16 = Some (16 # 64) /\
  exists e m bias v,
    FP8_Codec._get_format_params "e3m4" = Ok (e, m, bias) /\
    product_value "e3m4" 40 16 = Ok v /\
    (((Qabs ((24 # 32) * (16 # 64)) < overflow_threshold e m bias)%Q /\
      within_one_ulp m bias v ((24 # 32) * (16 # 64)))
     \/
     ((overflow_threshold e m bias <= Qabs ((24 # 32) * (16 # 64)))%Q /\
      v = PInf (negb (Qle_bool 0 ((24 # 32) * (16 # 64)))))).
Proof.
  assert (Hf : In "e3m4" format_names) by (simpl; tauto).
  assert (Ha : 0 <= 40 <= 255) by lia.
  assert (Hb : 0 <= 16 <= 255) by lia.
  assert (Hqa : finite_value "e3m4" 40 = Some (24 # 32)) by reflexivity.
  assert (Hqb : finite_value "e3m4" 16 = Some (16 # 64)) by reflexivity.
  repeat (split; [assumption |]).
  exact (C2_multiply_exact_rounding "e3m4" 40 16 _ _ Hf Ha Hb Hqa Hqb).
Defined.

(** C2, as stated, fails on overflow: in e3m4 the pattern 01101111 decodes
    to the finite value 15.5; [multiply_exact] of it with itself (real
    product 240.25) returns 01110000, which decodes to +infinity, not to a
    finite value within one unit in the last place of the product. *)
Lemma C2_overflow_counterexample :
  bits 111 = "01101111" /\
  (exists q, finite_value "e3m4" 111 = Some q /\ (q == 31 # 2)%Q) /\
  multiply_exact "e3m4" true (bits 111) (bits 111) = Ok (VStr "01110000") /\
  product_value "e3m4" 111 111 = Ok (PInf false) /\
  ~ (exists v, product_value "e3m4" 111 111 = Ok v /\
               within_one_ulp 4 3 v ((31 # 2) * (31 # 2))).
Proof.
  split; [vm_compute; reflexivity |].
  split; [eexists; split; vm_compute; reflexivity |].
  split; [vm_compute; reflexivity |].
  split; [vm_compute; reflexivity |].
  intros (v & Hv & r & Hr & _).
  vm_compute in Hv. injection Hv as <-. discriminate Hr.
Qed.

(** * Further properties of the code *)

(** ** Strings of patterns *)

Lemma pack_bits_check_all :
  forallb (fun fmt =>
    forallb (fun neg =>
      forallb (fun E => forallb (pack_bits_check fmt neg E) field_range)
              field_range)
      [false; true]) format_names = true.
Proof. vm_cast_no_check (eq_refl true). Qed.

Lemma special_bits_check_all :
  forallb (fun fmt => forallb (special_bits_check fmt) [false; true])
          format_names = true.
Proof. vm_cast_no_check (eq_refl true). Qed.

Lemma format_sizes (fmt : string) (e m bias : Z) :
  In fmt format_names ->
  FP8_Codec._get_format_params fmt = Ok (e, m, bias) ->
  1 <= m /\ 2 <= Z.shiftl 1 e - 1 /\ 2 ^ e <= 32 /\ 2 ^ m <= 32 /\
  Z.shiftl 1 e = 2 ^ e /\ Z.shiftl 1 m = 2 ^ m /\ e + m = 7 /\ 0 <= e /\
  0 <= bias.
Proof.
  intros Hf Hpar.
  destruct (format_params fmt Hf) as (e' & m' & bias' & Hpar' & Hin).
  rewrite Hpar in Hpar'. injection Hpar' as <- <- <-.
  destruct Hin as [[= <- <- <-] | [[= <- <- <-] | [[= <- <- <-] | [[= <- <- <-] | []]]]];
    vm_compute; intuition discriminate.
Qed.

(** The string packed from a sign and two fields is the string of the
    pattern with those fields. *)
Lemma pack_bits (fmt : string) (e m bias : Z) (neg : bool) (E M : Z) :
  In fmt format_names ->
  FP8_Codec._get_format_params fmt = Ok (e, m, bias) ->
  0 <= E < 2 ^ e -> 0 <= M < 2 ^ m ->
  sign_bit_of neg ++ Py.format_0b e E ++ Py.format_0b m M
    = bits (pattern_of m neg E M) /\
  0 <= pattern_of m neg E M <= 255 /\
  sign_field e m (pattern_of m neg E M) = (if neg then 1 else 0) /\
  exp_field e m (pattern_of m neg E M) = E /\
  mant_field m (pattern_of m neg E M) = M.
Proof.
  intros Hf Hpar HE HM.
  destruct (format_sizes fmt e m bias Hf Hpar) as (_ & _ & He32 & Hm32 & _).
  pose proof pack_bits_check_all as C.
  rewrite forallb_forall in C. specialize (C fmt Hf).
  rewrite forallb_forall in C. specialize (C neg (In_bool neg)).
  rewrite forallb_forall in C.
  specialize (C E (field_range_complete E ltac:(lia))).
  rewrite forallb_forall in C.
  specialize (C M (field_range_complete M ltac:(lia))).
  unfold pack_bits_check in C. rewrite Hpar in C.
  replace ((E <? 2 ^ e) && (M <? 2 ^ m)) with true in C
    by (symmetry; apply andb_true_iff; split; apply Z.ltb_lt; lia).
  cbv zeta in C. rewrite !andb_true_iff in C.
  destruct C as [[[[[C1 C2] C3] C4] C5] C6].
  apply String.eqb_eq in C1. apply Z.leb_le in C2, C3.
  apply Z.eqb_eq in C4, C5, C6. repeat split; assumption.
Qed.

Lemma special_bits (fmt : string) (e m bias : Z) (neg : bool) :
  In fmt format_names ->
  FP8_Codec._get_format_params fmt = Ok (e, m, bias) ->
  sign_bit_of neg ++ Py.str_mul "1" e ++ Py.str_mul "0" m
    = bits (pattern_of m neg (Z.shiftl 1 e - 1) 0) /\
  sign_bit_of neg ++ Py.str_mul "0" e ++ Py.str_mul "0" m
    = bits (pattern_of m neg 0 0) /\
  Py.str_mul "0" (1 + e + m) = bits 0 /\
  "0" ++ Py.str_mul "1" e ++ "1" ++ Py.str_mul "0" (m - 1)
    = bits (codec_nan_pattern e m).
Proof.
  intros Hf Hpar.
  pose proof special_bits_check_all as C.
  rewrite forallb_forall in C. specialize (C fmt Hf).
  rewrite forallb_forall in C. specialize (C neg (In_bool neg)).
  unfold special_bits_check in C. rewrite Hpar in C.
  rewrite !andb_true_iff in C. destruct C as [[[C1 C2] C3] C4].
  apply String.eqb_eq in C1, C2, C3, C4. auto.
Qed.

(** ** The shape of [encode]'s result *)

Section EncodeShape.

Variables e m bias : Z.
Hypothesis Hm : 1 <= m.
Hypothesis Hmax : 2 <= Z.shiftl 1 e - 1.

(** Every branch of the finite path returns the sign character followed
    by the infinity fields, by the zero fields, or by an exponent below
    all-ones and a mantissa that fits. *)
Lemma encode_finite_shape (q : Q) :
  let neg := negb (Qle_bool 0 q) in
  let s := FP8_Codec.encode_finite q e m bias in
  s = sign_bit_of neg ++ Py.str_mul "1" e ++ Py.str_mul "0" m \/
  s = sign_bit_of neg ++ Py.str_mul "0" e ++ Py.str_mul "0" m \/
  exists E M, 0 <= E < Z.shiftl 1 e - 1 /\ 0 <= M < 2 ^ m /\
              s = sign_bit_of neg ++ Py.format_0b e E ++ Py.format_0b m M.
Proof.
  intros neg s. subst s.
  unfold FP8_Codec.encode_finite. cbv zeta.
  change (is_neg (PFin q)) with neg.
  change (if neg then "1" else "0") with (sign_bit_of neg).
  unfold fabs_fin. clearbody neg.
  pose proof (Z.pow_pos_nonneg 2 m ltac:(lia) ltac:(lia)) as Hpow.
  destruct (Qeq_bool (Qabs q) 0) eqn:Z0.
  { right. right. exists 0, 0. repeat split; lia. }
  assert (Hx : (0 < Qabs q)%Q).
  { apply Qabs_pos_nonzero. intros H.
    assert (E0 : (Qabs q == 0)%Q) by (rewrite H; reflexivity).
    apply Qeq_bool_iff in E0. congruence. }
  set (x := Qabs q) in *. clearbody x.
  destruct (floor_log2_spec x Hx) as [L U].
  set (k := Py.floor_log2 x) in *. clearbody k.
  rewrite (shiftl_pow m).
  rewrite Z.geb_leb.
  destruct (Z.leb_spec (Z.shiftl 1 e - 1) (k + bias)) as [Hov | Hov];
    [now left |].
  destruct (Z.leb_spec (k + bias) 0) as [Hden | Hnorm].
  - destruct (Z.ltb_spec (k + bias) (- (m - 1))) as [Hfl | Hfl];
      [right; now left |].
    assert (Hx1 : (x < Qpower 2 (1 - bias))%Q).
    { apply Qlt_le_trans with (1 := U). apply pow2_le. lia. }
    destruct (denormal_facts e m bias Hm x Hx Hx1) as (Y0 & Y1 & _).
    rewrite (shiftl_pow m) in Y0, Y1.
    set (y := (x / Qpower 2 (1 - bias) * inject_Z (2 ^ m))%Q) in *.
    assert (RL : 0 <= Py.round y).
    { apply round_ge. change (inject_Z 0) with 0%Q. lra. }
    rewrite Z.geb_leb.
    destruct (Z.leb_spec (2 ^ m) (Py.round y)) as [Hc | Hc].
    + right. right. exists 1, 0. repeat split; lia.
    + destruct (Z.eqb_spec (Py.round y) 0) as [Ez | Ez];
        [right; now left |].
      right. right. exists 0, (Py.round y). repeat split; lia.
  - destruct (normal_facts e m Hm x k L U) as (Y0 & Y1 & _).
    rewrite (shiftl_pow m) in Y0, Y1.
    set (y := ((x / Qpower 2 k - 1) * inject_Z (2 ^ m))%Q) in *.
    assert (RU : Py.round y <= 2 ^ m).
    { apply round_le. lra. }
    assert (RL : 0 <= Py.round y).
    { apply round_ge. change (inject_Z 0) with 0%Q. lra. }
    destruct (Z.eqb_spec (Py.round y) (2 ^ m)) as [Ec | Ec].
    + rewrite Z.geb_leb.
      destruct (Z.leb_spec (Z.shiftl 1 e - 1) (k + bias + 1)) as [H | H];
        [now left |].
      right. right. exists (k + bias + 1), 0. repeat split; lia.
    + right. right. exists (k + bias), (Py.round y). repeat split; lia.
Qed.

End EncodeShape.

Lemma bits_length (p : Z) : 0 <= p <= 255 -> String.length (bits p) = 8%nat.
Proof.
  intros Hp.
  assert (C : forallb (fun p => Nat.eqb (String.length (bits p)) 8) patterns = true)
    by (vm_cast_no_check (eq_refl true)).
  rewrite forallb_forall in C.
  apply Nat.eqb_eq, C, patterns_complete, Hp.
Qed.

Lemma codec_nan_pattern_class (e m bias : Z) :
  In (e, m, bias) [(2, 5, 1); (3, 4, 3); (4, 3, 7); (5, 2, 15)] ->
  0 <= codec_nan_pattern e m <= 255 /\
  class_of_fields e (exp_field e m (codec_nan_pattern e m))
                    (mant_field m (codec_nan_pattern e m)) = "NaN".
Proof.
  intros [[= <- <- <-] | [[= <- <- <-] | [[= <- <- <-] | [[= <- <- <-] | []]]]];
    vm_compute; intuition discriminate.
Qed.

(** The pattern [encode] returns, with what is known of its fields. *)
Lemma encode_pattern (fmt : string) (e m bias : Z) (x : pyfloat) :
  In fmt format_names ->
  FP8_Codec._get_format_params fmt = Ok (e, m, bias) ->
  exists p,
    0 <= p <= 255 /\ FP8_Codec.encode x fmt = Ok (bits p) /\
    (x = PNaN -> p = codec_nan_pattern e m) /\
    (x <> PNaN ->
       exists neg E M,
         p = pattern_of m neg E M /\ 0 <= E < 2 ^ e /\ 0 <= M < 2 ^ m /\
         (E = Z.shiftl 1 e - 1 -> M = 0) /\
         (forall n, x = PInf n -> neg = n /\ E = Z.shiftl 1 e - 1)).
Proof.
  intros Hf Hpar.
  destruct (format_sizes fmt e m bias Hf Hpar)
    as (Hm & Hmax & He32 & Hm32 & She & Shm & Hem & He0 & Hb0).
  pose proof (Z.pow_pos_nonneg 2 m ltac:(lia) ltac:(lia)) as Hpm.
  assert (Hshape : forall neg E M, 0 <= E < 2 ^ e -> 0 <= M < 2 ^ m ->
            0 <= pattern_of m neg E M <= 255).
  { intros neg E M HE HM.
    now destruct (pack_bits fmt e m bias neg E M Hf Hpar HE HM) as (_ & R & _). }
  unfold FP8_Codec.encode. rewrite Hpar. cbn [bind].
  destruct x as [| n | | q].
  - exists (codec_nan_pattern e m).
    destruct (format_params fmt Hf) as (e' & m' & bias' & Hpar' & Hin).
    rewrite Hpar in Hpar'. injection Hpar' as <- <- <-.
    destruct (codec_nan_pattern_class e m bias Hin) as [R _].
    destruct (special_bits fmt e m bias false Hf Hpar) as (_ & _ & _ & S).
    repeat split; [lia | lia | now rewrite S | congruence].
  - exists (pattern_of m n (Z.shiftl 1 e - 1) 0).
    destruct (special_bits fmt e m bias n Hf Hpar) as (S & _).
    split; [apply Hshape; lia |]. split; [now rewrite <- S |].
    split; [discriminate |]. intros _.
    exists n, (Z.shiftl 1 e - 1), 0.
    split; [reflexivity |]. split; [lia |]. split; [lia |].
    split; [reflexivity |]. intros n0 [= ->]. now split.
  - exists 0.
    destruct (special_bits fmt e m bias false Hf Hpar) as (_ & _ & S & _).
    split; [lia |]. split; [now rewrite S |]. split; [discriminate |].
    intros _. exists false, 0, 0. fields_tail.
  - assert (Zero : exists p, 0 <= p <= 255 /\
               Ok (Py.str_mul "0" (1 + e + m)) = Ok (bits p) /\
               (PFin q = PNaN -> p = codec_nan_pattern e m) /\
               (PFin q <> PNaN ->
                exists neg E M,
                  p = pattern_of m neg E M /\ 0 <= E < 2 ^ e /\ 0 <= M < 2 ^ m /\
                  (E = Z.shiftl 1 e - 1 -> M = 0) /\
                  (forall n, PFin q = PInf n -> neg = n /\ E = Z.shiftl 1 e - 1))).
    { exists 0.
      destruct (special_bits fmt e m bias false Hf Hpar) as (_ & _ & S & _).
      split; [lia |]. split; [now rewrite S |]. split; [discriminate |].
      intros _. exists false, 0, 0. fields_tail. }
    destruct (Qeq_bool q 0); [exact Zero |]. clear Zero.
    set (neg := negb (Qle_bool 0 q)).
    destruct (special_bits fmt e m bias neg Hf Hpar) as (Sinf & Szero & _).
    destruct (encode_finite_shape e m bias Hm Hmax q) as [-> | [-> | (E & M & HE & HM & ->)]];
      fold neg.
    + exists (pattern_of m neg (Z.shiftl 1 e - 1) 0).
      split; [apply Hshape; lia |]. split; [now rewrite Sinf |].
      split; [discriminate |]. intros _.
      exists neg, (Z.shiftl 1 e - 1), 0. fields_tail.
    + exists (pattern_of m neg 0 0).
      split; [apply Hshape; lia |]. split; [now rewrite Szero |].
      split; [discriminate |]. intros _.
      exists neg, 0, 0. fields_tail.
    + exists (pattern_of m neg E M).
      destruct (pack_bits fmt e m bias neg E M Hf Hpar ltac:(lia) HM) as (S & R & _).
      split; [exact R |]. split; [now rewrite S |].
      split; [discriminate |]. intros _.
      exists neg, E, M. fields_tail.
Qed.

(** ** Properties of the codec *)



(** X2. In each format, [encode] returns an 8-character bit pattern for
    every float (NaN, infinities and zeros included), and [encode_to_int]
    returns the integer of that pattern, in 0..255. *)
Theorem X2_encode_returns_pattern (fmt : string) (x : pyfloat) :
  In fmt format_names ->
  exists p,
    0 <= p <= 255 /\
    FP8_Codec.encode x fmt = Ok (bits p) /\
    String.length (bits p) = 8%nat /\
    FP8_Codec.encode_to_int x fmt = Ok p.
Proof.
  intros Hf.
  destruct (format_params fmt Hf) as (e & m & bias & Hpar & _).
  destruct (encode_pattern fmt e m bias x Hf Hpar) as (p & Hp & He & _).
  exists p. split; [exact Hp |]. split; [exact He |].
  split; [now apply bits_length |].
  unfold FP8_Codec.encode_to_int. rewrite He. cbn [bind].
  now destruct (bits_fields fmt p e m bias Hf Hp Hpar).
Qed.

Lemma X2_encode_returns_pattern_witness :
  In "e2m5" format_names /\
  exists p,
    0 <= p <= 255 /\
    FP8_Codec.encode (PFin (- (7 # 3))) "e2m5" = Ok (bits p) /\
    String.length (bits p) = 8%nat /\
    FP8_Codec.encode_to_int (PFin (- (7 # 3))) "e2m5" = Ok p.
Proof.
  assert (Hf : In "e2m5" format_names) by (simpl; tauto).
  exact (conj Hf (X2_encode_returns_pattern "e2m5" (PFin (- (7 # 3))) Hf)).
Defined.

Lemma class_of_packed (e E M : Z) :
  (E = Z.shiftl 1 e - 1 -> M = 0) ->
  class_of_fields e E M <> "NaN".
Proof.
  intros H. unfold class_of_fields.
  destruct (E =? 0); [destruct (M =? 0); discriminate |].
  destruct (Z.eqb_spec E (Z.shiftl 1 e - 1)) as [HE |]; [| discriminate].
  rewrite (H HE). discriminate.
Qed.

(** X3. In each format, the pattern [encode] returns classifies as NaN
    exactly when the input is NaN, and an infinite input gives the pattern
    that decodes to the same infinity. *)
Theorem X3_encode_class (fmt : string) (x : pyfloat) :
  In fmt format_names ->
  exists s f,
    FP8_Codec.encode x fmt = Ok s /\ flag_of_bits fmt s = Ok f /\
    (f = "NaN" <-> x = PNaN) /\
    (forall neg, x = PInf neg ->
       f = "infinity" /\ value_of_bits fmt s = Ok (PInf neg)).
Proof.
  intros Hf.
  destruct (format_params fmt Hf) as (e & m & bias & Hpar & Hin).
  destruct (encode_pattern fmt e m bias x Hf Hpar)
    as (p & Hp & He & Hnan & Hfin).
  exists (bits p), (class_of_fields e (exp_field e m p) (mant_field m p)).
  split; [exact He |].
  split; [now apply flag_of_bits_fields with (bias := bias) |].
  split; [split |].
  - intros Hc. destruct x; try reflexivity; exfalso;
      (destruct Hfin as (sg & E & M & -> & HE & HM & HEM & _); [discriminate |];
       destruct (pack_bits fmt e m bias sg E M Hf Hpar HE HM)
         as (_ & _ & _ & Fe & Fm);
       rewrite Fe, Fm in Hc; now apply (class_of_packed e E M HEM)).
  - intros ->. rewrite (Hnan eq_refl).
    now destruct (codec_nan_pattern_class e m bias Hin).
  - intros neg ->.
    destruct Hfin as (neg' & E & M & -> & HE & HM & HEM & Hinf); [discriminate |].
    destruct (Hinf neg eq_refl) as [-> ->].
    rewrite (HEM eq_refl) in *.
    destruct (pack_bits fmt e m bias neg _ 0 Hf Hpar HE HM)
      as (_ & _ & _ & Fe & Fm).
    split.
    + rewrite Fe, Fm. unfold class_of_fields.
      destruct (format_sizes fmt e m bias Hf Hpar) as (_ & Hmax & _).
      destruct (Z.eqb_spec (Z.shiftl 1 e - 1) 0) as [E0 |]; [lia |].
      now rewrite Z.eqb_refl.
    + destruct (special_bits fmt e m bias neg Hf Hpar) as (S & _).
      rewrite <- S.
      now destruct (codec_values fmt e m bias Hf Hpar) as (_ & _ & _ & Hi & _).
Qed.

Lemma X3_encode_class_witness :
  In "e5m2" format_names /\
  exists s f,
    FP8_Codec.encode (PInf true) "e5m2" = Ok s /\
    flag_of_bits "e5m2" s = Ok f /\
    (f = "NaN" <-> PInf true = PNaN) /\
    (forall neg, PInf true = PInf neg ->
       f = "infinity" /\ value_of_bits "e5m2" s = Ok (PInf neg)).
Proof.
  assert (Hf : In "e5m2" format_names) by (simpl; tauto).
  exact (conj Hf (X3_encode_class "e5m2" (PInf true) Hf)).
Defined.

Lemma fabs_fin_opp (q : Q) : fabs_fin (- q) = fabs_fin q.
Proof.
  destruct q as [n d]. unfold fabs_fin, Qabs, Qopp. cbn [Qnum Qden].
  now rewrite Z.abs_opp.
Qed.

(** X4. In each format and for every positive finite value [q], [encode]
    of [-q] is [encode] of [q] with the sign character 1 in place of 0:
    the exponent and mantissa fields depend on the magnitude only. *)
Theorem X4_encode_sign_symmetry (fmt : string) (q : Q) :
  In fmt format_names -> (0 < q)%Q ->
  exists fields,
    FP8_Codec.encode (PFin q) fmt = Ok ("0" ++ fields) /\
    FP8_Codec.encode (PFin (- q)) fmt = Ok ("1" ++ fields).
Proof.
  intros Hf Hq.
  destruct (format_params fmt Hf) as (e & m & bias & Hpar & _).
  unfold FP8_Codec.encode. rewrite Hpar. cbn [bind].
  assert (N0 : Qeq_bool q 0 = false).
  { apply not_true_is_false. intros H. apply Qeq_bool_iff in H. lra. }
  assert (N1 : Qeq_bool (- q) 0 = false).
  { apply not_true_is_false. intros H. apply Qeq_bool_iff in H. lra. }
  rewrite N0, N1.
  unfold FP8_Codec.encode_finite. cbv zeta.
  rewrite fabs_fin_opp.
  assert (S0 : is_neg (PFin q) = false).
  { unfold is_neg. apply negb_false_iff, Qle_bool_iff. lra. }
  assert (S1 : is_neg (PFin (- q)) = true).
  { unfold is_neg. apply negb_true_iff, not_true_is_false.
    intros H. apply Qle_bool_iff in H. lra. }
  rewrite S0, S1.
  repeat match goal with
  | |- context [if ?c then _ else _] => destruct c
  end; eexists; split; reflexivity.
Qed.

Lemma X4_encode_sign_symmetry_witness :
  In "e3m4" format_names /\ (0 < 5 # 3)%Q /\
  exists fields,
    FP8_Codec.encode (PFin (5 # 3)) "e3m4" = Ok ("0" ++ fields) /\
    FP8_Codec.encode (PFin (- (5 # 3))) "e3m4" = Ok ("1" ++ fields).
Proof.
  assert (Hf : In "e3m4" format_names) by (simpl; tauto).
  assert (Hq : (0 < 5 # 3)%Q) by reflexivity.
  exact (conj Hf (conj Hq (X4_encode_sign_symmetry "e3m4" (5 # 3) Hf Hq))).
Defined.

(** ** [encode] rounds to nearest *)

Lemma scaled_error_half (n y U d : Q) :
  (Qabs (n - y) <= 1 # 2)%Q -> (0 <= U)%Q -> (d == (n - y) * U)%Q ->
  (Qabs d <= (1 # 2) * U)%Q.
Proof.
  intros H HU ->. rewrite Qabs_Qmult, (Qabs_pos U HU).
  apply Qmult_le_compat_r; assumption.
Qed.

Section EncodeNearest.

Variable fmt : string.
Variables e m bias : Z.

Let max_exp := Z.shiftl 1 e - 1.
Let B := inject_Z (Z.shiftl 1 m).

Hypothesis Hm : 1 <= m.
Hypothesis Hmax : 2 <= max_exp.

Hypothesis pack_value :
  forall neg E M, 0 <= E < max_exp -> 0 <= M < 2 ^ m ->
  exists v,
    value_of_bits fmt (sign_bit_of neg ++ Py.format_0b e E ++ Py.format_0b m M)
      = Ok v /\
    value_is v (sign_factor neg * field_value m bias E M).

Hypothesis zero_value :
  forall neg, exists v,
    value_of_bits fmt (sign_bit_of neg ++ Py.str_mul "0" e ++ Py.str_mul "0" m)
      = Ok v /\
    value_is v 0.

Theorem encode_finite_nearest (q : Q) :
  (Qpower 2 (1 - bias - m) <= Qabs q)%Q ->
  (Qabs q < overflow_threshold e m bias)%Q ->
  exists v r,
    value_of_bits fmt (FP8_Codec.encode_finite q e m bias) = Ok v /\
    real_of v = Some r /\ (Qabs (r - q) <= (1 # 2) * ulp m bias q)%Q.
Proof.
  intros Hlow HT.
  pose proof (sign_factor_abs q) as Hsx.
  assert (Hx : (0 < Qabs q)%Q).
  { pose proof (pow2_pos (1 - bias - m)). lra. }
  assert (Hq : ~ (q == 0)%Q).
  { intros H. rewrite H in Hx. discriminate Hx. }
  rewrite (ulp_nonzero m bias q Hq).
  unfold FP8_Codec.encode_finite. cbv zeta.
  change (is_neg (PFin q)) with (negb (Qle_bool 0 q)).
  change (if negb (Qle_bool 0 q) then "1" else "0")
    with (sign_bit_of (negb (Qle_bool 0 q))).
  unfold fabs_fin.
  set (neg := negb (Qle_bool 0 q)) in *. set (x := Qabs q) in *.
  clearbody neg x.
  replace (Qeq_bool x 0) with false
    by (symmetry; apply not_true_is_false; intros E; apply Qeq_bool_iff in E; lra).
  destruct (floor_log2_spec x Hx) as [L U].
  set (k := Py.floor_log2 x) in *. clearbody k.
  fold max_exp. rewrite (shiftl_pow m).
  destruct (threshold_bounds e m bias Hm) as [_ TU].
  replace (Z.shiftl 1 e - 2 - bias + 1) with (max_exp - bias) in TU
    by (unfold max_exp; lia).
  assert (Hk : 1 - bias - m < k + 1).
  { apply Qpower_lt_compat_l_inv with (q := 2%Q); [lra | reflexivity]. }
  rewrite Z.geb_leb. destruct (Z.leb_spec max_exp (k + bias)) as [Hov | Hov].
  { exfalso.
    assert (H : (Qpower 2 (max_exp - bias) <= Qpower 2 k)%Q) by (apply pow2_le; lia).
    lra. }
  pose proof (B_pos e m Hm) as HB. fold B in HB.
  pose proof (B_inject m) as HBi. fold B in HBi.
  destruct (Z.leb_spec (k + bias) 0) as [Hden | Hnorm].
  - assert (Hmaxk : Z.max k (1 - bias) = 1 - bias) by lia. rewrite Hmaxk.
    destruct (Z.ltb_spec (k + bias) (- (m - 1))) as [Hfl | Hfl]; [lia |].
    assert (Hx1 : (x < Qpower 2 (1 - bias))%Q).
    { apply Qlt_le_trans with (1 := U). apply pow2_le. lia. }
    destruct (denormal_facts e m bias Hm x Hx Hx1) as (Y0 & Y1 & Yid).
    rewrite <- (shiftl_pow m). fold B. fold B in Y0, Y1, Yid.
    set (y := (x / Qpower 2 (1 - bias) * B)%Q) in *.
    pose proof (round_err y) as Rerr.
    assert (RU : Py.round y <= 2 ^ m).
    { apply round_le. rewrite HBi. lra. }
    assert (RL : 0 <= Py.round y).
    { apply round_ge. change (inject_Z 0) with 0%Q. lra. }
    assert (Herr : (Qabs (inject_Z (Py.round y) / inject_Z (2 ^ m)
                          * Qpower 2 (1 - bias) - x)
                    <= (1 # 2) * Qpower 2 (1 - bias - m))%Q).
    { eapply scaled_error_half;
        [exact Rerr | apply Qlt_le_weak, pow2_pos | apply Yid]. }
    rewrite (shiftl_pow m).
    rewrite Z.geb_leb. destruct (Z.leb_spec (2 ^ m) (Py.round y)) as [Hc | Hc].
    + assert (Er : Py.round y = 2 ^ m) by lia.
      apply (packed_result fmt e m bias pack_value q neg x
               (inject_Z (Py.round y) / inject_Z (2 ^ m) * Qpower 2 (1 - bias)));
        [exact Hsx | fold max_exp; lia | lia | | exact Herr].
      unfold field_value. simpl (1 =? 0). cbv iota.
      rewrite Er. field. rewrite HBi. lra.
    + destruct (Z.eqb_spec (Py.round y) 0) as [Ez | Ez].
      * apply (zero_result fmt e m zero_value q neg x); [exact Hsx |].
        rewrite Ez in Herr.
        setoid_replace (0 - x)%Q
          with (inject_Z 0 / inject_Z (2 ^ m) * Qpower 2 (1 - bias) - x)%Q;
          [exact Herr |].
        field. rewrite HBi. lra.
      * apply (packed_result fmt e m bias pack_value q neg x
                 (inject_Z (Py.round y) / inject_Z (2 ^ m) * Qpower 2 (1 - bias)));
          [exact Hsx | fold max_exp; lia | lia | | exact Herr].
        unfold field_value. simpl (0 =? 0). cbv iota. reflexivity.
  - assert (Hmaxk : Z.max k (1 - bias) = k) by lia. rewrite Hmaxk.
    destruct (normal_facts e m Hm x k L U) as (Y0 & Y1 & Yid & Ythr).
    rewrite <- (shiftl_pow m). fold B. fold B in Y0, Y1, Yid, Ythr.
    set (y := ((x / Qpower 2 k - 1) * B)%Q) in *.
    pose proof (round_err y) as Rerr.
    assert (RU : Py.round y <= 2 ^ m).
    { apply round_le. rewrite HBi. lra. }
    assert (RL : 0 <= Py.round y).
    { apply round_ge. change (inject_Z 0) with 0%Q. lra. }
    assert (Herr : (Qabs ((1 + inject_Z (Py.round y) / inject_Z (2 ^ m))
                          * Qpower 2 k - x)
                    <= (1 # 2) * Qpower 2 (k - m))%Q).
    { eapply scaled_error_half;
        [exact Rerr | apply Qlt_le_weak, pow2_pos | apply Yid]. }
    rewrite (shiftl_pow m).
    destruct (Z.eqb_spec (Py.round y) (2 ^ m)) as [Ec | Ec].
    + rewrite Z.geb_leb.
      destruct (Z.leb_spec max_exp (k + bias + 1)) as [Hov2 | Hov2].
      * exfalso.
        assert (Ek : k = Z.shiftl 1 e - 2 - bias) by (unfold max_exp in *; lia).
        assert (Hy : (inject_Z (2 ^ m) - (1 # 2) <= y)%Q).
        { destruct (round_eq_bounds y) as [Hb _]. rewrite Ec in Hb. exact Hb. }
        apply Ythr in Hy. unfold overflow_threshold in HT. rewrite <- Ek in HT. lra.
      * apply (packed_result fmt e m bias pack_value q neg x
                 ((1 + inject_Z (Py.round y) / inject_Z (2 ^ m)) * Qpower 2 k));
          [exact Hsx | fold max_exp; lia | lia | | exact Herr].
        unfold field_value.
        destruct (Z.eqb_spec (k + bias + 1) 0) as [E0 | _]; [lia |].
        replace (k + bias + 1 - bias) with (k + 1) by lia.
        rewrite pow2_succ, Ec. field. rewrite HBi. lra.
    + apply (packed_result fmt e m bias pack_value q neg x
               ((1 + inject_Z (Py.round y) / inject_Z (2 ^ m)) * Qpower 2 k));
        [exact Hsx | fold max_exp; lia | lia | | exact Herr].
      unfold field_value.
      destruct (Z.eqb_spec (k + bias) 0) as [E0 | _]; [lia |].
      replace (k + bias - bias) with k by lia. reflexivity.
Qed.

End EncodeNearest.

(** X5. In each format and for every finite value [q]: [encode(q)] decodes
    to the infinity with the sign of [q] when [|q|] reaches the overflow
    threshold [(2 - 2^(-m-1)) * 2^(2^e - 2 - bias)]; below the threshold
    it decodes to a finite value within one unit in the last place of [q],
    and within half a unit when [|q|] is at least the smallest denormal
    [2^(1 - bias - m)]. *)
Theorem X5_encode_rounds_to_nearest (fmt : string) (e m bias : Z) (q : Q) :
  In fmt format_names ->
  FP8_Codec._get_format_params fmt = Ok (e, m, bias) ->
  exists s v,
    FP8_Codec.encode (PFin q) fmt = Ok s /\
    value_of_bits fmt s = Ok v /\
    ((overflow_threshold e m bias <= Qabs q)%Q ->
       v = PInf (negb (Qle_bool 0 q))) /\
    ((Qabs q < overflow_threshold e m bias)%Q -> within_one_ulp m bias v q) /\
    ((Qpower 2 (1 - bias - m) <= Qabs q)%Q ->
     (Qabs q < overflow_threshold e m bias)%Q ->
     exists r, real_of v = Some r /\
               (Qabs (r - q) <= (1 # 2) * ulp m bias q)%Q).
Proof.
  intros Hf Hpar.
  assert (Hv : value_is (PFin q) q) by (unfold value_is; simpl; reflexivity).
  destruct (encode_decode_real fmt e m bias (PFin q) q Hf Hpar Hv)
    as (s & v & Hs & Hd & Hres).
  exists s, v.
  split; [exact Hs |]. split; [exact Hd |].
  split; [| split].
  - intros HT. destruct Hres as [[H _] | [_ H]]; [lra | exact H].
  - intros HT. destruct Hres as [[_ H] | [H _]]; [exact H | lra].
  - intros Hlow HT.
    destruct (codec_values fmt e m bias Hf Hpar)
      as (Hm & Hmax & Hpack & _ & Hzero & _).
    destruct (encode_finite_nearest fmt e m bias Hm Hmax Hpack Hzero q Hlow HT)
      as (v' & r & Hv' & Hr & Hb).
    assert (Hq : Qeq_bool q 0 = false).
    { apply not_true_is_false. intros H. apply Qeq_bool_iff in H.
      pose proof (pow2_pos (1 - bias - m)) as Hp.
      rewrite H in Hlow. change (Qabs 0) with 0%Q in Hlow. lra. }
    unfold FP8_Codec.encode in Hs. rewrite Hpar in Hs. cbn [bind] in Hs.
    rewrite Hq in Hs. injection Hs as <-.
    rewrite Hv' in Hd. injection Hd as <-.
    now exists r.
Qed.

Lemma X5_encode_rounds_to_nearest_witness :
  In "e4m3" format_names /\
  FP8_Codec._get_format_params "e4m3" = Ok (4, 3, 7) /\
  (Qpower 2 (1 - 7 - 3) <= Qabs (22 # 7))%Q /\
  (Qabs (22 # 7) < overflow_threshold 4 3 7)%Q /\
  exists s v r,
    FP8_Codec.encode (PFin (22 # 7)) "e4m3" = Ok s /\
    value_of_bits "e4m3" s = Ok v /\
    real_of v = Some r /\
    (Qabs (r - (22 # 7)) <= (1 # 2) * ulp 3 7 (22 # 7))%Q.
Proof.
  assert (Hf : In "e4m3" format_names) by (simpl; tauto).
  assert (Hpar : FP8_Codec._get_format_params "e4m3" = Ok (4, 3, 7))
    by reflexivity.
  assert (Hlow : (Qpower 2 (1 - 7 - 3) <= Qabs (22 # 7))%Q) by discriminate.
  assert (HT : (Qabs (22 # 7) < overflow_threshold 4 3 7)%Q) by reflexivity.
  repeat (split; [assumption |]).
  destruct (X5_encode_rounds_to_nearest "e4m3" 4 3 7 (22 # 7) Hf Hpar)
    as (s & v & Hs & Hv & _ & _ & Hn).
  destruct (Hn Hlow HT) as (r & Hr & Hb).
  exists s, v, r. auto.
Defined.



(** ** [range_info] *)

(** X7. For each format, [range_info] returns the value of the smallest
    denormal pattern as [denorm_min], of the largest denormal pattern as
    [denorm_max] and of the smallest normal pattern as [normalized_min];
    its [normalized_max] is the value of the largest pattern whose
    exponent field is all-ones minus 2, which is half the value of the
    largest finite pattern (exponent field all-ones minus 1).  With a name
    outside the four formats it raises ValueError, and without a name it
    returns None. *)
Theorem X7_range_info (fmt : string) :
  (In fmt format_names ->
   exists e m bias r,
     FP8_Codec._get_format_params fmt = Ok (e, m, bias) /\
     range_info (Some fmt) = Ok (Some r) /\
     decodes_to fmt 1 (denorm_min r) /\
     decodes_to fmt (2 ^ m - 1) (denorm_max r) /\
     decodes_to fmt (2 ^ m) (normalized_min r) /\
     decodes_to fmt (Z.shiftl (Z.shiftl 1 e - 2) m - 1) (normalized_max r) /\
     decodes_to fmt (Z.shiftl (Z.shiftl 1 e - 1) m - 1) (2 * normalized_max r)) /\
  (~ In fmt format_names -> range_info (Some fmt) = Raise ValueError) /\
  range_info None = Ok None.
Proof.
  split; [| split].
  - intros [<- | [<- | [<- | [<- | []]]]];
      do 4 eexists; (split; [reflexivity |]); (split; [reflexivity |]);
      repeat split; eexists; split; vm_compute; reflexivity.
  - intros H. unfold range_info. now rewrite dict_get_FORMATS_none.
  - reflexivity.
Qed.

Lemma X7_range_info_witness :
  In "e3m4" format_names /\
  exists e m bias r,
    FP8_Codec._get_format_params "e3m4" = Ok (e, m, bias) /\
    range_info (Some "e3m4") = Ok (Some r) /\
    decodes_to "e3m4" 1 (denorm_min r) /\
    decodes_to "e3m4" (2 ^ m - 1) (denorm_max r) /\
    decodes_to "e3m4" (2 ^ m) (normalized_min r) /\
    decodes_to "e3m4" (Z.shiftl (Z.shiftl 1 e - 2) m - 1) (normalized_max r) /\
    decodes_to "e3m4" (Z.shiftl (Z.shiftl 1 e - 1) m - 1) (2 * normalized_max r).
Proof.
  assert (Hf : In "e3m4" format_names) by (simpl; tauto).
  exact (conj Hf (proj1 (X7_range_info "e3m4") Hf)).
Defined.

(** ** The ripple adder on strings *)

Lemma str_app_assoc (a b c : string) : (a ++ b) ++ c = a ++ (b ++ c).
Proof. induction a; simpl; [reflexivity | now rewrite IHa]. Qed.

Lemma str_app_nil_r (a : string) : a ++ "" = a.
Proof. induction a; simpl; [reflexivity | now rewrite IHa]. Qed.

Lemma str_app_length (a b : string) :
  String.length (a ++ b) = (String.length a + String.length b)%nat.
Proof. induction a; simpl; [reflexivity | now rewrite IHa]. Qed.

Lemma rev_acc_app (s acc : string) : Py.rev_acc s acc = Py.reverse s ++ acc.
Proof.
  unfold Py.reverse. revert acc.
  induction s as [| c s IH]; intros acc; simpl; [reflexivity |].
  rewrite IH, (IH (String c "")), str_app_assoc. reflexivity.
Qed.

Lemma reverse_cons (c : ascii) (s : string) :
  Py.reverse (String c s) = Py.reverse s ++ String c "".
Proof. unfold Py.reverse at 1. simpl. apply rev_acc_app. Qed.

Lemma reverse_length (s : string) :
  String.length (Py.reverse s) = String.length s.
Proof.
  induction s as [| c s IH]; [reflexivity |].
  rewrite reverse_cons, str_app_length, IH. simpl. lia.
Qed.

Lemma reverse_app (a b : string) :
  Py.reverse (a ++ b) = Py.reverse b ++ Py.reverse a.
Proof.
  induction a as [| c a IH]; simpl.
  - now rewrite str_app_nil_r.
  - now rewrite !reverse_cons, IH, str_app_assoc.
Qed.

Lemma reverse_involutive (s : string) : Py.reverse (Py.reverse s) = s.
Proof.
  induction s as [| c s IH]; [reflexivity |].
  rewrite reverse_cons, reverse_app, IH. reflexivity.
Qed.

Lemma get_drop (i : nat) (b : string) :
  String.get i b = match str_drop i b with
                   | String c _ => Some c
                   | EmptyString => None
                   end.
Proof.
  revert b. induction i as [| i IH]; intros [| c b]; simpl; auto.
Qed.

Lemma drop_succ (i : nat) (b : string) :
  str_drop (S i) b = str_tail (str_drop i b).
Proof.
  revert b. induction i as [| i IH]; intros [| c b]; try reflexivity.
  change (str_drop (S (S i)) (String c b)) with (str_drop (S i) b).
  change (str_drop (S i) (String c b)) with (str_drop i b).
  apply IH.
Qed.

Lemma drop_empty (i : nat) (b : string) :
  str_drop i b = "" <-> (String.length b <= i)%nat.
Proof.
  revert b. induction i as [| i IH]; intros [| c b]; simpl.
  - split; auto.
  - split; [discriminate | lia].
  - split; [lia | auto].
  - rewrite IH. lia.
Qed.

(** The indexed loop of [int_bin_adder] is the digit-by-digit sum with
    the part of [b] from the current index on. *)
Lemma adder_loop_digits (a b : string) (i : nat) (carry : Z) (result : string) :
  Adder.adder_loop a (Z.of_nat i) b carry result =
  ('(c, out) <- add_digits a (str_drop i b) carry ;; Ok (c, result ++ out)).
Proof.
  revert i carry result.
  induction a as [| bit a IH]; intros i carry result;
    cbn [Adder.adder_loop add_digits].
  - cbn [bind]. now rewrite str_app_nil_r.
  - assert (Hb : (if Z.of_nat i >? Py.len b - 1 then Ok 0
                  else (c <- Py.index b (Z.of_nat i) ;; Py.int_of 10 c))
                 = match str_drop i b with
                   | EmptyString => Ok 0
                   | String c _ => Py.int_of 10 (String c "")
                   end).
    { unfold Py.len, Py.index. rewrite Nat2Z.id, get_drop.
      destruct (str_drop i b) as [| c r] eqn:E.
      - apply drop_empty in E.
        destruct (Z.gtb_spec (Z.of_nat i) (Z.of_nat (String.length b) - 1));
          [reflexivity | lia].
      - assert (H : ~ (String.length b <= i)%nat).
        { intros H. apply drop_empty in H. congruence. }
        destruct (Z.gtb_spec (Z.of_nat i) (Z.of_nat (String.length b) - 1));
          [lia | reflexivity]. }
    rewrite Hb.
    destruct (match str_drop i b with
              | EmptyString => Ok 0
              | String c _ => Py.int_of 10 (String c "")
              end) as [b_bit | err]; [| reflexivity].
    cbn [bind].
    destruct (Py.int_of 10 (String bit "")) as [a_bit | err]; [| reflexivity].
    cbn [bind].
    replace (Z.of_nat i + 1) with (Z.of_nat (S i)) by lia.
    rewrite IH, drop_succ.
    destruct (add_digits a (str_tail (str_drop i b)) _) as [[c out] | err];
      [| reflexivity].
    cbn [bind]. now rewrite str_app_assoc.
Qed.

Lemma is_bit_cases (c : ascii) :
  is_bit c = true -> c = "0"%char \/ c = "1"%char.
Proof.
  unfold is_bit. intros H. apply orb_true_iff in H.
  destruct H as [H | H]; apply Ascii.eqb_eq in H; auto.
Qed.

Lemma digit_value_bit (c : ascii) (d : Z) :
  Py.digit_value c = Some d -> d < 2 -> is_bit c = true /\ d = bit_value c.
Proof.
  unfold Py.digit_value. intros H Hd.
  destruct ((48 <=? Z.of_nat (nat_of_ascii c)) && (Z.of_nat (nat_of_ascii c) <=? 57))
    eqn:R; [| discriminate].
  injection H as <-.
  apply andb_true_iff in R. destruct R as [R1 R2].
  apply Z.leb_le in R1, R2.
  assert (Hn : nat_of_ascii c = 48%nat \/ nat_of_ascii c = 49%nat) by lia.
  rewrite <- (ascii_nat_embedding c).
  destruct Hn as [-> | ->]; split; reflexivity.
Qed.

Lemma lsb_value_app (x y : string) :
  lsb_value (x ++ y)
  = lsb_value x + 2 ^ Z.of_nat (String.length x) * lsb_value y.
Proof.
  induction x as [| c x IH]; cbn [append lsb_value String.length].
  - change (2 ^ Z.of_nat 0) with 1. lia.
  - rewrite IH, Nat2Z.inj_succ, Z.pow_succ_r by lia. lia.
Qed.

Lemma is_binary_app (x y : string) :
  is_binary (x ++ y) = is_binary x && is_binary y.
Proof.
  induction x as [| c x IH]; simpl; [reflexivity |].
  now rewrite IH, andb_assoc.
Qed.

Lemma is_binary_reverse (s : string) : is_binary (Py.reverse s) = is_binary s.
Proof.
  induction s as [| c s IH]; [reflexivity |].
  rewrite reverse_cons, is_binary_app, IH. simpl.
  rewrite andb_true_r. apply andb_comm.
Qed.

Lemma digit_value_of_bit (c : ascii) :
  is_bit c = true ->
  Py.digit_value c = Some (bit_value c) /\ (bit_value c <? 2) = true.
Proof.
  intros H. destruct (is_bit_cases c H) as [-> | ->]; split; reflexivity.
Qed.

(** [int(s, 2)] on digits: the value read most significant digit first. *)
Lemma int_digits_binary (s : string) (acc : Z) :
  is_binary s = true ->
  Py.int_digits 2 s acc
  = Ok (acc * 2 ^ Z.of_nat (String.length s) + lsb_value (Py.reverse s)).
Proof.
  revert acc. induction s as [| c s IH]; intros acc Hs.
  - simpl. f_equal. lia.
  - cbn [is_binary] in Hs. apply andb_true_iff in Hs. destruct Hs as [Hc Hs].
    cbn [Py.int_digits].
    destruct (digit_value_of_bit c Hc) as [-> ->].
    rewrite (IH _ Hs), reverse_cons, lsb_value_app, reverse_length.
    cbn [String.length lsb_value].
    rewrite Nat2Z.inj_succ, Z.pow_succ_r by lia.
    f_equal. lia.
Qed.

Lemma int_digits_ok_binary (s : string) (acc v : Z) :
  Py.int_digits 2 s acc = Ok v -> is_binary s = true.
Proof.
  revert acc. induction s as [| c s IH]; intros acc H; [reflexivity |].
  cbn [Py.int_digits] in H.
  destruct (Py.digit_value c) as [d |] eqn:D; [| discriminate].
  destruct (Z.ltb_spec d 2) as [Hd |]; [| discriminate].
  destruct (digit_value_bit c d D Hd) as [Hc _].
  cbn [is_binary]. rewrite Hc. simpl. exact (IH _ H).
Qed.

(** What [int(s, 2) = v] says of the string. *)
Lemma int_of_2_spec (s : string) (v : Z) :
  Py.int_of 2 s = Ok v <->
  s <> "" /\ is_binary s = true /\ v = lsb_value (Py.reverse s).
Proof.
  unfold Py.int_of. split.
  - intros H. destruct s as [| c s]; [discriminate |].
    split; [discriminate |].
    pose proof (int_digits_ok_binary _ _ _ H) as Hb. split; [exact Hb |].
    rewrite (int_digits_binary _ 0 Hb) in H. injection H as H. lia.
  - intros (Hn & Hb & ->). destruct s as [| c s]; [congruence |].
    rewrite (int_digits_binary _ 0 Hb). f_equal; lia.
Qed.

Lemma int_of_10_bit (c : ascii) :
  is_bit c = true -> Py.int_of 10 (String c "") = Ok (bit_value c).
Proof.
  intros H. destruct (is_bit_cases c H) as [-> | ->]; reflexivity.
Qed.

(** The digit-by-digit sum of two strings of binary digits. *)
Lemma add_digits_value (a b : string) (carry : Z) :
  is_binary a = true -> is_binary b = true ->
  (String.length b <= String.length a)%nat -> carry = 0 \/ carry = 1 ->
  exists c out,
    add_digits a b carry = Ok (c, out) /\ (c = 0 \/ c = 1) /\
    is_binary out = true /\ String.length out = String.length a /\
    lsb_value out + 2 ^ Z.of_nat (String.length a) * c
      = lsb_value a + lsb_value b + carry.
Proof.
  revert b carry. induction a as [| x a IH]; intros b carry Ha Hb Hlen Hc.
  - destruct b; [| simpl in Hlen; lia].
    exists carry, "". cbn [add_digits is_binary String.length lsb_value].
    change (2 ^ Z.of_nat 0) with 1.
    split; [reflexivity |]. split; [exact Hc |].
    split; [reflexivity |]. split; [reflexivity | lia].
  - cbn [is_binary] in Ha. apply andb_true_iff in Ha. destruct Ha as [Hx Ha].
    assert (Hb' : is_binary (str_tail b) = true).
    { destruct b; [reflexivity |]. cbn [is_binary] in Hb.
      now apply andb_true_iff in Hb. }
    assert (Hlen' : (String.length (str_tail b) <= String.length a)%nat).
    { destruct b; simpl in *; lia. }
    assert (Hbb : exists yb, (yb = 0 \/ yb = 1) /\
              match b with
              | EmptyString => Ok 0
              | String c _ => Py.int_of 10 (String c "")
              end = Ok yb /\ lsb_value b = yb + 2 * lsb_value (str_tail b)).
    { destruct b as [| y b].
      - exists 0. simpl. auto.
      - cbn [is_binary] in Hb. apply andb_true_iff in Hb. destruct Hb as [Hy _].
        exists (bit_value y). rewrite (int_of_10_bit y Hy).
        split; [| split; reflexivity].
        destruct (is_bit_cases y Hy) as [-> | ->]; auto. }
    destruct Hbb as (yb & Hyb & Eb & Vb).
    cbn [add_digits]. rewrite Eb. cbn [bind].
    rewrite (int_of_10_bit x Hx). cbn [bind].
    set (total := bit_value x + yb + carry).
    assert (Ht : 0 <= total <= 3).
    { assert (Hbx : bit_value x = 0 \/ bit_value x = 1)
        by (unfold bit_value; destruct (Ascii.eqb x "1"); auto).
      unfold total. lia. }
    assert (Hc' : (if total >? 1 then 1 else 0) = 0 \/
                  (if total >? 1 then 1 else 0) = 1)
      by (destruct (total >? 1); auto).
    destruct (IH (str_tail b) _ Ha Hb' Hlen' Hc')
      as (c & out & E & Hcb & Hout & Lout & Vout).
    rewrite E. cbn [bind].
    exists c, (Py.str_digit (total mod 2) ++ out).
    split; [reflexivity |]. split; [exact Hcb |].
    assert (Hd : Py.str_digit (total mod 2)
                 = String (if (total mod 2 =? 1)%Z then "1"%char else "0"%char) "").
    { assert (Hm : total mod 2 = 0 \/ total mod 2 = 1)
        by (pose proof (Z.mod_pos_bound total 2); lia).
      destruct Hm as [-> | ->]; reflexivity. }
    rewrite Hd. cbn [append is_binary String.length lsb_value].
    split; [| split].
    + rewrite Hout. now destruct (total mod 2 =? 1).
    + now rewrite Lout.
    + rewrite Nat2Z.inj_succ, Z.pow_succ_r by lia.
      assert (Hbv : bit_value (if (total mod 2 =? 1)%Z then "1"%char else "0"%char)
                    = total mod 2).
      { assert (Hm : total mod 2 = 0 \/ total mod 2 = 1)
          by (pose proof (Z.mod_pos_bound total 2); lia).
        destruct Hm as [-> | ->]; reflexivity. }
      rewrite Hbv, Vb.
      assert (Hdiv : total = 2 * (if total >? 1 then 1 else 0) + total mod 2).
      { destruct (Z.gtb_spec total 1).
        - assert (total = 2 \/ total = 3) as [-> | ->] by lia; reflexivity.
        - assert (total = 0 \/ total = 1) as [-> | ->] by lia; reflexivity. }
      unfold total in *. lia.
Qed.

Lemma adder_core (a b : string) :
  a <> "" -> is_binary a = true -> is_binary b = true ->
  (String.length b <= String.length a)%nat ->
  exists s,
    ('(carry, result) <- Adder.adder_loop (Py.reverse a) 0 (Py.reverse b) 0 "" ;;
     Ok (Py.reverse (if carry =? 1 then result ++ "1" else result))) = Ok s /\
    Py.int_of 2 s
      = Ok (lsb_value (Py.reverse a) + lsb_value (Py.reverse b)) /\
    (String.length s = String.length a \/
     String.length s = S (String.length a)).
Proof.
  intros Hne Ha Hb Hlen.
  change 0 with (Z.of_nat 0) at 1. rewrite adder_loop_digits.
  cbn [str_drop].
  destruct (add_digits_value (Py.reverse a) (Py.reverse b) 0)
    as (c & out & E & Hc & Hout & Lout & Vout);
    [now rewrite is_binary_reverse | now rewrite is_binary_reverse
     | rewrite !reverse_length; exact Hlen | now left |].
  rewrite E. cbn [bind append].
  rewrite reverse_length in Lout, Vout.
  assert (Hlen_a : (0 < String.length a)%nat).
  { destruct a; [congruence | simpl; lia]. }
  eexists. split; [reflexivity |].
  set (r := if c =? 1 then out ++ "1" else out).
  assert (Hr : is_binary r = true /\
               lsb_value r = lsb_value (Py.reverse a) + lsb_value (Py.reverse b) /\
               (String.length r = String.length a \/
                String.length r = S (String.length a))).
  { unfold r.
    destruct Hc as [-> | ->];
      [change (0 =? 1) with false | change (1 =? 1) with true]; cbv iota.
    - split; [exact Hout |]. split; [lia | now left].
    - rewrite is_binary_app, lsb_value_app, str_app_length, Hout, Lout.
      change (is_binary "1") with true. change (lsb_value "1") with 1.
      change (String.length "1") with 1%nat.
      split; [reflexivity |]. split; [lia | right; lia]. }
  destruct Hr as (Rb & Rv & Rl).
  split.
  - apply int_of_2_spec. split; [| split].
    + intros H. apply (f_equal String.length) in H.
      rewrite reverse_length in H. simpl in H. lia.
    + now rewrite is_binary_reverse.
    + now rewrite reverse_involutive.
  - now rewrite reverse_length.
Qed.

(** The value and the length of the sum string. *)
Lemma adder_sum (self : Adder.t) (a b : string) (va vb : Z) :
  Py.int_of 2 a = Ok va -> Py.int_of 2 b = Ok vb ->
  exists s,
    Adder.int_bin_adder self a b = Ok s /\
    Py.int_of 2 s = Ok (va + vb) /\
    (String.length s = Nat.max (String.length a) (String.length b) \/
     String.length s = S (Nat.max (String.length a) (String.length b))).
Proof.
  intros Ia Ib.
  apply int_of_2_spec in Ia, Ib.
  destruct Ia as (Na & Ba & ->). destruct Ib as (Nb & Bb & ->).
  unfold Adder.int_bin_adder, Py.len.
  destruct (Z.ltb_spec (Z.of_nat (String.length a)) (Z.of_nat (String.length b)))
    as [H | H].
  - destruct (adder_core b a Nb Bb Ba ltac:(lia)) as (s & E & V & L).
    exists s. split; [exact E |]. split; [rewrite V; f_equal; lia |].
    rewrite Nat.max_r by lia. exact L.
  - destruct (adder_core a b Na Ba Bb ltac:(lia)) as (s & E & V & L).
    exists s. split; [exact E |]. split; [exact V |].
    rewrite Nat.max_l by lia. exact L.
Qed.



Lemma int_of_10_error (s : string) (err : exn) :
  Py.int_of 10 s = Raise err -> err = ValueError.
Proof.
  unfold Py.int_of. destruct s as [| c s]; [now intros [= <-] |].
  generalize 0. induction (String c s) as [| x r IH]; intros acc; cbn [Py.int_digits].
  - discriminate.
  - destruct (Py.digit_value x) as [d |]; [| now intros [= <-]].
    destruct (d <? 10); [apply IH | now intros [= <-]].
Qed.

Lemma add_digits_comm (a b : string) (carry : Z) :
  String.length a = String.length b ->
  add_digits a b carry = add_digits b a carry.
Proof.
  revert b carry. induction a as [| x a IH]; intros [| y b] carry Hlen;
    try discriminate Hlen; [reflexivity |].
  cbn [add_digits str_tail].
  destruct (Py.int_of 10 (String y "")) as [vy | ey] eqn:Ey;
    destruct (Py.int_of 10 (String x "")) as [vx | ex] eqn:Ex; cbn [bind].
  - replace (vy + vx + carry) with (vx + vy + carry) by lia.
    rewrite (IH b) by (simpl in Hlen; lia). reflexivity.
  - reflexivity.
  - reflexivity.
  - now rewrite (int_of_10_error _ _ Ex), (int_of_10_error _ _ Ey).
Qed.

(** X9. [int_bin_adder] is commutative on all strings: the two orders
    return the same string, or both raise the same exception. *)
Theorem X9_int_bin_adder_comm (self : Adder.t) (a b : string) :
  Adder.int_bin_adder self a b = Adder.int_bin_adder self b a.
Proof.
  unfold Adder.int_bin_adder, Py.len.
  destruct (Z.ltb_spec (Z.of_nat (String.length a)) (Z.of_nat (String.length b)))
    as [H | H];
  destruct (Z.ltb_spec (Z.of_nat (String.length b)) (Z.of_nat (String.length a)))
    as [H' | H']; try lia; try reflexivity.
  assert (Hlen : String.length (Py.reverse a) = String.length (Py.reverse b))
    by (rewrite !reverse_length; lia).
  change 0 with (Z.of_nat 0) at 1 3. rewrite !adder_loop_digits.
  cbn [str_drop]. now rewrite (add_digits_comm _ _ 0 Hlen).
Qed.

(** ** The floating-point adder on patterns *)

Lemma adder_strings (fmt : string) (e m bias : Z) (neg : bool) :
  In fmt format_names ->
  FP8_Codec._get_format_params fmt = Ok (e, m, bias) ->
  Py.str_mul "0" e = Py.format_0b e 0 /\
  Py.str_mul "0" m = Py.format_0b m 0 /\
  Py.str_mul "1" e = Py.format_0b e (Z.shiftl 1 e - 1) /\
  Py.bin_digits (if neg then 1 else 0) = sign_bit_of neg /\
  Adder.nan_bits e m = bits (adder_nan_pattern e m) /\
  0 <= adder_nan_pattern e m <= 255.
Proof.
  intros Hf Hpar.
  assert (C : forallb (fun fmt => forallb (adder_strings_check fmt) [false; true])
                format_names = true) by (vm_cast_no_check (eq_refl true)).
  rewrite forallb_forall in C. specialize (C fmt Hf).
  rewrite forallb_forall in C. specialize (C neg (In_bool neg)).
  unfold adder_strings_check in C. rewrite Hpar in C.
  rewrite !andb_true_iff in C.
  destruct C as [[[[[[C1 C2] C3] C4] C5] C6] C7].
  apply String.eqb_eq in C1, C2, C3, C4, C5. apply Z.leb_le in C6, C7.
  repeat split; assumption.
Qed.

Lemma rebuild (fmt : string) (e m bias p : Z) :
  In fmt format_names -> 0 <= p <= 255 ->
  FP8_Codec._get_format_params fmt = Ok (e, m, bias) ->
  pattern_of m (sign_field e m p =? 1) (exp_field e m p) (mant_field m p) = p /\
  0 <= exp_field e m p < 2 ^ e /\ 0 <= mant_field m p < 2 ^ m /\
  (sign_field e m p = 0 \/ sign_field e m p = 1).
Proof.
  intros Hf Hp Hpar.
  assert (C : rebuild_check fmt p = true).
  { apply forall_formats_patterns;
      [vm_cast_no_check (eq_refl true) | exact Hf | exact Hp]. }
  unfold rebuild_check in C. rewrite Hpar in C.
  rewrite !andb_true_iff, orb_true_iff in C.
  destruct C as [[[[[C1 C2] C3] C4] C5] C6].
  apply Z.eqb_eq in C1. apply Z.ltb_lt in C2, C4. apply Z.leb_le in C3, C5.
  rewrite !Z.eqb_eq in C6. repeat split; assumption.
Qed.

Lemma clamp_loop_bound (p : positive) (lim : Z) :
  0 < lim -> 0 <= Adder.clamp_loop p lim < lim.
Proof.
  intros Hl. induction p as [p IH | p IH |]; cbn [Adder.clamp_loop];
    rewrite Z.geb_leb.
  - destruct (Z.leb_spec lim (Z.pos p~1)); [exact IH | lia].
  - destruct (Z.leb_spec lim (Z.pos p~0)); [exact IH | lia].
  - destruct (Z.leb_spec lim 1); lia.
Qed.

Lemma clamp_bound (x lim : Z) :
  0 < lim -> 0 <= x -> 0 <= Adder.clamp x lim < lim.
Proof.
  intros Hl Hx. destruct x as [| p | p]; cbn [Adder.clamp]; try lia.
  now apply clamp_loop_bound.
Qed.

(** Every branch of the arithmetic path packs a sign, an exponent field
    and a mantissa field that fit. *)
Lemma add_fields_shape (e m : Z) (sa ea ma sb eb mb : Z) :
  0 <= m -> 2 <= Z.shiftl 1 e - 1 ->
  exists s E M,
    (s = 0 \/ s = 1) /\ 0 <= E <= Z.shiftl 1 e - 1 /\ 0 <= M < 2 ^ m /\
    (E = Z.shiftl 1 e - 1 -> M = 0) /\
    (Adder.add_fields e m sa ea ma sb eb mb
       = Py.bin_digits s ++ Py.format_0b e E ++ Py.format_0b m M \/
     (E = 0 /\
      Adder.add_fields e m sa ea ma sb eb mb
        = Py.bin_digits s ++ Py.str_mul "0" e ++ Py.format_0b m M) \/
     (E = 0 /\ M = 0 /\
      Adder.add_fields e m sa ea ma sb eb mb
        = Py.bin_digits s ++ Py.str_mul "0" e ++ Py.str_mul "0" m) \/
     (E = Z.shiftl 1 e - 1 /\
      Adder.add_fields e m sa ea ma sb eb mb
        = Py.bin_digits s ++ Py.str_mul "1" e ++ Py.str_mul "0" m)).
Proof.
  intros Hm Hmax.
  pose proof (Z.pow_pos_nonneg 2 m ltac:(lia) Hm) as Hpow.
  unfold Adder.add_fields. cbv zeta.
  set (ma1 := if negb (ea =? 0) then Z.lor ma (Z.shiftl 1 m) else ma).
  set (mb1 := if negb (eb =? 0) then Z.lor mb (Z.shiftl 1 m) else mb).
  set (al := if ea >? eb then (ma1, Z.shiftr mb1 (ea - eb), ea)
             else if eb >? ea then (Z.shiftr ma1 (eb - ea), mb1, eb)
             else (ma1, mb1, ea)).
  destruct al as [[ma2 mb2] exp0].
  set (mant_res := (if negb (sa =? 0) then - ma2 else ma2)
                   + (if negb (sb =? 0) then - mb2 else mb2)).
  clearbody mant_res.
  destruct (Z.eqb_spec mant_res 0) as [Hz | Hz].
  { exists 0, 0, 0. split; [now left |]. split; [lia |]. split; [lia |].
    split; [reflexivity |]. right. right. left. now repeat split. }
  set (sign_res := if mant_res <? 0 then 1 else 0).
  assert (Hs : sign_res = 0 \/ sign_res = 1)
    by (unfold sign_res; destruct (mant_res <? 0); auto).
  set (mant1 := if mant_res <? 0 then - mant_res else mant_res).
  assert (Hm1 : 0 < mant1).
  { unfold mant1. destruct (Z.ltb_spec mant_res 0); lia. }
  clearbody sign_res mant1.
  set (nz := if Adder.bit_length mant1 - 1 >? m
             then (Z.shiftr mant1 (Adder.bit_length mant1 - 1 - m),
                   exp0 + (Adder.bit_length mant1 - 1 - m))
             else if (Adder.bit_length mant1 - 1 <? m) && (exp0 >? 0)
                  then (Z.shiftl mant1 (m - (Adder.bit_length mant1 - 1)),
                        exp0 - (m - (Adder.bit_length mant1 - 1)))
                  else (mant1, exp0)).
  assert (Hnz : 0 <= fst nz).
  { unfold nz. destruct (_ >? m); [apply Z.shiftr_nonneg; lia |].
    destruct (_ && _); [apply Z.shiftl_nonneg; lia | simpl; lia]. }
  destruct nz as [mant2 exp2]. cbn [fst] in Hnz.
  rewrite Z.geb_leb.
  destruct (Z.leb_spec (Z.shiftl 1 e - 1) exp2) as [Hov | Hov].
  { exists sign_res, (Z.shiftl 1 e - 1), 0.
    split; [exact Hs |]. split; [lia |]. split; [lia |].
    split; [reflexivity |]. right. right. right. now split. }
  destruct (Z.gtb_spec exp2 0) as [Hpos | Hpos].
  - exists sign_res, exp2, (Z.land mant2 (Z.shiftl 1 m - 1)).
    rewrite (Z.shiftl_1_l m).
    assert (Hland : 0 <= Z.land mant2 (2 ^ m - 1) < 2 ^ m).
    { split; [apply Z.land_nonneg; lia |].
      change (2 ^ m - 1) with (Z.pred (2 ^ m)). rewrite <- Z.ones_equiv.
      rewrite Z.land_ones by lia. apply Z.mod_pos_bound. lia. }
    split; [exact Hs |]. split; [lia |]. split; [exact Hland |].
    split; [lia |]. now left.
  - exists sign_res, 0, (Adder.clamp mant2 (Z.shiftl 1 m)).
    rewrite (Z.shiftl_1_l m).
    split; [exact Hs |]. split; [lia |].
    split; [apply clamp_bound; lia |]. split; [lia |].
    right. left. now split.
Qed.

Section AdderClosed.

Variable fmt : string.
Variables e m bias : Z.
Hypothesis Hf : In fmt format_names.
Hypothesis Hpar : FP8_Codec._get_format_params fmt = Ok (e, m, bias).

Lemma packed_result_ok (neg : bool) (E M : Z) :
  0 <= E <= Z.shiftl 1 e - 1 -> 0 <= M < 2 ^ m ->
  (E = Z.shiftl 1 e - 1 -> M = 0) ->
  adder_result e m (sign_bit_of neg ++ Py.format_0b e E ++ Py.format_0b m M).
Proof.
  intros HE HM Hinf.
  destruct (format_sizes fmt e m bias Hf Hpar)
    as (_ & _ & _ & _ & Se & _).
  destruct (pack_bits fmt e m bias neg E M Hf Hpar ltac:(lia) HM)
    as (Hs & Hr & _ & FE & FM).
  exists (pattern_of m neg E M). split; [exact Hr |]. split; [exact Hs |].
  rewrite FE, FM. intros Hc. apply class_nan in Hc.
  unfold Adder.is_nan in Hc. apply andb_true_iff in Hc. destruct Hc as [H1 H2].
  apply Z.eqb_eq in H1. rewrite (Hinf H1) in H2. discriminate H2.
Qed.

Lemma inf_bits_ok (s : Z) :
  s = 0 \/ s = 1 -> adder_result e m (Adder.inf_bits e m s).
Proof.
  intros Hs.
  destruct (format_sizes fmt e m bias Hf Hpar)
    as (Hm1 & Hmax & _ & _ & Se & Sm & _).
  assert (Hneg : exists neg : bool, s = if neg then 1 else 0).
  { destruct Hs as [-> | ->]; [now exists false | now exists true]. }
  destruct Hneg as [neg ->].
  destruct (adder_strings fmt e m bias neg Hf Hpar) as (_ & Z2 & Z3 & Z4 & _).
  unfold Adder.inf_bits. rewrite Z4, Z3, Z2.
  apply packed_result_ok; lia.
Qed.

Lemma add_fields_ok (sa ea ma sb eb mb : Z) :
  adder_result e m (Adder.add_fields e m sa ea ma sb eb mb).
Proof.
  destruct (format_sizes fmt e m bias Hf Hpar)
    as (Hm1 & Hmax & _ & _ & Se & Sm & _).
  destruct (add_fields_shape e m sa ea ma sb eb mb ltac:(lia) Hmax)
    as (s & E & M & Hs & HE & HM & Hinf & Hcase).
  assert (Hneg : exists neg : bool, s = if neg then 1 else 0).
  { destruct Hs as [-> | ->]; [now exists false | now exists true]. }
  destruct Hneg as [neg ->].
  destruct (adder_strings fmt e m bias neg Hf Hpar) as (Z1 & Z2 & Z3 & Z4 & _).
  destruct Hcase as [-> | [[-> ->] | [(-> & -> & ->) | [-> ->]]]];
    rewrite Z4, ?Z1, ?Z2, ?Z3; apply packed_result_ok; lia.
Qed.

Lemma input_result_ok (p : Z) :
  0 <= p <= 255 ->
  Adder.is_nan (Z.shiftl 1 e - 1) (exp_field e m p) (mant_field m p) = false ->
  adder_result e m (bits p).
Proof.
  intros Hp Hn. exists p. split; [exact Hp |]. split; [reflexivity |].
  intros Hc. apply class_nan in Hc. congruence.
Qed.

Lemma fp_bin_adder_ok (a b : Z) :
  0 <= a <= 255 -> 0 <= b <= 255 ->
  exists r, fp_add fmt (bits a) (bits b) = Ok r /\ adder_result e m r.
Proof.
  intros Ha Hb.
  destruct (bits_fields fmt a e m bias Hf Ha Hpar) as [Da _].
  destruct (bits_fields fmt b e m bias Hf Hb Hpar) as [Db _].
  destruct (rebuild fmt e m bias a Hf Ha Hpar) as (_ & _ & _ & Hsa).
  destruct (rebuild fmt e m bias b Hf Hb Hpar) as (_ & _ & _ & Hsb).
  destruct (adder_strings fmt e m bias false Hf Hpar)
    as (_ & _ & _ & _ & Hnan & Hnr).
  rewrite (fp_add_unfold fmt e m bias _ _ Hpar).
  unfold Adder.fp_bin_adder. cbn [Adder.e_bits Adder.m_bits]. cbv zeta.
  rewrite Da, Db. simpl bind.
  destruct (Adder.is_nan _ (exp_field e m a) _ || Adder.is_nan _ (exp_field e m b) _)
    eqn:Hn.
  { eexists. split; [reflexivity |]. exists (adder_nan_pattern e m). auto. }
  apply orb_false_iff in Hn. destruct Hn as [Hna Hnb].
  destruct (Adder.is_inf _ (exp_field e m a) _) eqn:Hia;
    destruct (Adder.is_inf _ (exp_field e m b) _) eqn:Hib; cbn [andb].
  - destruct (negb _).
    + eexists. split; [reflexivity |]. exists (adder_nan_pattern e m). auto.
    + eexists. split; [reflexivity |]. now apply inf_bits_ok.
  - eexists. split; [reflexivity |]. now apply inf_bits_ok.
  - eexists. split; [reflexivity |]. now apply inf_bits_ok.
  - destruct (_ && _).
    + eexists. split; [reflexivity |]. now apply input_result_ok.
    + destruct (_ && _).
      * eexists. split; [reflexivity |]. now apply input_result_ok.
      * eexists. split; [reflexivity |]. apply add_fields_ok.
Qed.

End AdderClosed.

(** X10. On any two 8-bit patterns of a supported format the adder
    returns, without raising, the 8-character string of some pattern; and
    the only NaN it ever returns is its own NaN pattern (all exponent bits
    and the lowest mantissa bit set, sign clear). *)
Theorem X10_fp_add_closed (fmt : string) (e m bias a b : Z) :
  In fmt format_names ->
  FP8_Codec._get_format_params fmt = Ok (e, m, bias) ->
  0 <= a <= 255 -> 0 <= b <= 255 ->
  exists p, 0 <= p <= 255 /\
    fp_add fmt (bits a) (bits b) = Ok (bits p) /\
    (class_of_fields e (exp_field e m p) (mant_field m p) = "NaN" ->
     p = adder_nan_pattern e m).
Proof.
  intros Hf Hpar Ha Hb.
  destruct (fp_bin_adder_ok fmt e m bias Hf Hpar a b Ha Hb)
    as (r & Hr & p & Hp & -> & Hc).
  exists p. auto.
Qed.

Lemma X10_fp_add_closed_witness :
  In "e4m3" format_names /\
  FP8_Codec._get_format_params "e4m3" = Ok (4, 3, 7) /\
  0 <= 60 <= 255 /\ 0 <= 189 <= 255 /\
  exists p, 0 <= p <= 255 /\
    fp_add "e4m3" (bits 60) (bits 189) = Ok (bits p) /\
    (class_of_fields 4 (exp_field 4 3 p) (mant_field 3 p) = "NaN" ->
     p = adder_nan_pattern 4 3).
Proof.
  assert (H1 : In "e4m3" format_names) by (vm_compute; tauto).
  assert (H2 : FP8_Codec._get_format_params "e4m3" = Ok (4, 3, 7))
    by reflexivity.
  assert (H3 : 0 <= 60 <= 255) by lia.
  assert (H4 : 0 <= 189 <= 255) by lia.
  exact (conj H1 (conj H2 (conj H3 (conj H4
           (X10_fp_add_closed "e4m3" 4 3 7 60 189 H1 H2 H3 H4))))).
Defined.

(** The arithmetic path treats its two operands alike. *)
Lemma add_fields_comm (e m sa ea ma sb eb mb : Z) :
  Adder.add_fields e m sa ea ma sb eb mb
    = Adder.add_fields e m sb eb mb sa ea ma.
Proof.
  unfold Adder.add_fields. cbv zeta.
  set (ma1 := if negb (ea =? 0) then Z.lor ma (Z.shiftl 1 m) else ma).
  set (mb1 := if negb (eb =? 0) then Z.lor mb (Z.shiftl 1 m) else mb).
  destruct (Z.gtb_spec ea eb) as [H1 | H1];
    destruct (Z.gtb_spec eb ea) as [H2 | H2]; try lia; cbv iota beta.
  - now rewrite Z.add_comm.
  - now rewrite Z.add_comm.
  - assert (ea = eb) by lia. subst eb. now rewrite Z.add_comm.
Qed.

(** X11. Addition of two patterns commutes, except when both operands
    are zeros of different sign: a zero on the left returns the right
    operand, so the sum of two zeros is whichever zero came second. *)
Theorem X11_fp_add_comm (fmt : string) (e m bias a b : Z) :
  In fmt format_names ->
  FP8_Codec._get_format_params fmt = Ok (e, m, bias) ->
  0 <= a <= 255 -> 0 <= b <= 255 ->
  (class_of_fields e (exp_field e m a) (mant_field m a) = "zero" /\
   class_of_fields e (exp_field e m b) (mant_field m b) = "zero" ->
   fp_add fmt (bits a) (bits b) = Ok (bits b) /\
   fp_add fmt (bits b) (bits a) = Ok (bits a)) /\
  (class_of_fields e (exp_field e m a) (mant_field m a) <> "zero" \/
   class_of_fields e (exp_field e m b) (mant_field m b) <> "zero" ->
   fp_add fmt (bits a) (bits b) = fp_add fmt (bits b) (bits a)).
Proof.
  intros Hf Hpar Ha Hb.
  destruct (format_sizes fmt e m bias Hf Hpar)
    as (Hm1 & Hmax & _ & _ & Se & Sm & _).
  destruct (bits_fields fmt a e m bias Hf Ha Hpar) as [Da _].
  destruct (bits_fields fmt b e m bias Hf Hb Hpar) as [Db _].
  rewrite !(fp_add_unfold fmt e m bias _ _ Hpar).
  assert (Hao : Z.shiftl 1 e - 1 <> 0) by lia.
  assert (Hzn : forall M, Adder.is_nan (Z.shiftl 1 e - 1) 0 M = false).
  { intros M. unfold Adder.is_nan.
    now rewrite (proj2 (Z.eqb_neq 0 _) (not_eq_sym Hao)). }
  assert (Hzi : forall M, Adder.is_inf (Z.shiftl 1 e - 1) 0 M = false).
  { intros M. unfold Adder.is_inf.
    now rewrite (proj2 (Z.eqb_neq 0 _) (not_eq_sym Hao)). }
  split.
  - intros [Hza Hzb]. apply class_zero in Hza, Hzb.
    destruct Hza as [Ea Ma], Hzb as [Eb Mb].
    split; unfold Adder.fp_bin_adder; cbn [Adder.e_bits Adder.m_bits];
      cbv zeta; rewrite Da, Db; simpl bind; rewrite Ea, Ma, Eb, Mb;
      rewrite !Hzn, !Hzi; reflexivity.
  - intros Hnz.
    unfold Adder.fp_bin_adder. cbn [Adder.e_bits Adder.m_bits]. cbv zeta.
    rewrite Da, Db. simpl bind.
    set (AO := Z.shiftl 1 e - 1) in *.
    set (ea := exp_field e m a) in *. set (ma := mant_field m a) in *.
    set (eb := exp_field e m b) in *. set (mb := mant_field m b) in *.
    set (sa := sign_field e m a). set (sb := sign_field e m b).
    rewrite (orb_comm (Adder.is_nan AO eb mb)).
    destruct (Adder.is_nan AO ea ma || Adder.is_nan AO eb mb); [reflexivity |].
    rewrite (andb_comm (Adder.is_inf AO eb mb)).
    destruct (Adder.is_inf AO ea ma) eqn:Hia;
      destruct (Adder.is_inf AO eb mb) eqn:Hib; cbn [andb]; try reflexivity.
    + destruct (Z.eqb_spec sa sb) as [E | E].
      * rewrite E, Z.eqb_refl. reflexivity.
      * rewrite (proj2 (Z.eqb_neq sb sa) (not_eq_sym E)). reflexivity.
    + destruct ((ea =? 0) && (ma =? 0)) eqn:Za;
        destruct ((eb =? 0) && (mb =? 0)) eqn:Zb; try reflexivity.
      * exfalso. apply andb_true_iff in Za, Zb.
        destruct Za as [Z1 Z2], Zb as [Z3 Z4]. apply Z.eqb_eq in Z1, Z2, Z3, Z4.
        unfold class_of_fields in Hnz.
        rewrite Z1, Z2, Z3, Z4 in Hnz. simpl in Hnz.
        destruct Hnz as [N | N]; now apply N.
      * now rewrite add_fields_comm.
Qed.

Lemma X11_fp_add_comm_witness :
  In "e3m4" format_names /\
  FP8_Codec._get_format_params "e3m4" = Ok (3, 4, 3) /\
  0 <= 0 <= 255 /\ 0 <= 128 <= 255 /\
  (class_of_fields 3 (exp_field 3 4 0) (mant_field 4 0) = "zero" /\
   class_of_fields 3 (exp_field 3 4 128) (mant_field 4 128) = "zero" ->
   fp_add "e3m4" (bits 0) (bits 128) = Ok (bits 128) /\
   fp_add "e3m4" (bits 128) (bits 0) = Ok (bits 0)) /\
  (class_of_fields 3 (exp_field 3 4 0) (mant_field 4 0) <> "zero" \/
   class_of_fields 3 (exp_field 3 4 128) (mant_field 4 128) <> "zero" ->
   fp_add "e3m4" (bits 0) (bits 128) = fp_add "e3m4" (bits 128) (bits 0)).
Proof.
  assert (H1 : In "e3m4" format_names) by (vm_compute; tauto).
  assert (H2 : FP8_Codec._get_format_params "e3m4" = Ok (3, 4, 3))
    by reflexivity.
  assert (H3 : 0 <= 0 <= 255) by lia.
  assert (H4 : 0 <= 128 <= 255) by lia.
  exact (conj H1 (conj H2 (conj H3 (conj H4
           (X11_fp_add_comm "e3m4" 3 4 3 0 128 H1 H2 H3 H4))))).
Defined.

Lemma add_fields_cancel (e m sa sb E M : Z) :
  (sa = 0 \/ sa = 1) -> (sb = 0 \/ sb = 1) -> sa <> sb ->
  Adder.add_fields e m sa E M sb E M
    = "0" ++ Py.str_mul "0" e ++ Py.str_mul "0" m.
Proof.
  intros Hsa Hsb Hne. unfold Adder.add_fields. cbv zeta.
  rewrite (Z.gtb_ltb E E), Z.ltb_irrefl.
  set (M1 := if negb (E =? 0) then Z.lor M (Z.shiftl 1 m) else M).
  assert (Hz : (if negb (sa =? 0) then - M1 else M1)
               + (if negb (sb =? 0) then - M1 else M1) = 0).
  { destruct Hsa as [-> | ->], Hsb as [-> | ->]; try congruence; simpl; lia. }
  rewrite Hz. reflexivity.
Qed.

(** X12. A finite non-zero pattern plus the pattern that differs from it
    in the sign bit alone is the all-zero string, positive zero, whichever
    operand comes first. *)
Theorem X12_fp_add_opposite_cancels (fmt : string) (e m bias a b : Z) :
  In fmt format_names ->
  FP8_Codec._get_format_params fmt = Ok (e, m, bias) ->
  0 <= a <= 255 -> 0 <= b <= 255 ->
  exp_field e m a = exp_field e m b ->
  mant_field m a = mant_field m b ->
  sign_field e m a <> sign_field e m b ->
  class_of_fields e (exp_field e m a) (mant_field m a) = "normalized" \/
  class_of_fields e (exp_field e m a) (mant_field m a) = "denormalized" ->
  fp_add fmt (bits a) (bits b) = Ok (bits 0).
Proof.
  intros Hf Hpar Ha Hb HE HM HS Hc.
  destruct (format_sizes fmt e m bias Hf Hpar)
    as (Hm1 & Hmax & _ & _ & Se & Sm & _).
  destruct (bits_fields fmt a e m bias Hf Ha Hpar) as [Da _].
  destruct (bits_fields fmt b e m bias Hf Hb Hpar) as [Db _].
  destruct (rebuild fmt e m bias a Hf Ha Hpar) as (_ & _ & _ & Hsa).
  destruct (rebuild fmt e m bias b Hf Hb Hpar) as (_ & _ & _ & Hsb).
  destruct (special_bits fmt e m bias false Hf Hpar) as (_ & Hz & _).
  destruct (class_number e _ _ ltac:(lia) Hc) as (Hn & Hi & Hzero).
  rewrite (fp_add_unfold fmt e m bias _ _ Hpar).
  unfold Adder.fp_bin_adder. cbn [Adder.e_bits Adder.m_bits]. cbv zeta.
  rewrite Da, Db. simpl bind. rewrite <- HE, <- HM, Hn, Hi, Hzero. cbn [orb andb].
  rewrite (add_fields_cancel e m _ _ _ _ Hsa Hsb HS).
  change ("0" ++ Py.str_mul "0" e ++ Py.str_mul "0" m)
    with (sign_bit_of false ++ Py.str_mul "0" e ++ Py.str_mul "0" m).
  rewrite Hz.
  unfold pattern_of. now rewrite Z.mul_0_l.
Qed.

Lemma X12_fp_add_opposite_cancels_witness :
  In "e4m3" format_names /\
  FP8_Codec._get_format_params "e4m3" = Ok (4, 3, 7) /\
  0 <= 61 <= 255 /\ 0 <= 189 <= 255 /\
  exp_field 4 3 61 = exp_field 4 3 189 /\
  mant_field 3 61 = mant_field 3 189 /\
  sign_field 4 3 61 <> sign_field 4 3 189 /\
  (class_of_fields 4 (exp_field 4 3 61) (mant_field 3 61) = "normalized" \/
   class_of_fields 4 (exp_field 4 3 61) (mant_field 3 61) = "denormalized") /\
  fp_add "e4m3" (bits 61) (bits 189) = Ok (bits 0).
Proof.
  assert (H1 : In "e4m3" format_names) by (vm_compute; tauto).
  assert (H2 : FP8_Codec._get_format_params "e4m3" = Ok (4, 3, 7))
    by reflexivity.
  assert (H3 : 0 <= 61 <= 255) by lia.
  assert (H4 : 0 <= 189 <= 255) by lia.
  assert (H5 : exp_field 4 3 61 = exp_field 4 3 189) by reflexivity.
  assert (H6 : mant_field 3 61 = mant_field 3 189) by reflexivity.
  assert (H7 : sign_field 4 3 61 <> sign_field 4 3 189)
    by (vm_compute; discriminate).
  assert (H8 : class_of_fields 4 (exp_field 4 3 61) (mant_field 3 61)
                 = "normalized" \/
               class_of_fields 4 (exp_field 4 3 61) (mant_field 3 61)
                 = "denormalized") by (left; reflexivity).
  exact (conj H1 (conj H2 (conj H3 (conj H4 (conj H5 (conj H6 (conj H7 (conj H8
           (X12_fp_add_opposite_cancels "e4m3" 4 3 7 61 189
              H1 H2 H3 H4 H5 H6 H7 H8))))))))).
Defined.

(** X13. An infinity absorbs every finite operand: the sum of an infinite
    pattern and a pattern that is neither infinite nor NaN is the infinite
    pattern itself, in either order. *)
Theorem X13_fp_add_infinity_absorbs (fmt : string) (e m bias a b : Z) :
  In fmt format_names ->
  FP8_Codec._get_format_params fmt = Ok (e, m, bias) ->
  0 <= a <= 255 -> 0 <= b <= 255 ->
  class_of_fields e (exp_field e m a) (mant_field m a) = "infinity" ->
  exp_field e m b <> Z.shiftl 1 e - 1 ->
  fp_add fmt (bits a) (bits b) = Ok (bits a) /\
  fp_add fmt (bits b) (bits a) = Ok (bits a).
Proof.
  intros Hf Hpar Ha Hb Hc Hfin.
  destruct (format_sizes fmt e m bias Hf Hpar)
    as (Hm1 & Hmax & _ & _ & Se & Sm & _).
  destruct (bits_fields fmt a e m bias Hf Ha Hpar) as [Da _].
  destruct (bits_fields fmt b e m bias Hf Hb Hpar) as [Db _].
  destruct (rebuild fmt e m bias a Hf Ha Hpar) as (Ra & _ & _ & Hsa).
  pose proof (class_infinity e _ _ Hc) as Hia.
  assert (Hfields : exp_field e m a = Z.shiftl 1 e - 1 /\ mant_field m a = 0).
  { unfold Adder.is_inf in Hia. apply andb_true_iff in Hia.
    destruct Hia as [H1 H2]. now rewrite Z.eqb_eq in H1, H2. }
  destruct Hfields as [Ea Ma].
  assert (Hna : Adder.is_nan (Z.shiftl 1 e - 1) (exp_field e m a)
                  (mant_field m a) = false).
  { unfold Adder.is_nan. rewrite Ma. now rewrite andb_false_r. }
  assert (Hnb : Adder.is_nan (Z.shiftl 1 e - 1) (exp_field e m b)
                  (mant_field m b) = false).
  { unfold Adder.is_nan. now rewrite (proj2 (Z.eqb_neq _ _) Hfin). }
  assert (Hib : Adder.is_inf (Z.shiftl 1 e - 1) (exp_field e m b)
                  (mant_field m b) = false).
  { unfold Adder.is_inf. now rewrite (proj2 (Z.eqb_neq _ _) Hfin). }
  assert (Hinf : Adder.inf_bits e m (sign_field e m a) = bits a).
  { destruct (adder_strings fmt e m bias (sign_field e m a =? 1) Hf Hpar)
      as (_ & _ & _ & Z4 & _).
    destruct (special_bits fmt e m bias (sign_field e m a =? 1) Hf Hpar)
      as (Hi & _).
    unfold Adder.inf_bits.
    replace (sign_field e m a)
      with (if sign_field e m a =? 1 then 1 else 0) at 1
      by (destruct Hsa as [-> | ->]; reflexivity).
    rewrite Z4, Hi. f_equal. rewrite <- Ra at 2. now rewrite Ea, Ma. }
  rewrite !(fp_add_unfold fmt e m bias _ _ Hpar).
  unfold Adder.fp_bin_adder. cbn [Adder.e_bits Adder.m_bits]. cbv zeta.
  rewrite Da, Db. simpl bind. rewrite Hna, Hnb, Hia, Hib. cbn [orb andb].
  now rewrite Hinf.
Qed.

Lemma X13_fp_add_infinity_absorbs_witness :
  In "e5m2" format_names /\
  FP8_Codec._get_format_params "e5m2" = Ok (5, 2, 15) /\
  0 <= 252 <= 255 /\ 0 <= 123 <= 255 /\
  class_of_fields 5 (exp_field 5 2 252) (mant_field 2 252) = "infinity" /\
  exp_field 5 2 123 <> Z.shiftl 1 5 - 1 /\
  fp_add "e5m2" (bits 252) (bits 123) = Ok (bits 252) /\
  fp_add "e5m2" (bits 123) (bits 252) = Ok (bits 252).
Proof.
  assert (H1 : In "e5m2" format_names) by (vm_compute; tauto).
  assert (H2 : FP8_Codec._get_format_params "e5m2" = Ok (5, 2, 15))
    by reflexivity.
  assert (H3 : 0 <= 252 <= 255) by lia.
  assert (H4 : 0 <= 123 <= 255) by lia.
  assert (H5 : class_of_fields 5 (exp_field 5 2 252) (mant_field 2 252)
                 = "infinity") by reflexivity.
  assert (H6 : exp_field 5 2 123 <> Z.shiftl 1 5 - 1)
    by (vm_compute; discriminate).
  exact (conj H1 (conj H2 (conj H3 (conj H4 (conj H5 (conj H6
           (X13_fp_add_infinity_absorbs "e5m2" 5 2 15 252 123
              H1 H2 H3 H4 H5 H6))))))).
Defined.

(** X14. The sum of a finite pattern with itself.  A normalized operand
    moves to the next exponent, and from the top binade to the infinity of
    its sign; a denormal whose top mantissa bit is clear has its mantissa
    doubled; a denormal whose top mantissa bit is set comes back unchanged,
    so that there [a + a = a]. *)
Theorem X14_fp_add_doubling (fmt : string) (e m bias p : Z) :
  In fmt format_names ->
  FP8_Codec._get_format_params fmt = Ok (e, m, bias) ->
  0 <= p <= 255 ->
  exp_field e m p <> Z.shiftl 1 e - 1 ->
  fp_add fmt (bits p) (bits p) = Ok (bits (doubled_pattern e m p)) /\
  (exp_field e m p = 0 -> 2 ^ (m - 1) <= mant_field m p ->
   fp_add fmt (bits p) (bits p) = Ok (bits p)).
Proof.
  intros Hf Hpar Hp Hfin.
  assert (C : double_check fmt p = true).
  { apply forall_formats_patterns;
      [vm_cast_no_check (eq_refl true) | exact Hf | exact Hp]. }
  unfold double_check in C. rewrite Hpar in C.
  rewrite (proj2 (Z.eqb_neq _ _) Hfin) in C.
  destruct (fp_add fmt (bits p) (bits p)) as [r |]; [| discriminate].
  apply String.eqb_eq in C. subst r. split; [reflexivity |].
  intros HE HM. unfold doubled_pattern. rewrite HE. cbn [Z.eqb].
  now rewrite (proj2 (Z.ltb_ge _ _) HM).
Qed.

Lemma X14_fp_add_doubling_witness :
  In "e3m4" format_names /\
  FP8_Codec._get_format_params "e3m4" = Ok (3, 4, 3) /\
  0 <= 8 <= 255 /\
  exp_field 3 4 8 <> Z.shiftl 1 3 - 1 /\
  fp_add "e3m4" (bits 8) (bits 8) = Ok (bits (doubled_pattern 3 4 8)) /\
  (exp_field 3 4 8 = 0 -> 2 ^ (4 - 1) <= mant_field 4 8 ->
   fp_add "e3m4" (bits 8) (bits 8) = Ok (bits 8)).
Proof.
  assert (H1 : In "e3m4" format_names) by (vm_compute; tauto).
  assert (H2 : FP8_Codec._get_format_params "e3m4" = Ok (3, 4, 3))
    by reflexivity.
  assert (H3 : 0 <= 8 <= 255) by lia.
  assert (H4 : exp_field 3 4 8 <> Z.shiftl 1 3 - 1)
    by (vm_compute; discriminate).
  exact (conj H1 (conj H2 (conj H3 (conj H4
           (X14_fp_add_doubling "e3m4" 3 4 3 8 H1 H2 H3 H4))))).
Defined.

(** ** The multiplier on patterns *)

Lemma sign_char (fmt : string) (bo : bool) (p e m bias : Z) :
  In fmt format_names -> 0 <= p <= 255 ->
  FP8_Codec._get_format_params fmt = Ok (e, m, bias) ->
  forall s ex mn,
    Multiplier._unpakcing (Multiplier.mk fmt e m bias (Adder.mk fmt e m) bo)
      (bits p) = Ok (s, ex, mn) ->
    String.eqb s "0" = (sign_field e m p =? 0).
Proof.
  intros Hf Hp Hpar s ex mn Hu.
  assert (C : sign_char_check fmt p = true).
  { apply forall_formats_patterns;
      [vm_cast_no_check (eq_refl true) | exact Hf | exact Hp]. }
  unfold sign_char_check in C. rewrite Hpar in C. cbv zeta in C.
  change (Multiplier._unpakcing
            (Multiplier.mk fmt e m bias (Adder.mk fmt e m) false) (bits p))
    with (Multiplier._unpakcing
            (Multiplier.mk fmt e m bias (Adder.mk fmt e m) bo) (bits p)) in C.
  rewrite Hu in C. now apply Bool.eqb_prop in C.
Qed.

Lemma finite_unpacked (fmt : string) (p e m bias : Z) (q : Q) :
  In fmt format_names -> 0 <= p <= 255 ->
  FP8_Codec._get_format_params fmt = Ok (e, m, bias) ->
  finite_value fmt p = Some q -> (q == unpacked_value e m bias p)%Q.
Proof.
  intros Hf Hp Hpar Hq. unfold unpacked_value.
  exact (operand_value fmt p e m bias q Hf Hp Hpar Hq).
Qed.

(** The real-valued product is computed from the fields alone. *)
Lemma multiply_fields (fmt : string) (a b e m bias : Z) :
  In fmt format_names -> 0 <= a <= 255 -> 0 <= b <= 255 ->
  FP8_Codec._get_format_params fmt = Ok (e, m, bias) ->
  exists v,
    multiply_exact fmt false (bits a) (bits b) = Ok (VFloat v) /\
    value_is v (unpacked_value e m bias a * unpacked_value e m bias b).
Proof.
  intros Hf Ha Hb Hpar.
  destruct (unpack_fields fmt false a e m bias Hf Ha Hpar)
    as (s1 & ex1 & mn1 & x1 & Ua & Sa & Ea & Fa).
  destruct (unpack_fields fmt false b e m bias Hf Hb Hpar)
    as (s2 & ex2 & mn2 & y1 & Ub & Sb & Eb & Fb).
  eexists.
  unfold multiply_exact, Multiplier.__init__, Adder.__init__.
  rewrite Hpar. cbn [bind].
  unfold Multiplier.multiply. rewrite Ua, Ub. cbn [bind].
  rewrite Sa, Sb. cbn [bind]. rewrite Ea, Eb. cbn [bind].
  unfold Multiplier.finish. cbn [Multiplier.bin_output].
  split; [reflexivity |].
  eapply value_is_eq; [apply (value_is_signed e m a b); reflexivity |].
  unfold unpacked_value. rewrite sign_xor_factor, Fa, Fb.
  rewrite Qpower_plus by discriminate. ring.
Qed.

(** X15. With real output, [multiply] of two patterns that decode to the
    finite numbers [qa] and [qb] is exactly [qa * qb]: the multiplier's
    own reading of the fields agrees with [decode]. *)
Theorem X15_multiply_real_product (fmt : string) (a b : Z) (qa qb : Q) :
  In fmt format_names -> 0 <= a <= 255 -> 0 <= b <= 255 ->
  finite_value fmt a = Some qa -> finite_value fmt b = Some qb ->
  exists v,
    multiply_exact fmt false (bits a) (bits b) = Ok (VFloat v) /\
    value_is v (qa * qb).
Proof.
  intros Hf Ha Hb Hqa Hqb.
  destruct (format_params fmt Hf) as (e & m & bias & Hpar & _).
  destruct (multiply_fields fmt a b e m bias Hf Ha Hb Hpar) as (v & Hv & Hval).
  exists v. split; [exact Hv |].
  eapply value_is_eq; [exact Hval |].
  rewrite <- (finite_unpacked fmt a e m bias qa Hf Ha Hpar Hqa).
  rewrite <- (finite_unpacked fmt b e m bias qb Hf Hb Hpar Hqb).
  reflexivity.
Qed.

Lemma X15_multiply_real_product_witness :
  In "e4m3" format_names /\ 0 <= 60 <= 255 /\ 0 <= 131 <= 255 /\
  finite_value "e4m3" 60 = Some (12 # 8) /\
  finite_value "e4m3" 131 = Some (- 3 # 512) /\
  exists v,
    multiply_exact "e4m3" false (bits 60) (bits 131) = Ok (VFloat v) /\
    value_is v ((12 # 8) * (- 3 # 512)).
Proof.
  assert (H1 : In "e4m3" format_names) by (vm_compute; tauto).
  assert (H2 : 0 <= 60 <= 255) by lia.
  assert (H3 : 0 <= 131 <= 255) by lia.
  assert (H4 : finite_value "e4m3" 60 = Some (12 # 8)) by (vm_compute; reflexivity).
  assert (H5 : finite_value "e4m3" 131 = Some (- 3 # 512))
    by (vm_compute; reflexivity).
  exact (conj H1 (conj H2 (conj H3 (conj H4 (conj H5
           (X15_multiply_real_product "e4m3" 60 131 (12 # 8) (- 3 # 512)
              H1 H2 H3 H4 H5)))))).
Defined.

Lemma decimal_operand (e m bias p : Z) (s : string) (x1 : Q) :
  String.eqb s "0" = (sign_field e m p =? 0) ->
  (x1 == unpacked_fraction e m p)%Q ->
  ((if String.eqb s "0"
    then (1 + x1) * Qpower 2 (unpacked_exponent e m bias p)
    else inject_Z (-1) * (1 + x1) * Qpower 2 (unpacked_exponent e m bias p))
   == unpacked_value e m bias p)%Q.
Proof.
  intros Hs Hx. rewrite Hs. unfold unpacked_value.
  destruct (sign_field_bit e m p) as [-> | ->]; simpl Z.eqb; cbv iota;
    rewrite Hx.
  - change (Qpower (inject_Z (-1)) 0) with 1%Q. ring.
  - change (Qpower (inject_Z (-1)) 1) with (inject_Z (-1)). ring.
Qed.

(** X16. [decimal] returns, for two patterns that decode to finite
    numbers, exactly the two decoded values. *)
Theorem X16_decimal_decodes (fmt : string) (bin_output : bool)
    (a b : Z) (qa qb : Q) :
  In fmt format_names -> 0 <= a <= 255 -> 0 <= b <= 255 ->
  finite_value fmt a = Some qa -> finite_value fmt b = Some qb ->
  exists self da db,
    Multiplier.__init__ fmt bin_output = Ok self /\
    Multiplier.decimal self (bits a) (bits b) = Ok (da, db) /\
    (da == qa)%Q /\ (db == qb)%Q.
Proof.
  intros Hf Ha Hb Hqa Hqb.
  destruct (format_params fmt Hf) as (e & m & bias & Hpar & _).
  destruct (unpack_fields fmt bin_output a e m bias Hf Ha Hpar)
    as (s1 & ex1 & mn1 & x1 & Ua & Sa & Ea & Fa).
  destruct (unpack_fields fmt bin_output b e m bias Hf Hb Hpar)
    as (s2 & ex2 & mn2 & y1 & Ub & Sb & Eb & Fb).
  pose proof (sign_char fmt bin_output a e m bias Hf Ha Hpar _ _ _ Ua) as Ca.
  pose proof (sign_char fmt bin_output b e m bias Hf Hb Hpar _ _ _ Ub) as Cb.
  eexists. eexists. eexists.
  unfold Multiplier.__init__, Adder.__init__. rewrite Hpar. cbn [bind].
  split; [reflexivity |].
  unfold Multiplier.decimal. rewrite Ua, Ub. cbn [bind].
  rewrite Ea, Eb. cbn [bind].
  split; [reflexivity |]. split.
  - rewrite (decimal_operand e m bias a s1 x1 Ca Fa).
    symmetry. exact (finite_unpacked fmt a e m bias qa Hf Ha Hpar Hqa).
  - rewrite (decimal_operand e m bias b s2 y1 Cb Fb).
    symmetry. exact (finite_unpacked fmt b e m bias qb Hf Hb Hpar Hqb).
Qed.

Lemma X16_decimal_decodes_witness :
  In "e4m3" format_names /\ 0 <= 60 <= 255 /\ 0 <= 131 <= 255 /\
  finite_value "e4m3" 60 = Some (12 # 8) /\
  finite_value "e4m3" 131 = Some (- 3 # 512) /\
  exists self da db,
    Multiplier.__init__ "e4m3" false = Ok self /\
    Multiplier.decimal self (bits 60) (bits 131) = Ok (da, db) /\
    (da == 12 # 8)%Q /\ (db == - 3 # 512)%Q.
Proof.
  assert (H1 : In "e4m3" format_names) by (vm_compute; tauto).
  assert (H2 : 0 <= 60 <= 255) by lia.
  assert (H3 : 0 <= 131 <= 255) by lia.
  assert (H4 : finite_value "e4m3" 60 = Some (12 # 8)) by (vm_compute; reflexivity).
  assert (H5 : finite_value "e4m3" 131 = Some (- 3 # 512))
    by (vm_compute; reflexivity).
  exact (conj H1 (conj H2 (conj H3 (conj H4 (conj H5
           (X16_decimal_decodes "e4m3" false 60 131 (12 # 8) (- 3 # 512)
              H1 H2 H3 H4 H5)))))).
Defined.

(** The real-valued L-Mul result is computed from the fields alone. *)
Lemma lmul_fields (fmt : string) (a b e m bias : Z) :
  In fmt format_names -> 0 <= a <= 255 -> 0 <= b <= 255 ->
  FP8_Codec._get_format_params fmt = Ok (e, m, bias) ->
  exists v,
    multiply_lmul fmt false (bits a) (bits b) = Ok (VFloat v) /\
    value_is v (lmul_formula e m bias a b).
Proof.
  intros Hf Ha Hb Hpar.
  destruct (unpack_fields fmt false a e m bias Hf Ha Hpar)
    as (s1 & ex1 & mn1 & x1 & Ua & Sa & Ea & Fa).
  destruct (unpack_fields fmt false b e m bias Hf Hb Hpar)
    as (s2 & ex2 & mn2 & y1 & Ub & Sb & Eb & Fb).
  eexists.
  unfold multiply_lmul, Multiplier.__init__, Adder.__init__.
  rewrite Hpar. cbn [bind].
  unfold Multiplier.L_Mul. rewrite Ua, Ub. cbn [bind].
  rewrite Sa, Sb. cbn [bind]. rewrite Ea, Eb. cbn [bind].
  unfold Multiplier.finish. cbn [Multiplier.bin_output Multiplier.mant_bits].
  split; [reflexivity |].
  unfold lmul_formula.
  eapply value_is_eq; [| apply Qmult_assoc].
  apply value_is_signed. fold (lm_of m). now rewrite Fa, Fb.
Qed.

Lemma sign_power_cases (s : Z) :
  s = 0 \/ s = 1 ->
  (Qpower (inject_Z (-1)) s == 1)%Q \/ (Qpower (inject_Z (-1)) s == - (1))%Q.
Proof.
  intros [-> | ->]; [left | right]; reflexivity.
Qed.

Lemma sign_xor_bit (e m a b : Z) : sign_xor e m a b = 0 \/ sign_xor e m a b = 1.
Proof.
  unfold sign_xor.
  destruct (sign_field_bit e m a) as [-> | ->];
    destruct (sign_field_bit e m b) as [-> | ->]; simpl; auto.
Qed.

(** An approximation [S * A * P] of [S * B * P], for a sign [S] and a
    positive scale [P], errs relative to it as [A] does relative to [B]. *)
Lemma scaled_relative_error (S A B P c x y : Q) :
  (S == 1 \/ S == - (1))%Q -> (0 < P)%Q -> (0 <= B)%Q ->
  (x == S * A * P)%Q -> (y == S * B * P)%Q ->
  (Qabs (A - B) <= c * B)%Q ->
  (Qabs (x - y) <= c * Qabs y)%Q.
Proof.
  intros HS HP HB Hx Hy Hc.
  assert (E1 : (x - y == S * ((A - B) * P))%Q) by (rewrite Hx, Hy; ring).
  assert (E2 : (y == S * (B * P))%Q) by (rewrite Hy; ring).
  assert (HSabs : (Qabs S == 1)%Q).
  { destruct HS as [-> | ->]; reflexivity. }
  rewrite E1, E2, !Qabs_Qmult, HSabs, !Qmult_1_l.
  rewrite (Qabs_pos P) by lra. rewrite (Qabs_pos B) by exact HB.
  rewrite Qmult_assoc. apply Qmult_le_compat_r; [exact Hc | lra].
Qed.

Lemma normalized_fraction (fmt : string) (e m bias p : Z) :
  In fmt format_names -> 0 <= p <= 255 ->
  FP8_Codec._get_format_params fmt = Ok (e, m, bias) ->
  exp_field e m p <> 0 ->
  (0 <= unpacked_fraction e m p)%Q /\ (unpacked_fraction e m p < 1)%Q /\
  unpacked_exponent e m bias p = exp_field e m p - bias /\
  (unpacked_fraction e m p
   == inject_Z (mant_field m p) / inject_Z (2 ^ m))%Q.
Proof.
  intros Hf Hp Hpar HE.
  destruct (rebuild fmt e m bias p Hf Hp Hpar) as (_ & _ & HM & _).
  destruct (format_sizes fmt e m bias Hf Hpar) as (Hm1 & _).
  pose proof (Z.pow_pos_nonneg 2 m ltac:(lia) ltac:(lia)) as Hpow.
  assert (Hd : (0 < inject_Z (2 ^ m))%Q).
  { change 0%Q with (inject_Z 0). rewrite <- Zlt_Qlt. exact Hpow. }
  unfold unpacked_fraction, unpacked_exponent.
  rewrite (proj2 (Z.eqb_neq _ _) HE).
  assert (H0 : (0 <= inject_Z (mant_field m p))%Q).
  { change 0%Q with (inject_Z 0). rewrite <- Zle_Qle. lia. }
  assert (H1 : (inject_Z (mant_field m p) < inject_Z (2 ^ m))%Q).
  { rewrite <- Zlt_Qlt. lia. }
  repeat split.
  - rewrite Qplus_0_l. apply Qle_shift_div_l; [exact Hd | lra].
  - rewrite Qplus_0_l. apply Qlt_shift_div_r; [exact Hd | lra].
  - ring.
Qed.

Lemma class_normalized (e ex mn : Z) :
  class_of_fields e ex mn = "normalized" -> ex <> 0 /\ ex <> Z.shiftl 1 e - 1.
Proof.
  unfold class_of_fields.
  destruct (Z.eqb_spec ex 0); [destruct (mn =? 0); discriminate |].
  destruct (Z.eqb_spec ex (Z.shiftl 1 e - 1));
    [destruct (mn =? 0); discriminate | auto].
Qed.

Lemma lm_power (fmt : string) (e m bias : Z) :
  In fmt format_names ->
  FP8_Codec._get_format_params fmt = Ok (e, m, bias) ->
  (0 < Qpower 2 (- lm_of m))%Q /\ (Qpower 2 (- lm_of m) <= 1 # 4)%Q.
Proof.
  intros Hf Hpar.
  destruct (format_params fmt Hf) as (e' & m' & bias' & Hpar' & Hin).
  rewrite Hpar in Hpar'. injection Hpar' as <- <- <-.
  destruct Hin as [[= <- <- <-] | [[= <- <- <-] | [[= <- <- <-] | [[= <- <- <-] | []]]]];
    vm_compute; split; congruence.
Qed.

(** X17. For two normalized operands the real-valued L-Mul result is
    within a quarter of the exact product of the decoded values. *)
Theorem X17_lmul_relative_error (fmt : string) (e m bias a b : Z) (qa qb : Q) :
  In fmt format_names ->
  FP8_Codec._get_format_params fmt = Ok (e, m, bias) ->
  0 <= a <= 255 -> 0 <= b <= 255 ->
  class_of_fields e (exp_field e m a) (mant_field m a) = "normalized" ->
  class_of_fields e (exp_field e m b) (mant_field m b) = "normalized" ->
  finite_value fmt a = Some qa -> finite_value fmt b = Some qb ->
  exists v r,
    multiply_lmul fmt false (bits a) (bits b) = Ok (VFloat v) /\
    real_of v = Some r /\
    (Qabs (r - qa * qb) <= (1 # 4) * Qabs (qa * qb))%Q.
Proof.
  intros Hf Hpar Ha Hb Hca Hcb Hqa Hqb.
  destruct (lmul_fields fmt a b e m bias Hf Ha Hb Hpar) as (v & Hv & Hval).
  apply class_normalized in Hca, Hcb.
  destruct (normalized_fraction fmt e m bias a Hf Ha Hpar (proj1 Hca))
    as (Fa0 & Fa1 & _).
  destruct (normalized_fraction fmt e m bias b Hf Hb Hpar (proj1 Hcb))
    as (Fb0 & Fb1 & _).
  destruct (lm_power fmt e m bias Hf Hpar) as [T0 T1].
  pose proof (finite_unpacked fmt a e m bias qa Hf Ha Hpar Hqa) as Va.
  pose proof (finite_unpacked fmt b e m bias qb Hf Hb Hpar Hqb) as Vb.
  unfold value_is in Hval. destruct (real_of v) as [r |] eqn:Hr; [| tauto].
  exists v, r. split; [exact Hv |]. split; [exact Hr |].
  set (fa := unpacked_fraction e m a) in *.
  set (fb := unpacked_fraction e m b) in *.
  set (t := Qpower 2 (- lm_of m)) in *.
  apply (scaled_relative_error
           (Qpower (inject_Z (-1)) (sign_xor e m a b))
           (1 + fa + fb + t) ((1 + fa) * (1 + fb))
           (Qpower 2 (unpacked_exponent e m bias a + unpacked_exponent e m bias b))).
  - apply sign_power_cases, sign_xor_bit.
  - apply Qpower_0_lt. reflexivity.
  - nra.
  - rewrite Hval. unfold lmul_formula. fold fa fb t. reflexivity.
  - rewrite Va, Vb. unfold unpacked_value. fold fa fb.
    rewrite sign_xor_factor, Qpower_plus by discriminate. ring.
  - apply Qabs_Qle_condition. split; nra.
Qed.

Lemma X17_lmul_relative_error_witness :
  In "e4m3" format_names /\
  FP8_Codec._get_format_params "e4m3" = Ok (4, 3, 7) /\
  0 <= 60 <= 255 /\ 0 <= 201 <= 255 /\
  class_of_fields 4 (exp_field 4 3 60) (mant_field 3 60) = "normalized" /\
  class_of_fields 4 (exp_field 4 3 201) (mant_field 3 201) = "normalized" /\
  finite_value "e4m3" 60 = Some (12 # 8) /\
  finite_value "e4m3" 201 = Some (- 36 # 8) /\
  exists v r,
    multiply_lmul "e4m3" false (bits 60) (bits 201) = Ok (VFloat v) /\
    real_of v = Some r /\
    (Qabs (r - (12 # 8) * (- 36 # 8)) <= (1 # 4) * Qabs ((12 # 8) * (- 36 # 8)))%Q.
Proof.
  assert (H1 : In "e4m3" format_names) by (vm_compute; tauto).
  assert (H2 : FP8_Codec._get_format_params "e4m3" = Ok (4, 3, 7))
    by reflexivity.
  assert (H3 : 0 <= 60 <= 255) by lia.
  assert (H4 : 0 <= 201 <= 255) by lia.
  assert (H5 : class_of_fields 4 (exp_field 4 3 60) (mant_field 3 60)
                 = "normalized") by reflexivity.
  assert (H6 : class_of_fields 4 (exp_field 4 3 201) (mant_field 3 201)
                 = "normalized") by reflexivity.
  assert (H7 : finite_value "e4m3" 60 = Some (12 # 8))
    by (vm_compute; reflexivity).
  assert (H8 : finite_value "e4m3" 201 = Some (- 36 # 8))
    by (vm_compute; reflexivity).
  exact (conj H1 (conj H2 (conj H3 (conj H4 (conj H5 (conj H6 (conj H7 (conj H8
           (X17_lmul_relative_error "e4m3" 4 3 7 60 201 (12 # 8) (- 36 # 8)
              H1 H2 H3 H4 H5 H6 H7 H8))))))))).
Defined.

(** X18. L-Mul does not return zero for a zero operand: with a zero
    pattern and a normalized pattern the real-valued result has magnitude
    [(fb + 2^(-lm)) * 2^(1 - bias + eb)], which is positive.  The formula
    starts an all-zero exponent field at fraction -1 and adds the offset
    [2^(-lm)] regardless. *)
Theorem X18_lmul_zero_operand (fmt : string) (e m bias a b : Z) :
  In fmt format_names ->
  FP8_Codec._get_format_params fmt = Ok (e, m, bias) ->
  0 <= a <= 255 -> 0 <= b <= 255 ->
  class_of_fields e (exp_field e m a) (mant_field m a) = "zero" ->
  class_of_fields e (exp_field e m b) (mant_field m b) = "normalized" ->
  exists v r,
    multiply_lmul fmt false (bits a) (bits b) = Ok (VFloat v) /\
    real_of v = Some r /\
    (Qabs r == (inject_Z (mant_field m b) / inject_Z (2 ^ m)
                + Qpower 2 (- lm_of m))
               * Qpower 2 (1 - bias + (exp_field e m b - bias)))%Q /\
    (0 < Qabs r)%Q.
Proof.
  intros Hf Hpar Ha Hb Hca Hcb.
  destruct (lmul_fields fmt a b e m bias Hf Ha Hb Hpar) as (v & Hv & Hval).
  apply class_zero in Hca. destruct Hca as [Ea Ma].
  apply class_normalized in Hcb.
  destruct (normalized_fraction fmt e m bias b Hf Hb Hpar (proj1 Hcb))
    as (Fb0 & Fb1 & Eb & Fb).
  destruct (lm_power fmt e m bias Hf Hpar) as [T0 T1].
  destruct (format_sizes fmt e m bias Hf Hpar) as (Hm1 & _).
  unfold value_is in Hval. destruct (real_of v) as [r |] eqn:Hr; [| tauto].
  exists v, r. split; [exact Hv |]. split; [exact Hr |].
  assert (Fa : (unpacked_fraction e m a == - (1))%Q).
  { unfold unpacked_fraction. rewrite Ea, Ma. simpl Z.eqb. cbv iota.
    change (inject_Z (-1)) with (- (1))%Q.
    assert (Hd : ~ (inject_Z (2 ^ m) == 0)%Q).
    { change 0%Q with (inject_Z 0). rewrite inject_Z_injective.
      pose proof (Z.pow_pos_nonneg 2 m ltac:(lia) ltac:(lia)). lia. }
    change (inject_Z 0) with 0%Q. field. exact Hd. }
  assert (Xa : unpacked_exponent e m bias a = 1 - bias).
  { unfold unpacked_exponent. now rewrite Ea. }
  set (t := Qpower 2 (- lm_of m)) in *.
  set (P := Qpower 2 (1 - bias + (exp_field e m b - bias))).
  assert (HP : (0 < P)%Q) by (apply Qpower_0_lt; reflexivity).
  assert (Hr' : (r == Qpower (inject_Z (-1)) (sign_xor e m a b)
                      * ((unpacked_fraction e m b + t) * P))%Q).
  { rewrite Hval. unfold lmul_formula. rewrite Fa, Xa, Eb. fold t P. ring. }
  assert (Habs : (Qabs r == (unpacked_fraction e m b + t) * P)%Q).
  { rewrite Hr', Qabs_Qmult.
    assert (HS : (Qabs (Qpower (inject_Z (-1)) (sign_xor e m a b)) == 1)%Q).
    { destruct (sign_power_cases _ (sign_xor_bit e m a b)) as [-> | ->];
        reflexivity. }
    rewrite HS, Qmult_1_l. apply Qabs_pos. nra. }
  split.
  - rewrite Habs, Fb. reflexivity.
  - rewrite Habs. nra.
Qed.

Lemma X18_lmul_zero_operand_witness :
  In "e4m3" format_names /\
  FP8_Codec._get_format_params "e4m3" = Ok (4, 3, 7) /\
  0 <= 0 <= 255 /\ 0 <= 60 <= 255 /\
  class_of_fields 4 (exp_field 4 3 0) (mant_field 3 0) = "zero" /\
  class_of_fields 4 (exp_field 4 3 60) (mant_field 3 60) = "normalized" /\
  exists v r,
    multiply_lmul "e4m3" false (bits 0) (bits 60) = Ok (VFloat v) /\
    real_of v = Some r /\
    (Qabs r == (inject_Z (mant_field 3 60) / inject_Z (2 ^ 3)
                + Qpower 2 (- lm_of 3))
               * Qpower 2 (1 - 7 + (exp_field 4 3 60 - 7)))%Q /\
    (0 < Qabs r)%Q.
Proof.
  assert (H1 : In "e4m3" format_names) by (vm_compute; tauto).
  assert (H2 : FP8_Codec._get_format_params "e4m3" = Ok (4, 3, 7))
    by reflexivity.
  assert (H3 : 0 <= 0 <= 255) by lia.
  assert (H4 : 0 <= 60 <= 255) by lia.
  assert (H5 : class_of_fields 4 (exp_field 4 3 0) (mant_field 3 0) = "zero")
    by reflexivity.
  assert (H6 : class_of_fields 4 (exp_field 4 3 60) (mant_field 3 60)
                 = "normalized") by reflexivity.
  exact (conj H1 (conj H2 (conj H3 (conj H4 (conj H5 (conj H6
           (X18_lmul_zero_operand "e4m3" 4 3 7 0 60 H1 H2 H3 H4 H5 H6))))))).
Defined.

(** ** FASA on patterns *)

Lemma lsb_value_inj (x y : string) :
  is_binary x = true -> is_binary y = true ->
  String.length x = String.length y ->
  lsb_value x = lsb_value y -> x = y.
Proof.
  revert y. induction x as [| c x IH]; intros [| d y] Hx Hy Hl Hv;
    try discriminate Hl; [reflexivity |].
  cbn [is_binary] in Hx, Hy. apply andb_true_iff in Hx, Hy.
  destruct Hx as [Hc Hx], Hy as [Hd Hy].
  cbn [lsb_value] in Hv. injection Hl as Hl.
  destruct (is_bit_cases c Hc) as [-> | ->];
    destruct (is_bit_cases d Hd) as [-> | ->];
    change (bit_value "0") with 0 in Hv; change (bit_value "1") with 1 in Hv;
    try lia; f_equal; apply IH; auto; lia.
Qed.

(** Two strings of binary digits of one length that read as the same
    integer are the same string. *)
Lemma binary_unique (x y : string) (v : Z) :
  Py.int_of 2 x = Ok v -> Py.int_of 2 y = Ok v ->
  String.length x = String.length y -> x = y.
Proof.
  intros Hx Hy Hl.
  apply int_of_2_spec in Hx, Hy.
  destruct Hx as (_ & Bx & Vx), Hy as (_ & By & Vy).
  rewrite <- (reverse_involutive x), <- (reverse_involutive y). f_equal.
  apply lsb_value_inj.
  - now rewrite is_binary_reverse.
  - now rewrite is_binary_reverse.
  - now rewrite !reverse_length.
  - congruence.
Qed.

Lemma int_of_2_bits (p : Z) : 0 <= p <= 255 -> Py.int_of 2 (bits p) = Ok p.
Proof.
  intros Hp.
  assert (Hf : In "e4m3" format_names) by (vm_compute; tauto).
  exact (proj2 (bits_fields "e4m3" p 4 3 7 Hf Hp eq_refl)).
Qed.

(** The sum string, right-aligned in eight characters, is the pattern of
    the sum. *)
Lemma rjust_sum (s : string) (t : Z) :
  0 <= t <= 255 -> Py.int_of 2 s = Ok t ->
  String.length s = 7%nat \/ String.length s = 8%nat ->
  Py.rjust0 8 s = bits t.
Proof.
  intros Ht Hs Hl.
  apply (binary_unique _ _ t); [| now apply int_of_2_bits |].
  - unfold Py.rjust0. destruct Hl as [-> | ->].
    + change (Py.str_mul "0" (8 - Z.of_nat 7)) with "0".
      apply int_of_2_spec in Hs. destruct Hs as (_ & Bs & Vs).
      apply int_of_2_spec. split; [discriminate |]. split.
      * cbn [append is_binary]. now rewrite Bs.
      * change ("0" ++ s) with (String "0" s).
        rewrite reverse_cons, lsb_value_app. cbn [lsb_value].
        change (bit_value "0") with 0. lia.
    + change (Py.str_mul "0" (8 - Z.of_nat 8)) with "". exact Hs.
  - rewrite (bits_length t Ht). unfold Py.rjust0.
    destruct Hl as [E | E]; rewrite str_app_length, E.
    + reflexivity.
    + reflexivity.
Qed.

Lemma fasa_operand (fmt : string) (bo : bool) (p e m bias : Z) :
  In fmt format_names -> 0 <= p <= 255 ->
  FP8_Codec._get_format_params fmt = Ok (e, m, bias) ->
  forall s ex mn,
    Multiplier._unpakcing (Multiplier.mk fmt e m bias (Adder.mk fmt e m) bo)
      (bits p) = Ok (s, ex, mn) ->
    Py.int_of 2 (ex ++ mn) = Ok (Z.land p 127) /\
    String.length (ex ++ mn) = 7%nat.
Proof.
  intros Hf Hp Hpar s ex mn Hu.
  assert (C : fasa_operand_check fmt p = true).
  { apply forall_formats_patterns;
      [vm_cast_no_check (eq_refl true) | exact Hf | exact Hp]. }
  unfold fasa_operand_check in C. rewrite Hpar in C. cbv zeta in C.
  change (Multiplier._unpakcing
            (Multiplier.mk fmt e m bias (Adder.mk fmt e m) false) (bits p))
    with (Multiplier._unpakcing
            (Multiplier.mk fmt e m bias (Adder.mk fmt e m) bo) (bits p)) in C.
  rewrite Hu in C.
  destruct (Py.int_of 2 (ex ++ mn)) as [v |]; [| discriminate].
  apply andb_true_iff in C. destruct C as [C1 C2].
  apply Z.eqb_eq in C1. apply Nat.eqb_eq in C2. now subst v.
Qed.

Lemma fasa_tail (fmt : string) (bo : bool) (t e m bias : Z) :
  In fmt format_names -> 0 <= t <= 255 ->
  FP8_Codec._get_format_params fmt = Ok (e, m, bias) ->
  exists x1,
    Multiplier._em_cul (Multiplier.mk fmt e m bias (Adder.mk fmt e m) bo)
      (Py.slice 0 (e + 1) (bits t)) (Py.slice (e + 1) 8 (bits t))
    = Ok (Z.shiftr t m - bias, x1) /\
    (x1 == inject_Z (Z.land t (Z.shiftl 1 m - 1)) / inject_Z (2 ^ m))%Q.
Proof.
  intros Hf Ht Hpar.
  assert (C : fasa_tail_check fmt t = true).
  { apply forall_formats_patterns;
      [vm_cast_no_check (eq_refl true) | exact Hf | exact Ht]. }
  unfold fasa_tail_check in C. rewrite Hpar in C. cbv zeta in C.
  change (Multiplier._em_cul
            (Multiplier.mk fmt e m bias (Adder.mk fmt e m) false))
    with (Multiplier._em_cul
            (Multiplier.mk fmt e m bias (Adder.mk fmt e m) bo)) in C.
  destruct (Multiplier._em_cul _ _ _) as [[x0 x1] |]; [| discriminate].
  apply andb_true_iff in C. destruct C as [C1 C2].
  apply Z.eqb_eq in C1. apply Qeq_bool_iff in C2. subst x0.
  exists x1. split; [reflexivity | exact C2].
Qed.

Lemma land_127 (p : Z) : 0 <= Z.land p 127 <= 127.
Proof.
  replace (Z.land p 127) with (p mod 128).
  - pose proof (Z.mod_pos_bound p 128 ltac:(lia)). lia.
  - change 127 with (Z.ones 7). now rewrite Z.land_ones by lia.
Qed.

(** FASA up to its last step: the sign and the magnitude handed to the
    output stage. *)
Lemma fasa_finish (fmt : string) (bo : bool) (a b e m bias : Z) :
  In fmt format_names -> 0 <= a <= 255 -> 0 <= b <= 255 ->
  FP8_Codec._get_format_params fmt = Ok (e, m, bias) ->
  exists L,
    multiply_fasa fmt bo (bits a) (bits b)
      = Multiplier.finish (Multiplier.mk fmt e m bias (Adder.mk fmt e m) bo)
          (sign_xor e m a b) L /\
    let sum := Z.land a 127 + Z.land b 127 in
    (L == (1 + inject_Z (Z.land sum (Z.shiftl 1 m - 1)) / inject_Z (2 ^ m))
          * Qpower 2 (Z.shiftr sum m - bias - bias))%Q.
Proof.
  intros Hf Ha Hb Hpar.
  destruct (unpack_fields fmt bo a e m bias Hf Ha Hpar)
    as (s1 & ex1 & mn1 & x1 & Ua & Sa & _).
  destruct (unpack_fields fmt bo b e m bias Hf Hb Hpar)
    as (s2 & ex2 & mn2 & y1 & Ub & Sb & _).
  destruct (fasa_operand fmt bo a e m bias Hf Ha Hpar _ _ _ Ua) as [Ia La].
  destruct (fasa_operand fmt bo b e m bias Hf Hb Hpar _ _ _ Ub) as [Ib Lb].
  pose proof (land_127 a) as Ra. pose proof (land_127 b) as Rb.
  set (t := Z.land a 127 + Z.land b 127).
  assert (Ht : 0 <= t <= 255) by (unfold t; lia).
  destruct (adder_sum (Adder.mk fmt e m) _ _ _ _ Ia Ib) as (s & Hs & Is & Ls).
  rewrite La, Lb in Ls. change (Nat.max 7 7) with 7%nat in Ls.
  pose proof (rjust_sum s t Ht Is Ls) as Hj.
  destruct (fasa_tail fmt bo t e m bias Hf Ht Hpar) as (xy1 & Hem & Hxy).
  eexists.
  unfold multiply_fasa, Multiplier.__init__, Adder.__init__.
  rewrite Hpar. cbn [bind].
  unfold Multiplier.FASA. rewrite Ua, Ub. cbn [bind].
  rewrite Sa, Sb. cbn [bind]. cbn [Multiplier.adder Multiplier.exp_bits].
  rewrite Hs. cbn [bind]. rewrite Hj, Hem. cbn [bind].
  cbn [Multiplier.bias].
  split; [reflexivity |].
  cbv zeta. fold t. now rewrite Hxy.
Qed.

Lemma fasa_fields (fmt : string) (a b e m bias : Z) :
  In fmt format_names -> 0 <= a <= 255 -> 0 <= b <= 255 ->
  FP8_Codec._get_format_params fmt = Ok (e, m, bias) ->
  exists v,
    multiply_fasa fmt false (bits a) (bits b) = Ok (VFloat v) /\
    value_is v (fasa_value e m bias a b).
Proof.
  intros Hf Ha Hb Hpar.
  destruct (fasa_finish fmt false a b e m bias Hf Ha Hb Hpar) as (L & HL & HQ).
  cbv zeta in HQ.
  eexists. rewrite HL. unfold Multiplier.finish. cbn [Multiplier.bin_output].
  split; [reflexivity |].
  unfold fasa_value. cbv zeta.
  eapply value_is_eq; [| apply Qmult_assoc].
  apply value_is_signed. exact HQ.
Qed.

(** X19. With real output, FASA of any two patterns is the number read
    from the integer sum of their low seven bits: the bits above the
    mantissa width as a biased exponent, the bits below as a fraction over
    an implicit one, the bias subtracted twice, the sign the xor of the
    operand signs.  A zero exponent part of the sum is not a denormal. *)
Theorem X19_fasa_value (fmt : string) (e m bias a b : Z) :
  In fmt format_names ->
  FP8_Codec._get_format_params fmt = Ok (e, m, bias) ->
  0 <= a <= 255 -> 0 <= b <= 255 ->
  exists v,
    multiply_fasa fmt false (bits a) (bits b) = Ok (VFloat v) /\
    value_is v (fasa_value e m bias a b).
Proof.
  intros Hf Hpar Ha Hb. exact (fasa_fields fmt a b e m bias Hf Ha Hb Hpar).
Qed.

Lemma X19_fasa_value_witness :
  In "e3m4" format_names /\
  FP8_Codec._get_format_params "e3m4" = Ok (3, 4, 3) /\
  0 <= 1 <= 255 /\ 0 <= 130 <= 255 /\
  exists v,
    multiply_fasa "e3m4" false (bits 1) (bits 130) = Ok (VFloat v) /\
    value_is v (fasa_value 3 4 3 1 130).
Proof.
  assert (H1 : In "e3m4" format_names) by (vm_compute; tauto).
  assert (H2 : FP8_Codec._get_format_params "e3m4" = Ok (3, 4, 3))
    by reflexivity.
  assert (H3 : 0 <= 1 <= 255) by lia.
  assert (H4 : 0 <= 130 <= 255) by lia.
  exact (conj H1 (conj H2 (conj H3 (conj H4
           (X19_fasa_value "e3m4" 3 4 3 1 130 H1 H2 H3 H4))))).
Defined.

Lemma low_bits_fields (fmt : string) (e m bias p : Z) :
  In fmt format_names -> 0 <= p <= 255 ->
  FP8_Codec._get_format_params fmt = Ok (e, m, bias) ->
  Z.land p 127 = exp_field e m p * 2 ^ m + mant_field m p.
Proof.
  intros Hf Hp Hpar.
  destruct (rebuild fmt e m bias p Hf Hp Hpar) as (Rp & HE & HM & _).
  destruct (format_sizes fmt e m bias Hf Hpar)
    as (Hm1 & _ & _ & _ & _ & _ & Hem & He0 & _).
  assert (H128 : 2 ^ e * 2 ^ m = 128).
  { rewrite <- Z.pow_add_r by lia. now rewrite Hem. }
  change 127 with (Z.ones 7). rewrite Z.land_ones by lia.
  change (2 ^ 7) with 128.
  set (E := exp_field e m p) in *. set (M := mant_field m p) in *.
  assert (Hlow : 0 <= E * 2 ^ m + M < 128) by nia.
  unfold pattern_of in Rp.
  destruct (sign_field e m p =? 1).
  - symmetry. apply (Z.mod_unique_pos _ _ 1); lia.
  - symmetry. apply (Z.mod_unique_pos _ _ 0); lia.
Qed.

Lemma scaled_abs_le (S A B P x y : Q) :
  (S == 1 \/ S == - (1))%Q -> (0 < P)%Q -> (0 <= A)%Q -> (A <= B)%Q ->
  (x == S * A * P)%Q -> (y == S * B * P)%Q ->
  (Qabs x <= Qabs y)%Q.
Proof.
  intros HS HP HA HAB Hx Hy.
  assert (HSabs : (Qabs S == 1)%Q).
  { destruct HS as [-> | ->]; reflexivity. }
  rewrite Hx, Hy, !Qabs_Qmult, HSabs, !Qmult_1_l.
  rewrite (Qabs_pos P) by lra. rewrite (Qabs_pos A) by exact HA.
  rewrite (Qabs_pos B) by lra. apply Qmult_le_compat_r; lra.
Qed.

Lemma Qsquare_nonneg (x : Q) : (0 <= x * x)%Q.
Proof.
  destruct (Qlt_le_dec x 0) as [H | H].
  - setoid_replace (x * x)%Q with ((- x) * (- x))%Q by ring.
    apply Qmult_le_0_compat; lra.
  - now apply Qmult_le_0_compat.
Qed.

(** The FASA result for two normalized operands, by the carry out of the
    mantissa sum. *)
Lemma fasa_normalized (fmt : string) (e m bias a b : Z) :
  In fmt format_names ->
  FP8_Codec._get_format_params fmt = Ok (e, m, bias) ->
  0 <= a <= 255 -> 0 <= b <= 255 ->
  exp_field e m a <> 0 -> exp_field e m b <> 0 ->
  let fa := unpacked_fraction e m a in
  let fb := unpacked_fraction e m b in
  let P := Qpower 2 (unpacked_exponent e m bias a + unpacked_exponent e m bias b) in
  let S := Qpower (inject_Z (-1)) (sign_xor e m a b) in
  ((fa + fb < 1)%Q /\ (fasa_value e m bias a b == S * (1 + fa + fb) * P)%Q) \/
  ((1 <= fa + fb)%Q /\ (fasa_value e m bias a b == S * (2 * (fa + fb)) * P)%Q).
Proof.
  intros Hf Hpar Ha Hb HEa HEb fa fb P S.
  destruct (normalized_fraction fmt e m bias a Hf Ha Hpar HEa)
    as (_ & _ & Xa & Fa).
  destruct (normalized_fraction fmt e m bias b Hf Hb Hpar HEb)
    as (_ & _ & Xb & Fb).
  destruct (rebuild fmt e m bias a Hf Ha Hpar) as (_ & _ & HMa & _).
  destruct (rebuild fmt e m bias b Hf Hb Hpar) as (_ & _ & HMb & _).
  destruct (format_sizes fmt e m bias Hf Hpar)
    as (Hm1 & _ & _ & _ & _ & Sm & _).
  pose proof (Z.pow_pos_nonneg 2 m ltac:(lia) ltac:(lia)) as Hpow.
  assert (Hd : ~ (inject_Z (2 ^ m) == 0)%Q).
  { change 0%Q with (inject_Z 0). rewrite inject_Z_injective. lia. }
  assert (Hd0 : (0 < inject_Z (2 ^ m))%Q).
  { change 0%Q with (inject_Z 0). rewrite <- Zlt_Qlt. exact Hpow. }
  unfold fasa_value. cbv zeta. fold S.
  rewrite (low_bits_fields fmt e m bias a Hf Ha Hpar).
  rewrite (low_bits_fields fmt e m bias b Hf Hb Hpar).
  rewrite Sm. change (2 ^ m - 1) with (Z.pred (2 ^ m)).
  rewrite <- Z.ones_equiv, Z.land_ones, Z.shiftr_div_pow2 by lia.
  subst P. rewrite Xa, Xb. subst fa fb.
  set (Ea := exp_field e m a) in *. set (Eb := exp_field e m b) in *.
  set (Ma := mant_field m a) in *. set (Mb := mant_field m b) in *.
  set (sum := Ea * 2 ^ m + Ma + (Eb * 2 ^ m + Mb)).
  destruct (Z.lt_ge_cases (Ma + Mb) (2 ^ m)) as [Hc | Hc].
  - left.
    assert (Hdiv : sum / 2 ^ m = Ea + Eb).
    { symmetry. apply (Z.div_unique_pos _ _ _ (Ma + Mb)); unfold sum; lia. }
    assert (Hmod : sum mod 2 ^ m = Ma + Mb).
    { symmetry. apply (Z.mod_unique_pos _ _ (Ea + Eb)); unfold sum; lia. }
    rewrite Hdiv, Hmod. split.
    + rewrite Fa, Fb.
      assert (H : (inject_Z (Ma + Mb) < inject_Z (2 ^ m))%Q)
        by (rewrite <- Zlt_Qlt; exact Hc).
      rewrite inject_Z_plus in H.
      apply (Qmult_lt_r _ _ (inject_Z (2 ^ m)) Hd0).
      setoid_replace ((inject_Z Ma / inject_Z (2 ^ m)
                       + inject_Z Mb / inject_Z (2 ^ m)) * inject_Z (2 ^ m))%Q
        with (inject_Z Ma + inject_Z Mb)%Q by (field; exact Hd).
      lra.
    + rewrite Fa, Fb, inject_Z_plus.
      replace (Ea + Eb - bias - bias) with (Ea - bias + (Eb - bias)) by lia.
      field. exact Hd.
  - right.
    assert (Hdiv : sum / 2 ^ m = Ea + Eb + 1).
    { symmetry. apply (Z.div_unique_pos _ _ _ (Ma + Mb - 2 ^ m));
        unfold sum; lia. }
    assert (Hmod : sum mod 2 ^ m = Ma + Mb - 2 ^ m).
    { symmetry. apply (Z.mod_unique_pos _ _ (Ea + Eb + 1)); unfold sum; lia. }
    rewrite Hdiv, Hmod. split.
    + rewrite Fa, Fb.
      assert (H : (inject_Z (2 ^ m) <= inject_Z (Ma + Mb))%Q)
        by (rewrite <- Zle_Qle; lia).
      rewrite inject_Z_plus in H.
      apply (Qmult_le_r _ _ (inject_Z (2 ^ m)) Hd0).
      setoid_replace ((inject_Z Ma / inject_Z (2 ^ m)
                       + inject_Z Mb / inject_Z (2 ^ m)) * inject_Z (2 ^ m))%Q
        with (inject_Z Ma + inject_Z Mb)%Q by (field; exact Hd).
      lra.
    + rewrite Fa, Fb.
      replace (Ea + Eb + 1 - bias - bias) with (1 + (Ea - bias + (Eb - bias)))
        by lia.
      rewrite (Qpower_plus 2 1) by discriminate.
      replace (Ma + Mb - 2 ^ m) with (Ma + Mb + - 2 ^ m) by lia.
      rewrite !inject_Z_plus, inject_Z_opp.
      change (Qpower 2 1) with 2%Q. field. exact Hd.
Qed.

(** X20. For two normalized operands the real-valued FASA result never
    exceeds the exact product of the decoded values in magnitude and
    falls short of it by at most one ninth. *)
Theorem X20_fasa_relative_error (fmt : string) (e m bias a b : Z) (qa qb : Q) :
  In fmt format_names ->
  FP8_Codec._get_format_params fmt = Ok (e, m, bias) ->
  0 <= a <= 255 -> 0 <= b <= 255 ->
  class_of_fields e (exp_field e m a) (mant_field m a) = "normalized" ->
  class_of_fields e (exp_field e m b) (mant_field m b) = "normalized" ->
  finite_value fmt a = Some qa -> finite_value fmt b = Some qb ->
  exists v r,
    multiply_fasa fmt false (bits a) (bits b) = Ok (VFloat v) /\
    real_of v = Some r /\
    (Qabs r <= Qabs (qa * qb))%Q /\
    (Qabs (r - qa * qb) <= (1 # 9) * Qabs (qa * qb))%Q.
Proof.
  intros Hf Hpar Ha Hb Hca Hcb Hqa Hqb.
  destruct (fasa_fields fmt a b e m bias Hf Ha Hb Hpar) as (v & Hv & Hval).
  apply class_normalized in Hca, Hcb.
  destruct (normalized_fraction fmt e m bias a Hf Ha Hpar (proj1 Hca))
    as (Fa0 & Fa1 & _).
  destruct (normalized_fraction fmt e m bias b Hf Hb Hpar (proj1 Hcb))
    as (Fb0 & Fb1 & _).
  pose proof (finite_unpacked fmt a e m bias qa Hf Ha Hpar Hqa) as Va.
  pose proof (finite_unpacked fmt b e m bias qb Hf Hb Hpar Hqb) as Vb.
  pose proof (fasa_normalized fmt e m bias a b Hf Hpar Ha Hb
                (proj1 Hca) (proj1 Hcb)) as Hcase.
  cbv zeta in Hcase.
  unfold value_is in Hval. destruct (real_of v) as [r |] eqn:Hr; [| tauto].
  exists v, r. split; [exact Hv |]. split; [exact Hr |].
  set (fa := unpacked_fraction e m a) in *.
  set (fb := unpacked_fraction e m b) in *.
  set (P := Qpower 2 (unpacked_exponent e m bias a
                      + unpacked_exponent e m bias b)) in *.
  set (S := Qpower (inject_Z (-1)) (sign_xor e m a b)) in *.
  assert (HS : (S == 1 \/ S == - (1))%Q)
    by (apply sign_power_cases, sign_xor_bit).
  assert (HP : (0 < P)%Q) by (apply Qpower_0_lt; reflexivity).
  assert (Hy : (qa * qb == S * ((1 + fa) * (1 + fb)) * P)%Q).
  { rewrite Va, Vb. unfold unpacked_value. fold fa fb. unfold S, P.
    rewrite sign_xor_factor, Qpower_plus by discriminate. ring. }
  pose proof (Qsquare_nonneg (fa - fb)) as Hsq.
  destruct Hcase as [[Hs Hx] | [Hs Hx]]; rewrite <- Hval in Hx.
  - assert (Hq : (0 <= (2 * (fa + fb) + 1) * (1 - (fa + fb)))%Q) by nra.
    split.
    + apply (scaled_abs_le S (1 + fa + fb) ((1 + fa) * (1 + fb)) P);
        try assumption; nra.
    + apply (scaled_relative_error S (1 + fa + fb) ((1 + fa) * (1 + fb)) P);
        try assumption; [nra |].
      apply Qabs_Qle_condition. split; nra.
  - assert (Hq : (0 <= (fa + fb - 1) * (4 - (fa + fb)))%Q) by nra.
    split.
    + apply (scaled_abs_le S (2 * (fa + fb)) ((1 + fa) * (1 + fb)) P);
        try assumption; nra.
    + apply (scaled_relative_error S (2 * (fa + fb)) ((1 + fa) * (1 + fb)) P);
        try assumption; [nra |].
      apply Qabs_Qle_condition. split; nra.
Qed.

Lemma X20_fasa_relative_error_witness :
  In "e4m3" format_names /\
  FP8_Codec._get_format_params "e4m3" = Ok (4, 3, 7) /\
  0 <= 60 <= 255 /\ 0 <= 201 <= 255 /\
  class_of_fields 4 (exp_field 4 3 60) (mant_field 3 60) = "normalized" /\
  class_of_fields 4 (exp_field 4 3 201) (mant_field 3 201) = "normalized" /\
  finite_value "e4m3" 60 = Some (12 # 8) /\
  finite_value "e4m3" 201 = Some (- 36 # 8) /\
  exists v r,
    multiply_fasa "e4m3" false (bits 60) (bits 201) = Ok (VFloat v) /\
    real_of v = Some r /\
    (Qabs r <= Qabs ((12 # 8) * (- 36 # 8)))%Q /\
    (Qabs (r - (12 # 8) * (- 36 # 8)) <= (1 # 9) * Qabs ((12 # 8) * (- 36 # 8)))%Q.
Proof.
  assert (H1 : In "e4m3" format_names) by (vm_compute; tauto).
  assert (H2 : FP8_Codec._get_format_params "e4m3" = Ok (4, 3, 7))
    by reflexivity.
  assert (H3 : 0 <= 60 <= 255) by lia.
  assert (H4 : 0 <= 201 <= 255) by lia.
  assert (H5 : class_of_fields 4 (exp_field 4 3 60) (mant_field 3 60)
                 = "normalized") by reflexivity.
  assert (H6 : class_of_fields 4 (exp_field 4 3 201) (mant_field 3 201)
                 = "normalized") by reflexivity.
  assert (H7 : finite_value "e4m3" 60 = Some (12 # 8))
    by (vm_compute; reflexivity).
  assert (H8 : finite_value "e4m3" 201 = Some (- 36 # 8))
    by (vm_compute; reflexivity).
  exact (conj H1 (conj H2 (conj H3 (conj H4 (conj H5 (conj H6 (conj H7 (conj H8
           (X20_fasa_relative_error "e4m3" 4 3 7 60 201 (12 # 8) (- 36 # 8)
              H1 H2 H3 H4 H5 H6 H7 H8))))))))).
Defined.

(** ** The multiply-accumulate steps on patterns *)

Lemma bits_not_pass (p : Z) : 0 <= p <= 255 -> String.eqb (bits p) "pass" = false.
Proof.
  intros Hp. apply String.eqb_neq. intros E.
  apply (f_equal String.length) in E. rewrite (bits_length p Hp) in E.
  discriminate E.
Qed.

Lemma inf_or_nan_class (e ex mn : Z) :
  Z.shiftl 1 e - 1 <> 0 ->
  FP8MatrixMultiplier.inf_or_nan (class_of_fields e ex mn)
    = (ex =? Z.shiftl 1 e - 1).
Proof.
  intros Hao. unfold class_of_fields.
  destruct (Z.eqb_spec ex 0) as [-> | H0].
  - rewrite (proj2 (Z.eqb_neq 0 _) (not_eq_sym Hao)).
    destruct (mn =? 0); reflexivity.
  - destruct (ex =? Z.shiftl 1 e - 1); [destruct (mn =? 0) |]; reflexivity.
Qed.

Section MacClosed.

Variable fmt : string.
Variables e m bias : Z.
Hypothesis Hf : In fmt format_names.
Hypothesis Hpar : FP8_Codec._get_format_params fmt = Ok (e, m, bias).

Let self := matmul_object fmt e m bias.

Lemma matmul_init : FP8MatrixMultiplier.__init__ fmt = Ok self.
Proof.
  unfold FP8MatrixMultiplier.__init__, Multiplier.__init__, Adder.__init__.
  rewrite Hpar. reflexivity.
Qed.

Lemma get_flag_bits (p : Z) :
  0 <= p <= 255 ->
  FP8MatrixMultiplier.get_flag self (bits p)
    = Ok (class_of_fields e (exp_field e m p) (mant_field m p)).
Proof.
  intros Hp. exact (flag_of_bits_fields fmt p e m bias Hf Hp Hpar).
Qed.

Lemma multiply_bits (a b : Z) :
  0 <= a <= 255 -> 0 <= b <= 255 ->
  exists q, 0 <= q <= 255 /\
    Multiplier.multiply (FP8MatrixMultiplier.multiplier self) (bits a) (bits b)
      = Ok (VStr (bits q)).
Proof.
  intros Ha Hb.
  destruct (multiply_exact_encodes fmt a b e m bias Hf Ha Hb Hpar)
    as (v & _ & Hmul).
  destruct (encode_pattern fmt e m bias
              (if sign_xor e m a b =? 1 then fneg (PFin v) else PFin v) Hf Hpar)
    as (q & Hq & He & _).
  exists q. split; [exact Hq |].
  unfold multiply_exact, Multiplier.__init__, Adder.__init__ in Hmul.
  rewrite Hpar in Hmul. cbn [bind] in Hmul.
  rewrite He in Hmul. exact Hmul.
Qed.

Lemma fasa_bits (a b : Z) :
  0 <= a <= 255 -> 0 <= b <= 255 ->
  exists q, 0 <= q <= 255 /\
    Multiplier.FASA (FP8MatrixMultiplier.multiplier self) (bits a) (bits b)
      = Ok (VStr (bits q)).
Proof.
  intros Ha Hb.
  destruct (fasa_finish fmt true a b e m bias Hf Ha Hb Hpar) as (L & HL & _).
  destruct (encode_pattern fmt e m bias
              (if sign_xor e m a b =? 1 then fneg (PFin L) else PFin L) Hf Hpar)
    as (q & Hq & He & _).
  exists q. split; [exact Hq |].
  unfold multiply_fasa, Multiplier.__init__, Adder.__init__ in HL.
  rewrite Hpar in HL. cbn [bind] in HL.
  unfold Multiplier.finish in HL.
  cbn [Multiplier.bin_output Multiplier.fmt] in HL.
  rewrite He in HL. exact HL.
Qed.

(** One guarded step on two patterns and an accumulator of the chain. *)
Lemma guarded_step_closed (mul : string -> string -> res pyval) (a b : Z)
    (acc : string) :
  0 <= a <= 255 -> 0 <= b <= 255 -> mac_state acc ->
  (exists q, 0 <= q <= 255 /\ mul (bits a) (bits b) = Ok (VStr (bits q))) ->
  exists r,
    guarded_step self mul (bits a) (bits b) acc = Ok r /\ mac_result e m r /\
    (acc = "pass" \/ exp_field e m a = Z.shiftl 1 e - 1
     \/ exp_field e m b = Z.shiftl 1 e - 1 -> r = "pass").
Proof.
  intros Ha Hb Hacc (q & Hq & Hmul).
  destruct (format_sizes fmt e m bias Hf Hpar) as (_ & Hmax & _).
  assert (Hao : Z.shiftl 1 e - 1 <> 0) by lia.
  unfold guarded_step.
  destruct Hacc as [-> | (c & Hc & ->)].
  { rewrite any_pass_acc. exists "pass". split; [reflexivity |].
    split; [now left | reflexivity]. }
  unfold FP8MatrixMultiplier.any_pass. cbn [existsb].
  rewrite !bits_not_pass by assumption. cbn [orb].
  rewrite !get_flag_bits by assumption. cbn [bind].
  rewrite !inf_or_nan_class by exact Hao.
  destruct (Z.eqb_spec (exp_field e m a) (Z.shiftl 1 e - 1)) as [Ea | Ea].
  { exists "pass". split; [reflexivity |]. split; [now left | reflexivity]. }
  destruct (Z.eqb_spec (exp_field e m b) (Z.shiftl 1 e - 1)) as [Eb | Eb].
  { exists "pass". split; [reflexivity |]. split; [now left | reflexivity]. }
  cbn [orb]. rewrite Hmul. cbn [bind FP8MatrixMultiplier.product_bits].
  rewrite get_flag_bits by assumption. cbn [bind].
  rewrite inf_or_nan_class by exact Hao.
  destruct (Z.eqb_spec (exp_field e m q) (Z.shiftl 1 e - 1)) as [Eq | Eq].
  { exists "pass". split; [reflexivity |]. split; [now left | reflexivity]. }
  destruct (fp_bin_adder_ok fmt e m bias Hf Hpar c q Hc Hq)
    as (s & Hs & p & Hp & -> & _).
  rewrite (fp_add_unfold fmt e m bias _ _ Hpar) in Hs.
  change (FP8MatrixMultiplier.adder self) with (Adder.mk fmt e m).
  rewrite Hs. cbn [bind].
  rewrite get_flag_bits by assumption. cbn [bind].
  rewrite inf_or_nan_class by exact Hao.
  destruct (Z.eqb_spec (exp_field e m p) (Z.shiftl 1 e - 1)) as [Ep | Ep].
  { exists "pass". split; [reflexivity |]. split; [now left | reflexivity]. }
  exists (bits p). split; [reflexivity |]. split.
  - right. exists p. auto.
  - intros [H | [H | H]]; [| contradiction | contradiction].
    exfalso. apply (f_equal (fun s => String.eqb s "pass")) in H.
    rewrite bits_not_pass in H by exact Hc. discriminate H.
Qed.

Lemma mac_unit_closed (a b : Z) (acc : string) :
  0 <= a <= 255 -> 0 <= b <= 255 -> mac_state acc ->
  exists r,
    FP8MatrixMultiplier.mac_unit self (bits a) (bits b) acc = Ok r /\
    mac_result e m r /\
    (acc = "pass" \/ exp_field e m a = Z.shiftl 1 e - 1
     \/ exp_field e m b = Z.shiftl 1 e - 1 -> r = "pass").
Proof.
  intros Ha Hb Hacc.
  exact (guarded_step_closed _ a b acc Ha Hb Hacc (multiply_bits a b Ha Hb)).
Qed.

Lemma fasa_mac_unit_closed (a b : Z) (acc : string) :
  0 <= a <= 255 -> 0 <= b <= 255 -> mac_state acc ->
  exists r,
    FP8MatrixMultiplier.fasa_mac_unit self (bits a) (bits b) acc = Ok r /\
    mac_result e m r /\
    (acc = "pass" \/ exp_field e m a = Z.shiftl 1 e - 1
     \/ exp_field e m b = Z.shiftl 1 e - 1 -> r = "pass").
Proof.
  intros Ha Hb Hacc.
  exact (guarded_step_closed _ a b acc Ha Hb Hacc (fasa_bits a b Ha Hb)).
Qed.

Lemma mac_result_state (r : string) : mac_result e m r -> mac_state r.
Proof.
  intros [-> | (p & Hp & -> & _)]; [now left | right; now exists p].
Qed.

End MacClosed.

(** X21. On two patterns and an accumulator that is the sentinel or a
    pattern, the exact and the FASA multiply-accumulate steps never raise:
    each returns ["pass"] or the string of a pattern that is neither an
    infinity nor a NaN, and returns ["pass"] whenever the accumulator is
    the sentinel or an operand has an all-ones exponent field. *)
Theorem X21_mac_units_closed (fmt : string) (e m bias a b : Z) (acc : string) :
  In fmt format_names ->
  FP8_Codec._get_format_params fmt = Ok (e, m, bias) ->
  0 <= a <= 255 -> 0 <= b <= 255 -> mac_state acc ->
  exists self r1 r2,
    FP8MatrixMultiplier.__init__ fmt = Ok self /\
    FP8MatrixMultiplier.mac_unit self (bits a) (bits b) acc = Ok r1 /\
    FP8MatrixMultiplier.fasa_mac_unit self (bits a) (bits b) acc = Ok r2 /\
    mac_result e m r1 /\ mac_result e m r2 /\
    (acc = "pass" \/ exp_field e m a = Z.shiftl 1 e - 1
     \/ exp_field e m b = Z.shiftl 1 e - 1 -> r1 = "pass" /\ r2 = "pass").
Proof.
  intros Hf Hpar Ha Hb Hacc.
  destruct (mac_unit_closed fmt e m bias Hf Hpar a b acc Ha Hb Hacc)
    as (r1 & H1 & S1 & P1).
  destruct (fasa_mac_unit_closed fmt e m bias Hf Hpar a b acc Ha Hb Hacc)
    as (r2 & H2 & S2 & P2).
  exists (matmul_object fmt e m bias), r1, r2.
  split; [exact (matmul_init fmt e m bias Hpar) |]. auto 10.
Qed.

Lemma X21_mac_units_closed_witness :
  In "e4m3" format_names /\
  FP8_Codec._get_format_params "e4m3" = Ok (4, 3, 7) /\
  0 <= 60 <= 255 /\ 0 <= 201 <= 255 /\ mac_state (bits 56) /\
  exists self r1 r2,
    FP8MatrixMultiplier.__init__ "e4m3" = Ok self /\
    FP8MatrixMultiplier.mac_unit self (bits 60) (bits 201) (bits 56) = Ok r1 /\
    FP8MatrixMultiplier.fasa_mac_unit self (bits 60) (bits 201) (bits 56) = Ok r2 /\
    mac_result 4 3 r1 /\ mac_result 4 3 r2 /\
    (bits 56 = "pass" \/ exp_field 4 3 60 = Z.shiftl 1 4 - 1
     \/ exp_field 4 3 201 = Z.shiftl 1 4 - 1 -> r1 = "pass" /\ r2 = "pass").
Proof.
  assert (H1 : In "e4m3" format_names) by (vm_compute; tauto).
  assert (H2 : FP8_Codec._get_format_params "e4m3" = Ok (4, 3, 7))
    by reflexivity.
  assert (H3 : 0 <= 60 <= 255) by lia.
  assert (H4 : 0 <= 201 <= 255) by lia.
  assert (H5 : mac_state (bits 56)).
  { right. exists 56. split; [lia | reflexivity]. }
  exact (conj H1 (conj H2 (conj H3 (conj H4 (conj H5
           (X21_mac_units_closed "e4m3" 4 3 7 60 201 (bits 56)
              H1 H2 H3 H4 H5)))))).
Defined.

Lemma chain_closed (e m : Z) (unit : string -> string -> string -> res string) :
  (forall a b acc,
     0 <= a <= 255 -> 0 <= b <= 255 -> mac_state acc ->
     exists r, unit (bits a) (bits b) acc = Ok r /\ mac_result e m r /\
       (acc = "pass" \/ exp_field e m a = Z.shiftl 1 e - 1
        \/ exp_field e m b = Z.shiftl 1 e - 1 -> r = "pass")) ->
  forall ops acc,
    pattern_pairs ops -> mac_state acc ->
    exists r,
      FP8MatrixMultiplier.mac_chain unit (pair_bits ops) acc = Ok r /\
      mac_state r /\
      (acc = "pass" \/ Exists (special_pair e m) ops -> r = "pass").
Proof.
  intros Hstep ops. induction ops as [| [a b] ops IH]; intros acc Hops Hacc.
  - exists acc. split; [reflexivity |]. split; [exact Hacc |].
    intros [H | H]; [exact H | inversion H].
  - inversion Hops as [| ? ? [Ha Hb] Hops']; subst. cbn [fst snd] in Ha, Hb.
    destruct (Hstep a b acc Ha Hb Hacc) as (r1 & H1 & S1 & P1).
    destruct (IH r1 Hops' (mac_result_state e m r1 S1)) as (r & Hr & Sr & Pr).
    exists r. cbn [pair_bits map fst snd FP8MatrixMultiplier.mac_chain].
    rewrite H1. cbn [bind]. split; [exact Hr |]. split; [exact Sr |].
    intros [H | H].
    + apply Pr. left. apply P1. now left.
    + inversion H as [? ? Hs | ? ? Hs]; subst.
      * apply Pr. left. apply P1. right. exact Hs.
      * apply Pr. now right.
Qed.

(** X22. A chain of exact or FASA steps over any list of pattern pairs,
    started from the sentinel or a pattern, never raises and ends in the
    sentinel or a pattern.  It ends in ["pass"] as soon as it starts from
    the sentinel or any pair, wherever in the list, has an operand with an
    all-ones exponent field: the sentinel is sticky. *)
Theorem X22_mac_chain_closed (fmt : string) (e m bias : Z)
    (ops : list (Z * Z)) (acc : string) :
  In fmt format_names ->
  FP8_Codec._get_format_params fmt = Ok (e, m, bias) ->
  pattern_pairs ops -> mac_state acc ->
  exists self r1 r2,
    FP8MatrixMultiplier.__init__ fmt = Ok self /\
    FP8MatrixMultiplier.mac_chain (FP8MatrixMultiplier.mac_unit self)
      (pair_bits ops) acc = Ok r1 /\
    FP8MatrixMultiplier.mac_chain (FP8MatrixMultiplier.fasa_mac_unit self)
      (pair_bits ops) acc = Ok r2 /\
    mac_state r1 /\ mac_state r2 /\
    (acc = "pass" \/ Exists (special_pair e m) ops ->
     r1 = "pass" /\ r2 = "pass").
Proof.
  intros Hf Hpar Hops Hacc.
  destruct (chain_closed e m _ (mac_unit_closed fmt e m bias Hf Hpar)
              ops acc Hops Hacc) as (r1 & H1 & S1 & P1).
  destruct (chain_closed e m _ (fasa_mac_unit_closed fmt e m bias Hf Hpar)
              ops acc Hops Hacc) as (r2 & H2 & S2 & P2).
  exists (matmul_object fmt e m bias), r1, r2.
  split; [exact (matmul_init fmt e m bias Hpar) |]. auto 10.
Qed.

Lemma X22_mac_chain_closed_witness :
  In "e4m3" format_names /\
  FP8_Codec._get_format_params "e4m3" = Ok (4, 3, 7) /\
  pattern_pairs [(60, 201); (120, 56); (61, 62)] /\ mac_state (bits 0) /\
  exists self r1 r2,
    FP8MatrixMultiplier.__init__ "e4m3" = Ok self /\
    FP8MatrixMultiplier.mac_chain (FP8MatrixMultiplier.mac_unit self)
      (pair_bits [(60, 201); (120, 56); (61, 62)]) (bits 0) = Ok r1 /\
    FP8MatrixMultiplier.mac_chain (FP8MatrixMultiplier.fasa_mac_unit self)
      (pair_bits [(60, 201); (120, 56); (61, 62)]) (bits 0) = Ok r2 /\
    mac_state r1 /\ mac_state r2 /\
    (bits 0 = "pass" \/ Exists (special_pair 4 3) [(60, 201); (120, 56); (61, 62)] ->
     r1 = "pass" /\ r2 = "pass").
Proof.
  assert (H1 : In "e4m3" format_names) by (vm_compute; tauto).
  assert (H2 : FP8_Codec._get_format_params "e4m3" = Ok (4, 3, 7))
    by reflexivity.
  assert (H3 : pattern_pairs [(60, 201); (120, 56); (61, 62)]).
  { repeat constructor; cbn [fst snd]; lia. }
  assert (H4 : mac_state (bits 0)).
  { right. exists 0. split; [lia | reflexivity]. }
  exact (conj H1 (conj H2 (conj H3 (conj H4
           (X22_mac_chain_closed "e4m3" 4 3 7 [(60, 201); (120, 56); (61, 62)]
              (bits 0) H1 H2 H3 H4))))).
Defined.

(** ** The matrix products *)

Lemma for_each_ok {X Y : Type} (body : X -> res Y) (l : list X) :
  (forall x, In x l -> exists y, body x = Ok y) ->
  exists ys, for_each body l = Ok ys /\ List.length ys = List.length l.
Proof.
  induction l as [| x l IH]; intros H.
  - exists []. split; reflexivity.
  - destruct (H x (or_introl eq_refl)) as (y & Hy).
    destruct IH as (ys & Hys & Hl); [intros z Hz; apply H; now right |].
    exists (y :: ys). cbn [for_each]. rewrite Hy, Hys. cbn [bind].
    split; [reflexivity | simpl; now rewrite Hl].
Qed.

Lemma for_each_all {X Y : Type} (body : X -> res Y) (P : Y -> Prop)
    (l : list X) (ys : list Y) :
  (forall x y, In x l -> body x = Ok y -> P y) ->
  for_each body l = Ok ys -> Forall P ys.
Proof.
  revert ys. induction l as [| x l IH]; intros ys H Hf; cbn [for_each] in Hf.
  - injection Hf as <-. constructor.
  - destruct (body x) as [y |] eqn:Hy; [| discriminate]. cbn [bind] in Hf.
    destruct (for_each body l) as [ys' |] eqn:Hys; [| discriminate].
    cbn [bind] in Hf. injection Hf as <-. constructor.
    + apply (H x y); [now left | exact Hy].
    + apply IH; [| reflexivity]. intros z w Hz. apply H. now right.
Qed.

Lemma range_In (n : Z) (i : nat) : In i (range n) <-> (i < Z.to_nat n)%nat.
Proof. unfold range. rewrite in_seq. lia. Qed.

Lemma range_length (n : Z) : 0 <= n -> Z.of_nat (List.length (range n)) = n.
Proof. intros H. unfold range. rewrite length_seq. lia. Qed.

Lemma getitem2_ok (A : ndarray) (i k : nat) :
  well_shaped A ->
  (i < Z.to_nat (shape0 A))%nat -> (k < Z.to_nat (shape1 A))%nat ->
  exists x, getitem2 A i k = Ok x.
Proof.
  intros (H0 & H1 & Hl & Hr) Hi Hk. unfold getitem2.
  destruct (nth_error (rows A) i) as [r |] eqn:Er.
  - rewrite Forall_forall in Hr.
    pose proof (Hr r (nth_error_In _ _ Er)) as Hlen.
    destruct (nth_error r k) as [x |] eqn:Ek; [now exists x |].
    apply nth_error_None in Ek. lia.
  - apply nth_error_None in Er. lia.
Qed.

Lemma getitem2_row_out (A : ndarray) (i k : nat) :
  well_shaped A -> (Z.to_nat (shape0 A) <= i)%nat ->
  getitem2 A i k = Raise IndexError.
Proof.
  intros (H0 & H1 & Hl & Hr) Hi. unfold getitem2.
  destruct (nth_error (rows A) i) as [r |] eqn:Er; [| reflexivity].
  assert (nth_error (rows A) i = None) by (apply nth_error_None; lia).
  congruence.
Qed.

Section MatrixClosed.

Variable fmt : string.
Variables e m bias : Z.
Hypothesis Hf : In fmt format_names.
Hypothesis Hpar : FP8_Codec._get_format_params fmt = Ok (e, m, bias).

Let self := matmul_object fmt e m bias.

Variable unit : string -> string -> string -> res string.
Hypothesis Hstep :
  forall a b acc,
    0 <= a <= 255 -> 0 <= b <= 255 -> mac_state acc ->
    exists r, unit (bits a) (bits b) acc = Ok r /\ mac_result e m r /\
      (acc = "pass" \/ exp_field e m a = Z.shiftl 1 e - 1
       \/ exp_field e m b = Z.shiftl 1 e - 1 -> r = "pass").

Variables A B : ndarray.
Hypothesis HA : well_shaped A.
Hypothesis HB : well_shaped B.

Lemma inner_loop_closed (i j : nat) (ks : list nat) (acc : string) :
  (i < Z.to_nat (shape0 A))%nat -> (j < Z.to_nat (shape1 B))%nat ->
  Forall (fun k => (k < Z.to_nat (shape1 A))%nat
                   /\ (k < Z.to_nat (shape0 B))%nat) ks ->
  mac_state acc ->
  exists r, Matmul.inner_loop self unit A B i j ks acc = Ok r /\ mac_state r.
Proof.
  intros Hi Hj Hks. revert acc.
  induction Hks as [| k ks [Hk1 Hk2] _ IH]; intros acc Hacc.
  - exists acc. split; [reflexivity | exact Hacc].
  - cbn [Matmul.inner_loop].
    destruct (getitem2_ok A i k HA Hi Hk1) as (x & ->). cbn [bind].
    destruct (getitem2_ok B k j HB Hk2 Hj) as (y & ->).
    change (FP8MatrixMultiplier.format self) with fmt.
    destruct (encode_pattern fmt e m bias x Hf Hpar) as (a & Ha & -> & _).
    cbn [bind].
    destruct (encode_pattern fmt e m bias y Hf Hpar) as (b & Hb & -> & _).
    cbn [bind].
    destruct (Hstep a b acc Ha Hb Hacc) as (r & -> & Sr & _). cbn [bind].
    apply IH. exact (mac_result_state e m r Sr).
Qed.

Lemma inner_loop_app (i j : nat) (ks1 ks2 : list nat) (acc : string) :
  Matmul.inner_loop self unit A B i j (ks1 ++ ks2)%list acc
  = (r <- Matmul.inner_loop self unit A B i j ks1 acc ;;
     Matmul.inner_loop self unit A B i j ks2 r).
Proof.
  revert acc. induction ks1 as [| k ks1 IH]; intros acc; [reflexivity |].
  cbn [app Matmul.inner_loop].
  destruct (getitem2 A i k) as [x |]; cbn [bind]; [| reflexivity].
  destruct (FP8_Codec.encode x _) as [sa |]; cbn [bind]; [| reflexivity].
  destruct (getitem2 B k j) as [y |]; cbn [bind]; [| reflexivity].
  destruct (FP8_Codec.encode y _) as [sb |]; cbn [bind]; [| reflexivity].
  destruct (unit sa sb acc) as [r |]; cbn [bind]; [apply IH | reflexivity].
Qed.

Lemma start_state : mac_state (Py.str_mul "0" (1 + e + m)).
Proof.
  destruct (special_bits fmt e m bias false Hf Hpar) as (_ & _ & Hz & _).
  right. exists 0. split; [lia | exact Hz].
Qed.

Lemma cell_closed (r : string) :
  mac_state r ->
  exists c,
    (if String.eqb r "pass" then Ok FP8MatrixMultiplier.CPass
     else
       n <- Py.int_of 2 r ;;
       d <- FP8_Codec.decode n (FP8MatrixMultiplier.format self) None ;;
       Ok (FP8MatrixMultiplier.CVal (FP8_Codec.value d))) = Ok c.
Proof.
  intros [-> | (p & Hp & ->)].
  - now exists FP8MatrixMultiplier.CPass.
  - rewrite (bits_not_pass p Hp), (int_of_2_bits p Hp). cbn [bind].
    change (FP8MatrixMultiplier.format self) with fmt.
    destruct (decode_flag fmt p e m bias Hp Hpar) as (d & -> & _).
    cbn [bind]. eexists. reflexivity.
Qed.

Lemma matrix_loop_shape :
  shape1 A <= shape0 B ->
  exists C, Matmul.matrix_loop self unit A B = Ok C /\
            has_shape C (shape0 A) (shape1 B).
Proof.
  intros Hinner.
  destruct HA as (A0 & A1 & _). destruct HB as (B0 & B1 & _).
  unfold Matmul.matrix_loop. cbv zeta.
  change (FP8MatrixMultiplier.format self) with fmt. rewrite Hpar. cbn [bind].
  set (cellf := Matmul.cell_loop self unit A B e m).
  assert (Hcell : forall i j,
            (i < Z.to_nat (shape0 A))%nat -> (j < Z.to_nat (shape1 B))%nat ->
            exists c, cellf i j = Ok c).
  { intros i j Hi Hj. unfold cellf, Matmul.cell_loop.
    destruct (inner_loop_closed i j (range (shape1 A))
                (Py.str_mul "0" (1 + e + m)) Hi Hj) as (r & -> & Sr).
    - apply Forall_forall. intros k Hk. apply range_In in Hk. lia.
    - exact start_state.
    - cbn [bind]. exact (cell_closed r Sr). }
  assert (Hrow : forall i, (i < Z.to_nat (shape0 A))%nat ->
            exists row, for_each (cellf i) (range (shape1 B)) = Ok row /\
                        Z.of_nat (List.length row) = shape1 B).
  { intros i Hi.
    destruct (for_each_ok (cellf i) (range (shape1 B))) as (row & Hr & Hl).
    - intros j Hj. apply range_In in Hj. now apply Hcell.
    - exists row. split; [exact Hr |]. rewrite Hl. now apply range_length. }
  destruct (for_each_ok (fun i => for_each (cellf i) (range (shape1 B)))
              (range (shape0 A))) as (C & HC & HL).
  { intros i Hi. apply range_In in Hi.
    destruct (Hrow i Hi) as (row & Hr & _). now exists row. }
  exists C. split; [exact HC |]. split.
  - rewrite HL. now apply range_length.
  - refine (for_each_all _ _ _ _ _ HC). intros i row Hi Hr.
    apply range_In in Hi. destruct (Hrow i Hi) as (row' & Hr' & Hl').
    rewrite Hr in Hr'. injection Hr' as <-. exact Hl'.
Qed.

Lemma matrix_loop_index_error :
  0 < shape0 A -> 0 < shape1 B -> shape0 B < shape1 A ->
  Matmul.matrix_loop self unit A B = Raise IndexError.
Proof.
  intros Hrows Hcols Hshort.
  destruct HA as (A0 & A1 & _). destruct HB as (B0 & B1 & _).
  unfold Matmul.matrix_loop. cbv zeta.
  change (FP8MatrixMultiplier.format self) with fmt. rewrite Hpar. cbn [bind].
  assert (R0 : range (shape0 A) = O :: seq 1 (Z.to_nat (shape0 A) - 1)).
  { unfold range. destruct (Z.to_nat (shape0 A)) as [| n] eqn:E; [lia |].
    simpl. now rewrite Nat.sub_0_r. }
  assert (R1 : range (shape1 B) = O :: seq 1 (Z.to_nat (shape1 B) - 1)).
  { unfold range. destruct (Z.to_nat (shape1 B)) as [| n] eqn:E; [lia |].
    simpl. now rewrite Nat.sub_0_r. }
  assert (R2 : range (shape1 A)
               = (range (shape0 B)
                  ++ Z.to_nat (shape0 B)
                     :: seq (S (Z.to_nat (shape0 B)))
                          (Z.to_nat (shape1 A) - Z.to_nat (shape0 B) - 1))%list).
  { unfold range.
    replace (Z.to_nat (shape1 A))
      with (Z.to_nat (shape0 B)
            + S (Z.to_nat (shape1 A) - Z.to_nat (shape0 B) - 1))%nat at 1 by lia.
    rewrite seq_app. reflexivity. }
  rewrite R0. cbn [for_each]. rewrite R1. cbn [for_each].
  unfold Matmul.cell_loop at 1.
  rewrite R2, inner_loop_app.
  destruct (inner_loop_closed O O (range (shape0 B))
              (Py.str_mul "0" (1 + e + m))) as (r & -> & Sr).
  - lia.
  - lia.
  - apply Forall_forall. intros k Hk. apply range_In in Hk. lia.
  - exact start_state.
  - cbn [bind Matmul.inner_loop].
    destruct (getitem2_ok A O (Z.to_nat (shape0 B)) HA) as (x & ->); [lia | lia |].
    cbn [bind]. change (FP8MatrixMultiplier.format self) with fmt.
    destruct (encode_pattern fmt e m bias x Hf Hpar) as (a & Ha & -> & _).
    cbn [bind].
    rewrite (getitem2_row_out B _ O HB) by lia. reflexivity.
Qed.

End MatrixClosed.

(** X23. On well-shaped arrays where [B] has at least as many rows as
    [A] has columns, [matrix_multiply] and [fasa_matrix_multiply] return,
    without raising, a list of [A.shape[0]] rows of [B.shape[1]] cells,
    whatever floats the arrays hold.  The inner dimensions are not
    compared: rows of [B] beyond [A.shape[1]] are never read. *)
Theorem X23_matrix_multiply_shape (fmt : string) (A B : ndarray) :
  In fmt format_names ->
  well_shaped A -> well_shaped B -> shape1 A <= shape0 B ->
  exists self C1 C2,
    FP8MatrixMultiplier.__init__ fmt = Ok self /\
    Matmul.matrix_multiply self A B = Ok C1 /\
    Matmul.fasa_matrix_multiply self A B = Ok C2 /\
    has_shape C1 (shape0 A) (shape1 B) /\
    has_shape C2 (shape0 A) (shape1 B).
Proof.
  intros Hf HA HB Hinner.
  destruct (format_params fmt Hf) as (e & m & bias & Hpar & _).
  destruct (matrix_loop_shape fmt e m bias Hf Hpar _
              (mac_unit_closed fmt e m bias Hf Hpar) A B HA HB Hinner)
    as (C1 & H1 & S1).
  destruct (matrix_loop_shape fmt e m bias Hf Hpar _
              (fasa_mac_unit_closed fmt e m bias Hf Hpar) A B HA HB Hinner)
    as (C2 & H2 & S2).
  exists (matmul_object fmt e m bias), C1, C2.
  split; [exact (matmul_init fmt e m bias Hpar) |]. auto.
Qed.

Lemma X23_matrix_multiply_shape_witness :
  In "e4m3" format_names /\
  well_shaped (mk_ndarray 1 2 [[PFin 1; PFin (3 # 2)]]) /\
  well_shaped (mk_ndarray 3 1 [[PFin 2]; [PInf false]; [PNaN]]) /\
  shape1 (mk_ndarray 1 2 [[PFin 1; PFin (3 # 2)]])
    <= shape0 (mk_ndarray 3 1 [[PFin 2]; [PInf false]; [PNaN]]) /\
  exists self C1 C2,
    FP8MatrixMultiplier.__init__ "e4m3" = Ok self /\
    Matmul.matrix_multiply self (mk_ndarray 1 2 [[PFin 1; PFin (3 # 2)]])
      (mk_ndarray 3 1 [[PFin 2]; [PInf false]; [PNaN]]) = Ok C1 /\
    Matmul.fasa_matrix_multiply self (mk_ndarray 1 2 [[PFin 1; PFin (3 # 2)]])
      (mk_ndarray 3 1 [[PFin 2]; [PInf false]; [PNaN]]) = Ok C2 /\
    has_shape C1 (shape0 (mk_ndarray 1 2 [[PFin 1; PFin (3 # 2)]]))
      (shape1 (mk_ndarray 3 1 [[PFin 2]; [PInf false]; [PNaN]])) /\
    has_shape C2 (shape0 (mk_ndarray 1 2 [[PFin 1; PFin (3 # 2)]]))
      (shape1 (mk_ndarray 3 1 [[PFin 2]; [PInf false]; [PNaN]])).
Proof.
  assert (H1 : In "e4m3" format_names) by (vm_compute; tauto).
  assert (H2 : well_shaped (mk_ndarray 1 2 [[PFin 1; PFin (3 # 2)]])).
  { unfold well_shaped. cbn [shape0 shape1 rows].
    split; [lia | split; [lia | split; [reflexivity | repeat constructor]]]. }
  assert (H3 : well_shaped (mk_ndarray 3 1 [[PFin 2]; [PInf false]; [PNaN]])).
  { unfold well_shaped. cbn [shape0 shape1 rows].
    split; [lia | split; [lia | split; [reflexivity | repeat constructor]]]. }
  assert (H4 : shape1 (mk_ndarray 1 2 [[PFin 1; PFin (3 # 2)]])
               <= shape0 (mk_ndarray 3 1 [[PFin 2]; [PInf false]; [PNaN]]))
    by (cbn [shape0 shape1]; lia).
  exact (conj H1 (conj H2 (conj H3 (conj H4
           (X23_matrix_multiply_shape "e4m3" _ _ H1 H2 H3 H4))))).
Defined.

(** X24. When [B] has fewer rows than [A] has columns, and the result
    has at least one cell, [matrix_multiply] and [fasa_matrix_multiply]
    raise IndexError: the first cell reads [B] past its last row. *)
Theorem X24_matrix_multiply_index_error (fmt : string) (A B : ndarray) :
  In fmt format_names ->
  well_shaped A -> well_shaped B ->
  0 < shape0 A -> 0 < shape1 B -> shape0 B < shape1 A ->
  exists self,
    FP8MatrixMultiplier.__init__ fmt = Ok self /\
    Matmul.matrix_multiply self A B = Raise IndexError /\
    Matmul.fasa_matrix_multiply self A B = Raise IndexError.
Proof.
  intros Hf HA HB Hrows Hcols Hshort.
  destruct (format_params fmt Hf) as (e & m & bias & Hpar & _).
  exists (matmul_object fmt e m bias).
  split; [exact (matmul_init fmt e m bias Hpar) |]. split.
  - exact (matrix_loop_index_error fmt e m bias Hf Hpar _
             (mac_unit_closed fmt e m bias Hf Hpar) A B HA HB
             Hrows Hcols Hshort).
  - exact (matrix_loop_index_error fmt e m bias Hf Hpar _
             (fasa_mac_unit_closed fmt e m bias Hf Hpar) A B HA HB
             Hrows Hcols Hshort).
Qed.

Lemma X24_matrix_multiply_index_error_witness :
  In "e3m4" format_names /\
  well_shaped (mk_ndarray 1 2 [[PFin 1; PFin (3 # 2)]]) /\
  well_shaped (mk_ndarray 1 1 [[PFin 2]]) /\
  0 < shape0 (mk_ndarray 1 2 [[PFin 1; PFin (3 # 2)]]) /\
  0 < shape1 (mk_ndarray 1 1 [[PFin 2]]) /\
  shape0 (mk_ndarray 1 1 [[PFin 2]])
    < shape1 (mk_ndarray 1 2 [[PFin 1; PFin (3 # 2)]]) /\
  exists self,
    FP8MatrixMultiplier.__init__ "e3m4" = Ok self /\
    Matmul.matrix_multiply self (mk_ndarray 1 2 [[PFin 1; PFin (3 # 2)]])
      (mk_ndarray 1 1 [[PFin 2]]) = Raise IndexError /\
    Matmul.fasa_matrix_multiply self (mk_ndarray 1 2 [[PFin 1; PFin (3 # 2)]])
      (mk_ndarray 1 1 [[PFin 2]]) = Raise IndexError.
Proof.
  assert (H1 : In "e3m4" format_names) by (vm_compute; tauto).
  assert (H2 : well_shaped (mk_ndarray 1 2 [[PFin 1; PFin (3 # 2)]])).
  { unfold well_shaped. cbn [shape0 shape1 rows].
    split; [lia | split; [lia | split; [reflexivity | repeat constructor]]]. }
  assert (H3 : well_shaped (mk_ndarray 1 1 [[PFin 2]])).
  { unfold well_shaped. cbn [shape0 shape1 rows].
    split; [lia | split; [lia | split; [reflexivity | repeat constructor]]]. }
  assert (H4 : 0 < shape0 (mk_ndarray 1 2 [[PFin 1; PFin (3 # 2)]]))
    by (cbn [shape0]; lia).
  assert (H5 : 0 < shape1 (mk_ndarray 1 1 [[PFin 2]]))
    by (cbn [shape1]; lia).
  assert (H6 : shape0 (mk_ndarray 1 1 [[PFin 2]])
               < shape1 (mk_ndarray 1 2 [[PFin 1; PFin (3 # 2)]]))
    by (cbn [shape0 shape1]; lia).
  exact (conj H1 (conj H2 (conj H3 (conj H4 (conj H5 (conj H6
           (X24_matrix_multiply_index_error "e3m4" _ _
              H1 H2 H3 H4 H5 H6))))))).
Defined.

(** ** [decode] with a custom bias *)




(** ** [Data_Gen] *)

Lemma multiplier_init (fmt : string) (bo : bool) (e m bias : Z) :
  FP8_Codec._get_format_params fmt = Ok (e, m, bias) ->
  Multiplier.__init__ fmt bo
    = Ok (Multiplier.mk fmt e m bias (Adder.mk fmt e m) bo).
Proof.
  intros H. unfold Multiplier.__init__, Adder.__init__. now rewrite H.
Qed.

(** What the constructor checks, in the order of the source. *)
Lemma data_gen_init_cases (row col : Z) (fmt : string)
    (value_range : list pyfloat) :
  match Data_Gen.__init__ row col fmt value_range with
  | Ok self =>
      0 < row /\ 0 < col /\ In fmt format_names /\
      value_range = [Data_Gen.vmin self; Data_Gen.vmax self] /\
      flt (Data_Gen.vmin self) (Data_Gen.vmax self) = true /\
      Data_Gen.row self = row /\ Data_Gen.col self = col /\
      Data_Gen.format self = fmt /\
      Multiplier.bin_output (Data_Gen.multiplier self) = true
  | Raise err =>
      err = ValueError /\
      (row <= 0 \/ col <= 0 \/ List.length value_range <> 2%nat \/
       (exists a b, value_range = [a; b] /\ flt a b = false) \/
       ~ In fmt format_names)
  end.
Proof.
  unfold Data_Gen.__init__.
  destruct (Z.leb_spec row 0) as [Hr | Hr]; cbn [orb].
  { split; [reflexivity | now left]. }
  destruct (Z.leb_spec col 0) as [Hc | Hc].
  { split; [reflexivity | right; now left]. }
  destruct value_range as [| a [| b [| c rest]]].
  - split; [reflexivity |]. right. right. left. discriminate.
  - split; [reflexivity |]. right. right. left. discriminate.
  - destruct (flt a b) eqn:Hlt; cbn [negb].
    + destruct (in_dec string_dec fmt format_names) as [Hin | Hout].
      * destruct (format_params fmt Hin) as (e & m & bias & Hpar & _).
        rewrite (multiplier_init fmt true e m bias Hpar).
        unfold Adder.__init__. rewrite Hpar. cbn [bind].
        cbn [Data_Gen.vmin Data_Gen.vmax Data_Gen.row Data_Gen.col
             Data_Gen.format Data_Gen.multiplier Multiplier.bin_output].
        repeat split; try assumption; reflexivity.
      * unfold Adder.__init__.
        rewrite (get_format_params_unknown fmt Hout). cbn [bind].
        split; [reflexivity |]. do 4 right. exact Hout.
    + split; [reflexivity |]. do 3 right. left. now exists a, b.
  - split; [reflexivity |]. right. right. left. discriminate.
Qed.


(** X27. The unguarded step of the reference data agrees with the
    guarded step of the matrix product whenever the latter returns a
    result other than the sentinel, on any three strings; and on patterns
    it never raises and never returns the sentinel, whatever the operands:
    an infinity or a NaN goes through the multiplier and the adder like
    any other pattern. *)
Theorem X27_data_gen_mac_unit (fmt : string) (row col : Z)
    (value_range : list pyfloat) (gen : Data_Gen.t)
    (self : FP8MatrixMultiplier.t) :
  Data_Gen.__init__ row col fmt value_range = Ok gen ->
  FP8MatrixMultiplier.__init__ fmt = Ok self ->
  (forall a b acc r,
     FP8MatrixMultiplier.mac_unit self a b acc = Ok r -> r <> "pass" ->
     Data_Gen.mac_unit gen a b acc = Ok r) /\
  (forall a b c,
     0 <= a <= 255 -> 0 <= b <= 255 -> 0 <= c <= 255 ->
     exists p, 0 <= p <= 255 /\
       Data_Gen.mac_unit gen (bits a) (bits b) (bits c) = Ok (bits p)).
Proof.
  intros Hgen Hself.
  pose proof (data_gen_init_cases row col fmt value_range) as Hinit.
  rewrite Hgen in Hinit. destruct Hinit as (_ & _ & Hf & _).
  destruct (format_params fmt Hf) as (e & m & bias & Hpar & _).
  rewrite (matmul_init fmt e m bias Hpar) in Hself. injection Hself as <-.
  assert (Hg : Data_Gen.adder gen = Adder.mk fmt e m /\
               Data_Gen.multiplier gen
                 = Multiplier.mk fmt e m bias (Adder.mk fmt e m) true).
  { unfold Data_Gen.__init__ in Hgen.
    destruct ((row <=? 0) || (col <=? 0)); [discriminate |].
    destruct value_range as [| x [| y [| z rest]]]; try discriminate.
    destruct (negb (flt x y)); [discriminate |].
    rewrite (multiplier_init fmt true e m bias Hpar) in Hgen.
    unfold Adder.__init__ in Hgen. rewrite Hpar in Hgen. cbn [bind] in Hgen.
    injection Hgen as <-. split; reflexivity. }
  destruct Hg as [Ga Gm]. split.
  - intros a b acc r Hr Hnp.
    unfold Data_Gen.mac_unit. rewrite Ga, Gm.
    unfold FP8MatrixMultiplier.mac_unit in Hr.
    destruct (FP8MatrixMultiplier.any_pass a b acc);
      [injection Hr as <-; contradiction |].
    destruct (FP8MatrixMultiplier.get_flag _ a) as [fa |];
      cbn [bind] in Hr; [| discriminate].
    destruct (FP8MatrixMultiplier.get_flag _ b) as [fb |];
      cbn [bind] in Hr; [| discriminate].
    destruct (_ || _); [injection Hr as <-; contradiction |].
    change (FP8MatrixMultiplier.multiplier (matmul_object fmt e m bias))
      with (Multiplier.mk fmt e m bias (Adder.mk fmt e m) true) in Hr.
    destruct (Multiplier.multiply _ a b) as [[v | pt] |];
      cbn [bind FP8MatrixMultiplier.product_bits] in Hr; try discriminate.
    cbn [bind].
    destruct (FP8MatrixMultiplier.get_flag _ pt) as [fp |];
      cbn [bind] in Hr; [| discriminate].
    destruct (FP8MatrixMultiplier.inf_or_nan fp);
      [injection Hr as <-; contradiction |].
    change (FP8MatrixMultiplier.adder (matmul_object fmt e m bias))
      with (Adder.mk fmt e m) in Hr.
    destruct (Adder.fp_bin_adder _ acc pt) as [s |];
      cbn [bind] in Hr; [| discriminate].
    destruct (FP8MatrixMultiplier.get_flag _ s) as [fs |];
      cbn [bind] in Hr; [| discriminate].
    destruct (FP8MatrixMultiplier.inf_or_nan fs);
      [injection Hr as <-; contradiction |].
    exact Hr.
  - intros a b c Ha Hb Hc.
    destruct (multiply_bits fmt e m bias Hf Hpar a b Ha Hb) as (q & Hq & Hmul).
    change (FP8MatrixMultiplier.multiplier (matmul_object fmt e m bias))
      with (Multiplier.mk fmt e m bias (Adder.mk fmt e m) true) in Hmul.
    destruct (fp_bin_adder_ok fmt e m bias Hf Hpar c q Hc Hq)
      as (s & Hs & p & Hp & -> & _).
    rewrite (fp_add_unfold fmt e m bias _ _ Hpar) in Hs.
    exists p. split; [exact Hp |].
    unfold Data_Gen.mac_unit. rewrite Ga, Gm, Hmul. cbn [bind]. exact Hs.
Qed.

Lemma X27_data_gen_mac_unit_witness :
  Data_Gen.__init__ 3 4 "e4m3" [PFin 1; PFin 2]
    = Ok (Data_Gen.mk 3 4 (PFin 1) (PFin 2) "e4m3" (Adder.mk "e4m3" 4 3)
            (Multiplier.mk "e4m3" 4 3 7 (Adder.mk "e4m3" 4 3) true)) /\
  FP8MatrixMultiplier.__init__ "e4m3" = Ok (matmul_object "e4m3" 4 3 7) /\
  (forall a b acc r,
     FP8MatrixMultiplier.mac_unit (matmul_object "e4m3" 4 3 7) a b acc = Ok r ->
     r <> "pass" ->
     Data_Gen.mac_unit
       (Data_Gen.mk 3 4 (PFin 1) (PFin 2) "e4m3" (Adder.mk "e4m3" 4 3)
          (Multiplier.mk "e4m3" 4 3 7 (Adder.mk "e4m3" 4 3) true))
       a b acc = Ok r) /\
  (forall a b c,
     0 <= a <= 255 -> 0 <= b <= 255 -> 0 <= c <= 255 ->
     exists p, 0 <= p <= 255 /\
       Data_Gen.mac_unit
         (Data_Gen.mk 3 4 (PFin 1) (PFin 2) "e4m3" (Adder.mk "e4m3" 4 3)
            (Multiplier.mk "e4m3" 4 3 7 (Adder.mk "e4m3" 4 3) true))
         (bits a) (bits b) (bits c) = Ok (bits p)).
Proof.
  assert (H1 : Data_Gen.__init__ 3 4 "e4m3" [PFin 1; PFin 2]
               = Ok (Data_Gen.mk 3 4 (PFin 1) (PFin 2) "e4m3"
                       (Adder.mk "e4m3" 4 3)
                       (Multiplier.mk "e4m3" 4 3 7 (Adder.mk "e4m3" 4 3) true)))
    by reflexivity.
  assert (H2 : FP8MatrixMultiplier.__init__ "e4m3"
               = Ok (matmul_object "e4m3" 4 3 7)) by reflexivity.
  exact (conj H1 (conj H2
           (X27_data_gen_mac_unit "e4m3" 3 4 [PFin 1; PFin 2] _ _ H1 H2))).
Defined.

(** ** The L-Mul matrix product and the sentinel *)

Lemma int_of_2_not_pass (s : string) (n : Z) :
  Py.int_of 2 s = Ok n -> s <> "pass".
Proof. intros H ->. discriminate H. Qed.

Lemma any_pass_false (a b acc : string) :
  a <> "pass" -> b <> "pass" -> acc <> "pass" ->
  FP8MatrixMultiplier.any_pass a b acc = false.
Proof.
  intros Ha Hb Hc. unfold FP8MatrixMultiplier.any_pass. cbn [existsb].
  now rewrite (proj2 (String.eqb_neq _ _) Ha), (proj2 (String.eqb_neq _ _) Hb),
    (proj2 (String.eqb_neq _ _) Hc).
Qed.

(** The L-Mul step returns ["pass"] only when handed it. *)
Lemma lmul_mac_unit_not_pass (self : FP8MatrixMultiplier.t)
    (a b acc r : string) :
  a <> "pass" -> b <> "pass" -> acc <> "pass" ->
  FP8MatrixMultiplier.lmul_mac_unit self a b acc = Ok r -> r <> "pass".
Proof.
  intros Ha Hb Hc. unfold FP8MatrixMultiplier.lmul_mac_unit.
  rewrite (any_pass_false a b acc Ha Hb Hc).
  destruct (FP8MatrixMultiplier.get_flag self a) as [fa |];
    cbn [bind]; [| discriminate].
  destruct (FP8MatrixMultiplier.get_flag self b) as [fb |];
    cbn [bind]; [| discriminate].
  destruct (_ || _); [intros [= <-]; discriminate |].
  destruct (Multiplier.L_Mul _ a b) as [p |]; cbn [bind]; [| discriminate].
  destruct (FP8MatrixMultiplier.product_bits p) as [pt |];
    cbn [bind]; [| discriminate].
  destruct (FP8MatrixMultiplier.get_flag self pt) as [fp |];
    cbn [bind]; [| discriminate].
  destruct (FP8MatrixMultiplier.inf_or_nan fp); [intros [= <-]; discriminate |].
  destruct (Adder.fp_bin_adder _ acc pt) as [s |]; cbn [bind]; [| discriminate].
  unfold FP8MatrixMultiplier.get_flag.
  destruct (Py.int_of 2 s) as [n |] eqn:En; cbn [bind]; [| discriminate].
  destruct (FP8_Codec.decode n _ None) as [d |]; cbn [bind]; [| discriminate].
  destruct (FP8MatrixMultiplier.inf_or_nan _); intros [= <-];
    [discriminate | exact (int_of_2_not_pass s n En)].
Qed.

Lemma init_format (fmt : string) (self : FP8MatrixMultiplier.t) :
  FP8MatrixMultiplier.__init__ fmt = Ok self ->
  In fmt format_names /\
  exists e m bias,
    FP8_Codec._get_format_params fmt = Ok (e, m, bias) /\
    self = matmul_object fmt e m bias.
Proof.
  intros H.
  destruct (in_dec string_dec fmt format_names) as [Hin | Hout].
  - split; [exact Hin |].
    destruct (format_params fmt Hin) as (e & m & bias & Hpar & _).
    exists e, m, bias. split; [exact Hpar |].
    rewrite (matmul_init fmt e m bias Hpar) in H. now injection H as <-.
  - unfold FP8MatrixMultiplier.__init__ in H.
    rewrite (get_format_params_unknown fmt Hout) in H. discriminate H.
Qed.

(** X28. [l_mul_matrix_multiply] never returns a matrix with a ["pass"]
    cell: whenever it returns, every cell holds a decoded value.  Its step
    reports an infinity or a NaN with sentinels other than ["pass"], so
    the test [dot_product == "pass"] after the loop never holds. *)
Theorem X28_lmul_matrix_no_pass_cell (fmt : string)
    (self : FP8MatrixMultiplier.t) (A B : ndarray)
    (C : list (list FP8MatrixMultiplier.cell)) :
  FP8MatrixMultiplier.__init__ fmt = Ok self ->
  Matmul.l_mul_matrix_multiply self A B = Ok C ->
  Forall (Forall (fun c => exists x, c = FP8MatrixMultiplier.CVal x)) C.
Proof.
  intros Hself HC.
  destruct (init_format fmt self Hself) as (Hf & e & m & bias & Hpar & ->).
  set (self := matmul_object fmt e m bias) in *.
  assert (Henc : forall x s, FP8_Codec.encode x fmt = Ok s -> s <> "pass").
  { intros x s Hs.
    destruct (encode_pattern fmt e m bias x Hf Hpar) as (p & Hp & He & _).
    rewrite He in Hs. injection Hs as <-.
    apply String.eqb_neq, bits_not_pass, Hp. }
  assert (Hloop : forall i j ks acc r,
            acc <> "pass" ->
            Matmul.inner_loop self (FP8MatrixMultiplier.lmul_mac_unit self)
              A B i j ks acc = Ok r -> r <> "pass").
  { intros i j ks. induction ks as [| k ks IH]; intros acc r Hacc Hr.
    - cbn [Matmul.inner_loop] in Hr. now injection Hr as <-.
    - cbn [Matmul.inner_loop] in Hr.
      destruct (getitem2 A i k) as [x |]; cbn [bind] in Hr; [| discriminate].
      change (FP8MatrixMultiplier.format self) with fmt in Hr.
      destruct (FP8_Codec.encode x fmt) as [sa |] eqn:Ea;
        cbn [bind] in Hr; [| discriminate].
      destruct (getitem2 B k j) as [y |]; cbn [bind] in Hr; [| discriminate].
      destruct (FP8_Codec.encode y fmt) as [sb |] eqn:Eb;
        cbn [bind] in Hr; [| discriminate].
      destruct (FP8MatrixMultiplier.lmul_mac_unit self sa sb acc)
        as [acc' |] eqn:Eu; cbn [bind] in Hr; [| discriminate].
      apply (IH acc' r); [| exact Hr].
      exact (lmul_mac_unit_not_pass self sa sb acc acc'
               (Henc x sa Ea) (Henc y sb Eb) Hacc Eu). }
  unfold Matmul.l_mul_matrix_multiply, Matmul.matrix_loop in HC.
  cbv zeta in HC. change (FP8MatrixMultiplier.format self) with fmt in HC.
  rewrite Hpar in HC. cbn [bind] in HC.
  refine (for_each_all _ _ _ _ _ HC). intros i row _ Hrow.
  refine (for_each_all _ _ _ _ _ Hrow). intros j c _ Hc.
  unfold Matmul.cell_loop in Hc.
  destruct (Matmul.inner_loop _ _ A B i j _ _) as [r |] eqn:Er;
    cbn [bind] in Hc; [| discriminate].
  assert (Hnp : r <> "pass").
  { apply (Hloop i j _ _ r) in Er; [exact Er |].
    destruct (special_bits fmt e m bias false Hf Hpar) as (_ & _ & Hz & _).
    rewrite Hz. apply String.eqb_neq, bits_not_pass. lia. }
  rewrite (proj2 (String.eqb_neq _ _) Hnp) in Hc.
  destruct (Py.int_of 2 r) as [n |]; cbn [bind] in Hc; [| discriminate].
  destruct (FP8_Codec.decode n _ None) as [d |]; cbn [bind] in Hc;
    [| discriminate].
  injection Hc as <-. eexists. reflexivity.
Qed.

Lemma X28_lmul_matrix_no_pass_cell_witness :
  FP8MatrixMultiplier.__init__ "e4m3" = Ok (matmul_object "e4m3" 4 3 7) /\
  Matmul.l_mul_matrix_multiply (matmul_object "e4m3" 4 3 7)
    (mk_ndarray 1 2 [[PFin 1; PFin (3 # 2)]])
    (mk_ndarray 2 1 [[PFin 2]; [PFin (1 # 2)]])
    = Ok [[FP8MatrixMultiplier.CVal (PFin (24 # 8))]] /\
  Forall (Forall (fun c => exists x, c = FP8MatrixMultiplier.CVal x))
    [[FP8MatrixMultiplier.CVal (PFin (24 # 8))]].
Proof.
  assert (H1 : FP8MatrixMultiplier.__init__ "e4m3"
               = Ok (matmul_object "e4m3" 4 3 7)) by reflexivity.
  assert (H2 : Matmul.l_mul_matrix_multiply (matmul_object "e4m3" 4 3 7)
                 (mk_ndarray 1 2 [[PFin 1; PFin (3 # 2)]])
                 (mk_ndarray 2 1 [[PFin 2]; [PFin (1 # 2)]])
               = Ok [[FP8MatrixMultiplier.CVal (PFin (24 # 8))]])
    by (vm_compute; reflexivity).
  exact (conj H1 (conj H2
           (X28_lmul_matrix_no_pass_cell "e4m3" _ _ _ _ H1 H2))).
Defined.
